(** * The stargazer fetcher (watchdog.py) and its filename helper (analyze.py)

    A shallow embedding of the fetch functions of [watchdog.py], of the
    record shaping done by [fetch_and_save_stargazer_data], and of
    [sanitize_filename] as it appears in [watchdog.py] and [analyze.py].

    The program talks to the GitHub REST API and to the clock.  Both are
    inputs here: a run is driven by a _script_, the list of what each
    successive [requests.get] call yields together with what [time.time()]
    reads while that reply is being handled.  Every actual run consumes some
    script, so a statement over all scripts covers all runs.  What the
    program does to the world, its requests and its [time.sleep] calls, is
    returned as a trace.  [print] calls are left out. *)

From Stdlib Require Import List String Ascii ZArith QArith Bool Lia.
From Stdlib Require Import DecimalString.
Import ListNotations.

Local Open Scope string_scope.
Local Open Scope list_scope.
Local Open Scope Z_scope.

(** ** Strings *)

(** The double-quote character, U+0022. *)
Definition dquote : ascii := ascii_of_nat 34.

Fixpoint map_string (f : ascii -> ascii) (s : string) : string :=
  match s with
  | EmptyString => EmptyString
  | String c s' => String (f c) (map_string f s')
  end.

(** The character class of the pattern handed to [re.sub]: the nine
    characters less-than, greater-than, colon, double quote, slash,
    backslash (written escaped in the raw pattern), bar, question mark and
    star. *)
Definition illegal_chars : list ascii :=
  ["<"; ">"; ":"; dquote; "/"; "\"; "|"; "?"; "*"]%char.

Definition is_illegal (c : ascii) : bool :=
  existsb (Ascii.eqb c) illegal_chars.

(** [sanitize_filename] of watchdog.py:
    [re.sub] with a one-character class as pattern and an underscore as
    replacement rewrites every character of the class, one by one. *)
Definition sanitize_filename (name : string) : string :=
  map_string (fun c => if is_illegal c then "_"%char else c) name.

Module Analyze.

(** [sanitize_filename] of analyze.py, the same line of code. *)
Definition sanitize_filename (name : string) : string :=
  let name := map_string
    (fun c => if existsb (Ascii.eqb c)
                   ["<"; ">"; ":"; dquote; "/"; "\"; "|"; "?"; "*"]%char
              then "_"%char else c) name in
  name.

(** [generate_filenames] of analyze.py; [timestamp] is what
    [datetime.datetime.now().strftime("%Y%m%d_%H%M%S")] gives. *)
Definition generate_filenames (owner repo timestamp : string)
  : list (string * string) :=
  let sanitized_owner := sanitize_filename owner in
  let sanitized_repo := sanitize_filename repo in
  let base_name :=
    (sanitized_owner ++ "_" ++ sanitized_repo ++ "_" ++ timestamp)%string in
  [ ("analysis_csv", (base_name ++ "_stargazer_analysis.csv")%string);
    ("owned_list_csv", (base_name ++ "_all_owned_repos_list.csv")%string);
    ("report_md", (base_name ++ "_analysis_report.md")%string);
    ("owned_repos_plot", (base_name ++ "_common_owned_repos.png")%string);
    ("status_plot",
     (base_name ++ "_account_status_distribution.png")%string) ].

End Analyze.

(** [str.lower()] on the ASCII range. *)
Definition lower_char (c : ascii) : ascii :=
  let n := nat_of_ascii c in
  if ((65 <=? n)%nat && (n <=? 90)%nat)%bool then ascii_of_nat (n + 32) else c.

Definition lower (s : string) : string := map_string lower_char s.

Fixpoint prefixb (p s : string) : bool :=
  match p, s with
  | EmptyString, _ => true
  | String a p', String b s' => (Ascii.eqb a b && prefixb p' s')%bool
  | String _ _, EmptyString => false
  end.

(** [sub in s] on strings. *)
Fixpoint contains (sub s : string) : bool :=
  (prefixb sub s ||
   match s with
   | EmptyString => false
   | String _ s' => contains sub s'
   end)%bool.

Fixpoint join (sep : string) (l : list string) : string :=
  match l with
  | [] => ""
  | [x] => x
  | x :: l' => (x ++ sep ++ join sep l')%string
  end.

(** [str(n)] for a Python int. *)
Definition str_of_Z (n : Z) : string := NilZero.string_of_int (Z.to_int n).

(** ** Python values and JSON payloads *)

(** The scalars that end up as values of the dicts the program builds, and
    that it reads out of the user object and the events.  (JSON floats do
    not occur in the fields the program reads and are left out.) *)
Inductive PyVal :=
| PNone
| PBool (b : bool)
| PInt (n : Z)
| PStr (s : string).

(** A dict with string keys, in insertion order. *)
Definition Dict := list (string * PyVal).

Fixpoint dict_get (d : Dict) (k : string) : option PyVal :=
  match d with
  | [] => None
  | (k', v) :: d' => if String.eqb k' k then Some v else dict_get d' k
  end.

(** [d.get(k, default)] *)
Definition dict_get_default (d : Dict) (k : string) (default : PyVal) : PyVal :=
  match dict_get d k with Some v => v | None => default end.

(** [d[k] = v]: an existing key keeps its place, a new key goes last. *)
Fixpoint dict_set {V : Type} (d : list (string * V)) (k : string) (v : V)
  : list (string * V) :=
  match d with
  | [] => [(k, v)]
  | (k', v') :: d' =>
      if String.eqb k' k then (k', v) :: d' else (k', v') :: dict_set d' k v
  end.

(** [k in d] *)
Definition dict_has (d : Dict) (k : string) : bool :=
  match dict_get d k with Some _ => true | None => false end.

(** The JSON objects the API sends are taken at the shape the program reads
    them: a field read with a subscript is a field of the record, a field
    read with [.get] is optional.  The user object, read with [.get] only
    and tested for emptiness, stays a dict. *)
Record Stargazer := { login : string }.

Record Repo := {
  name : string;
  full_name : string;
  description : option string      (* absent or null when [None] *)
}.

(** What an event holds under the key [repo]: [.get] is called on it, which
    only an object has. *)
Inductive RepoValue :=
| RepoObject (repo : Dict)   (* a JSON object *)
| RepoOther.                 (* null, a string, a number, a list *)

(** An event is an object read with [.get] only, so a key may be absent
    ([None]); a JSON null under a key that is there is [Some PNone].  What
    the program formats, the values under [type] and [created_at] and the
    [name] of the repository, are scalars. *)
Record Activity := {
  ev_type : option PyVal;          (* under 'type' *)
  ev_created_at : option PyVal;    (* under 'created_at' *)
  ev_repo : option RepoValue       (* under 'repo' *)
}.

(** What [response.json()] gives: the body always parses, and to the shape
    of one of the four endpoints.  Where a function meets the shape of
    another endpoint, which would make the Python code fail on a subscript
    or an attribute further on (a [TypeError], [KeyError] or
    [AttributeError]), the model ends the run with [BadPayload] at the call
    of [response.json()]. *)
Inductive Json :=
| JStargazers (l : list Stargazer)
| JRepos (l : list Repo)
| JEvents (l : list Activity)
| JUser (d : Dict).

(** [len(response.json())] *)
Definition json_len (j : Json) : Z :=
  match j with
  | JStargazers l => Z.of_nat (List.length l)
  | JRepos l => Z.of_nat (List.length l)
  | JEvents l => Z.of_nat (List.length l)
  | JUser d => Z.of_nat (List.length d)
  end.

(** ** HTTP responses, the script and the trace *)

(** What lines 306-318 of watchdog.py make of the [Link] header of the
    reply to [.../starred?per_page=1]. *)
Inductive LastLink :=
| NoLast                 (* no Link header, or none with rel=last *)
| LastPage (page_num : Z) (* the last link's page number, parsed by int() *)
| LastUnparsed           (* int() raises ValueError, which is caught *)
| LastNoPage.            (* the last link has no &page=: IndexError *)

(** A response, with the two quota headers already read by [int()]: they
    hold integers when GitHub sends them. *)
Record Response := {
  status_code : Z;
  text : string;
  ratelimit_remaining : option Z;   (* header X-RateLimit-Remaining *)
  ratelimit_reset : option Z;       (* header X-RateLimit-Reset *)
  has_next : bool;                  (* 'next' in response.links *)
  link_last : LastLink;
  json : Json
}.

(** [requests.get] returns a response or raises a [RequestException]
    (connection error, timeout) without one. *)
Inductive Reply :=
| NetErr
| Resp (r : Response).

(** One step of the script: the reply to the next request, and what the two
    calls of [time.time()] of the rate-limit branch read if it is taken. *)
Record Step := {
  reply : Reply;
  clock1 : Q;      (* time.time() in the default of headers.get *)
  clock2 : Q       (* time.time() in reset_time - time.time() *)
}.

Inductive Url :=
| UrlStargazers (owner repo : string) (page per_page : Z)
| UrlUser (username : string)
| UrlRepos (username : string) (page per_page : Z)
| UrlStarred (username : string)          (* ?page=1&per_page=100 *)
| UrlStarredCount (username : string)     (* ?per_page=1 *)
| UrlEvents (username : string) (page : Z). (* &per_page=30 *)

Inductive Ev :=
| EvGet (u : Url)
| EvSleep (seconds : Q).

(** Exceptions that no handler of the program catches. *)
Inductive Exn :=
| UnboundLocalError    (* [response] read before any assignment *)
| IndexError           (* subscript out of range *)
| AttributeError       (* [.get] on a value that is not an object *)
| BadPayload.          (* a payload of another endpoint's shape is used *)

Inductive Run (A : Type) :=
| Returned (a : A)
| Raised (e : Exn)
| Starved.             (* the script ended before the run did *)

Arguments Returned {A} a.
Arguments Raised {A} e.
Arguments Starved {A}.

Record Out (A : Type) := mkOut {
  result : Run A;
  rest : list Step;     (* the script left over *)
  trace : list Ev       (* requests and sleeps, in order *)
}.

Arguments mkOut {A} result rest trace.
Arguments result {A} o.
Arguments rest {A} o.
Arguments trace {A} o.

Definition M (A : Type) : Type := list Step -> Out A.

Definition done {A} (a : A) : M A := fun script => mkOut (Returned a) script [].
Definition raised {A} (e : Exn) : M A := fun script => mkOut (Raised e) script [].
Definition starved {A} : Out A := mkOut Starved [] [].

(** Events that happen before what [o] does. *)
Definition emit {A} (evs : list Ev) (o : Out A) : Out A :=
  mkOut (result o) (rest o) (evs ++ trace o).

Definition bind {A B} (m : M A) (f : A -> M B) : M B := fun script =>
  let o := m script in
  match result o with
  | Returned a => emit (trace o) (f a (rest o))
  | Raised e => mkOut (Raised e) (rest o) (trace o)
  | Starved => mkOut Starved (rest o) (trace o)
  end.

Notation "x <- m ;; k" := (bind m (fun x => k))
  (at level 61, m at next level, right associativity).

(** ** Constants and the code shared by the six fetch functions *)

Definition REQUEST_DELAY : Q := 1 # 2.

(** [response.raise_for_status()] raises for 4xx and 5xx. *)
Definition raises (r : Response) : bool :=
  (400 <=? status_code r) && (status_code r <? 600).

(** The test of the rate-limit branch. *)
Definition rate_limited (r : Response) : bool :=
  (status_code r =? 403) &&
  (contains "rate limit exceeded" (lower (text r)) ||
   contains "secondary rate limit" (lower (text r))).

(** [int(x)] on a float: truncation towards zero. *)
Definition int_of_Q (x : Q) : Z := Z.quot (Qnum x) (Zpos (Qden x)).

(** [max(a, b)]: the first argument unless the second is greater. *)
Definition py_max (a b : Q) : Q := if Qle_bool b a then a else b.

(** [sleep_duration] of the rate-limit branch. *)
Definition sleep_duration (r : Response) (st : Step) : Q :=
  let reset_time :=
    match ratelimit_reset r with
    | Some v => v
    | None => int_of_Q (clock1 st + 3600)
    end in
  py_max (inject_Z reset_time - clock2 st) 60.

(** The check after [raise_for_status]:
    [remaining = int(headers.get('X-RateLimit-Remaining', 0))] and a sleep
    of 60 seconds when it is below 10. *)
Definition quota_pause (r : Response) : list Ev :=
  let remaining := match ratelimit_remaining r with Some v => v | None => 0 end in
  if remaining <? 10 then [EvSleep 60] else [].

(** The [except RequestException] block, the same in all six functions up
    to what it prints: [response] is the local variable as it stands, [None]
    when it was never assigned. *)
Inductive Handled :=
| Unbound              (* UnboundLocalError at [if response is not None] *)
| Retry (seconds : Q)  (* sleep, then retry *)
| GiveUp.              (* break / return None *)

Definition on_request_exception (response : option Response) (st : Step)
  : Handled :=
  match response with
  | None => Unbound
  | Some r => if rate_limited r then Retry (sleep_duration r st) else GiveUp
  end.

(** [l[:n]] *)
Definition py_take {A} (n : Z) (l : list A) : list A :=
  if n <? 0 then firstn (List.length l - Z.to_nat (- n)) l
  else firstn (Z.to_nat n) l.

Definition is_empty {A} (l : list A) : bool :=
  match l with [] => true | _ => false end.

(** ** get_stargazers *)

(** The head of the loop body: [None] is the [break] on
    [remaining_needed <= 0], [Some n] the [current_per_page] to request. *)
Definition stargazers_per_page (limit : option Z) (fetched_count : Z)
  : option Z :=
  let per_page := 100 in
  match limit with
  | None => Some per_page
  | Some limit =>
      let remaining_needed := limit - fetched_count in
      if remaining_needed <=? 0 then None
      else if remaining_needed <? per_page then Some remaining_needed
      else Some per_page
  end.

(** [limit is not None and fetched_count >= limit] *)
Definition limit_reached (limit : option Z) (fetched_count : Z) : bool :=
  match limit with
  | None => false
  | Some limit => limit <=? fetched_count
  end.

(** [stargazers[:limit]] under that test. *)
Definition trim (limit : option Z) (stargazers : list Stargazer)
  : list Stargazer :=
  match limit with
  | None => stargazers
  | Some limit => py_take limit stargazers
  end.

(** The [while True] loop; its arguments are the locals that live across
    iterations.  Each iteration that does not break at its head takes one
    step of the script. *)
Fixpoint get_stargazers_loop (owner repo : string) (limit : option Z)
    (stargazers : list Stargazer) (page fetched_count : Z)
    (response : option Response) (script : list Step) {struct script}
  : Out (list Stargazer) :=
  match stargazers_per_page limit fetched_count with
  | None => done stargazers script
  | Some current_per_page =>
    match script with
    | [] => starved
    | st :: script' =>
      let handler (response : option Response) :=
        match on_request_exception response st with
        | Unbound => raised UnboundLocalError script'
        | Retry seconds =>
            emit [EvSleep seconds]
              (get_stargazers_loop owner repo limit stargazers page
                 fetched_count response script')
        | GiveUp => done stargazers script'
        end in
      emit [EvGet (UrlStargazers owner repo page current_per_page)]
        match reply st with
        | NetErr => handler response
        | Resp r =>
          if raises r then handler (Some r)
          else emit (quota_pause r)
            match json r with
            | JStargazers data =>
              if is_empty data then done stargazers script'
              else
                let stargazers := stargazers ++ data in
                let fetched_count := fetched_count + Z.of_nat (List.length data) in
                if limit_reached limit fetched_count
                then done (trim limit stargazers) script'
                else if negb (has_next r) then done stargazers script'
                else emit [EvSleep REQUEST_DELAY]
                       (get_stargazers_loop owner repo limit stargazers
                          (page + 1) fetched_count (Some r) script')
            | _ => raised BadPayload script'
            end
        end
    end
  end.

Definition get_stargazers (owner repo : string) (limit : option Z)
  : M (list Stargazer) :=
  get_stargazers_loop owner repo limit [] 1 0 None.

(** ** get_user_details *)

(** Returns the user object, or [None] (Python's [None]) on failure.  The
    retry is a recursive call, with fresh locals; the bound Python puts on the
    depth of recursion is not part of the model. *)
Fixpoint get_user_details (username : string) (script : list Step)
  {struct script} : Out (option Dict) :=
  match script with
  | [] => starved
  | st :: script' =>
    emit [EvGet (UrlUser username)]
      match reply st with
      | NetErr =>
        match on_request_exception None st with
        | Unbound => raised UnboundLocalError script'
        | Retry seconds =>
            emit [EvSleep seconds] (get_user_details username script')
        | GiveUp => done None script'
        end
      | Resp r =>
        if raises r then
          if status_code r =? 404 then done None script'   (* prints only *)
          else
            match on_request_exception (Some r) st with
            | Unbound => raised UnboundLocalError script'
            | Retry seconds =>
                emit [EvSleep seconds] (get_user_details username script')
            | GiveUp => done None script'
            end
        else emit (quota_pause r)
          match json r with
          | JUser user_data =>
              emit [EvSleep REQUEST_DELAY] (done (Some user_data) script')
          | _ => raised BadPayload script'
          end
      end
  end.

(** ** get_user_repos *)

(** [(repo['name'], repo.get('description', '') or '')] *)
Definition repo_tuple (r : Repo) : string * string :=
  (name r, match description r with Some d => d | None => "" end).

Fixpoint get_user_repos_loop (username : string) (limit : Z)
    (repos : list Repo) (page per_page fetched_count : Z)
    (response : option Response) (script : list Step) {struct script}
  : Out (option (list (string * string))) :=
  let finish (repos : list Repo) :=
    done (Some (map repo_tuple (py_take limit repos))) in
  if negb (fetched_count <? limit) then finish repos script
  else
    match script with
    | [] => starved
    | st :: script' =>
      let handler (response : option Response) :=
        match on_request_exception response st with
        | Unbound => raised UnboundLocalError script'
        | Retry seconds =>
            emit [EvSleep seconds]
              (get_user_repos_loop username limit repos page per_page
                 fetched_count response script')
        | GiveUp => done None script'
        end in
      emit [EvGet (UrlRepos username page per_page)]
        match reply st with
        | NetErr => handler response
        | Resp r =>
          if raises r then handler (Some r)
          else emit (quota_pause r)
            match json r with
            | JRepos data =>
              if is_empty data then finish repos script'
              else
                let repos := repos ++ data in
                let fetched_count := fetched_count + Z.of_nat (List.length data) in
                if (limit <=? fetched_count) || negb (has_next r)
                then finish repos script'
                else
                  let page := page + 1 in
                  let remaining_needed := limit - fetched_count in
                  let per_page :=
                    if remaining_needed <? per_page then remaining_needed
                    else per_page in
                  emit [EvSleep REQUEST_DELAY]
                    (get_user_repos_loop username limit repos page per_page
                       fetched_count (Some r) script')
            | _ => raised BadPayload script'
            end
        end
    end.

Definition get_user_repos (username : string) (limit : Z)
  : M (option (list (string * string))) :=
  let per_page := Z.min limit 100 in
  if limit <=? 0 then done (Some [])
  else get_user_repos_loop username limit [] 1 per_page 0 None.

(** ** get_starred_repos *)

(** [(repo['full_name'], repo.get('description', '') or '')] *)
Definition starred_tuple (r : Repo) : string * string :=
  (full_name r, match description r with Some d => d | None => "" end).

Fixpoint get_starred_repos (username : string) (script : list Step)
  {struct script} : Out (option (list (string * string))) :=
  match script with
  | [] => starved
  | st :: script' =>
    let handler (response : option Response) :=
      match on_request_exception response st with
      | Unbound => raised UnboundLocalError script'
      | Retry seconds =>
          emit [EvSleep seconds] (get_starred_repos username script')
      | GiveUp => done None script'
      end in
    emit [EvGet (UrlStarred username)]
      match reply st with
      | NetErr => handler None
      | Resp r =>
        if status_code r =? 404 then done None script'
        else if raises r then handler (Some r)
        else emit (quota_pause r)
          match json r with
          | JRepos starred_list_data =>
              emit [EvSleep REQUEST_DELAY]
                (done (Some (map starred_tuple starred_list_data)) script')
          | _ => raised BadPayload script'
          end
      end
  end.

(** ** get_total_starred_count *)

(** Returns an int, the string [Private], a string [n+], or [None].  The
    request URL ends in [per_page=1], which is what [response.url] is split
    for, so [int(per_page)] is 1.  The [time.sleep(REQUEST_DELAY)] that ends
    the [try] block follows a [return] on both branches and is never run. *)
Fixpoint get_total_starred_count (username : string) (script : list Step)
  {struct script} : Out PyVal :=
  match script with
  | [] => starved
  | st :: script' =>
    emit [EvGet (UrlStarredCount username)]
      match reply st with
      | NetErr =>
        match on_request_exception None st with
        | Unbound => raised UnboundLocalError script'
        | Retry seconds =>
            emit [EvSleep seconds] (get_total_starred_count username script')
        | GiveUp => done PNone script'
        end
      | Resp response =>
        if status_code response =? 404 then done (PStr "Private") script'
        else if raises response then
          match on_request_exception (Some response) st with
          | Unbound => raised UnboundLocalError script'
          | Retry seconds =>
              emit [EvSleep seconds] (get_total_starred_count username script')
          | GiveUp => done PNone script'
          end
        else emit (quota_pause response)
          match link_last response with
          | LastPage page_num => done (PInt (page_num * 1)) script'
          | LastNoPage => raised IndexError script'
          | NoLast | LastUnparsed =>
            match script' with
            | [] => starved
            | st2 :: script'' =>
              (* the handler still looks at [response], not [user_response] *)
              let handler :=
                match on_request_exception (Some response) st2 with
                | Unbound => raised UnboundLocalError script''
                | Retry seconds =>
                    emit [EvSleep seconds]
                      (get_total_starred_count username script'')
                | GiveUp => done PNone script''
                end in
              emit [EvGet (UrlUser username)]
                match reply st2 with
                | NetErr => handler
                | Resp user_response =>
                  if raises user_response then handler
                  else
                    let first_page_count := json_len (json response) in
                    if has_next response
                    then done (PStr (str_of_Z first_page_count ++ "+")%string) script''
                    else done (PInt first_page_count) script''
                end
            end
          end
      end
  end.

(** ** get_user_activity *)

(** [str(v)], which is what an f-string makes of a value. *)
Definition py_str (v : PyVal) : string :=
  match v with
  | PNone => "None"
  | PBool true => "True"
  | PBool false => "False"
  | PInt n => str_of_Z n
  | PStr s => s
  end.

(** [activity.get(key, 'Unknown')]: the default stands in for an absent key
    only, a null comes back as [None]. *)
Definition or_unknown (v : option PyVal) : PyVal :=
  match v with Some v => v | None => PStr "Unknown" end.

(** [activity.get('repo', {}).get('name', 'Unknown')]; [None] is the
    [AttributeError] of a [repo] that is not an object. *)
Definition repo_name (a : Activity) : option PyVal :=
  match ev_repo a with
  | None => Some (dict_get_default [] "name" (PStr "Unknown"))
  | Some (RepoObject repo) => Some (dict_get_default repo "name" (PStr "Unknown"))
  | Some RepoOther => None
  end.

(** [f"{created_at}: {event_type} on {repo_name}"] *)
Definition format_activity (a : Activity) : option string :=
  let event_type := or_unknown (ev_type a) in
  let created_at := or_unknown (ev_created_at a) in
  match repo_name a with
  | Some repo_name =>
      Some (py_str created_at ++ ": " ++ py_str event_type
              ++ " on " ++ py_str repo_name)%string
  | None => None
  end.

(** The loop [for activity in activities]; it sits outside the [try] block,
    so the first line that raises ends the function. *)
Fixpoint format_activities (activities : list Activity)
  : option (list string) :=
  match activities with
  | [] => Some []
  | activity :: activities' =>
      match format_activity activity with
      | Some formatted_activity =>
          option_map (cons formatted_activity) (format_activities activities')
      | None => None
      end
  end.

(** The lines after the [while] loop. *)
Definition formatted_activities (activities : list Activity)
  : M (option (list string)) :=
  if is_empty activities then done (Some [])
  else
    match format_activities activities with
    | Some formatted => done (Some formatted)
    | None => raised AttributeError
    end.

(** The [while page <= max_pages] loop: [Some activities] when it is left by
    its condition or by a [break], [None] when the function returns [None]
    from inside it. *)
Fixpoint get_user_activity_loop (username : string) (max_pages : Z)
    (activities : list Activity) (page : Z)
    (response : option Response) (script : list Step) {struct script}
  : Out (option (list Activity)) :=
  if negb (page <=? max_pages) then done (Some activities) script
  else
    match script with
    | [] => starved
    | st :: script' =>
      let handler (response : option Response) :=
        match on_request_exception response st with
        | Unbound => raised UnboundLocalError script'
        | Retry seconds =>
            emit [EvSleep seconds]
              (get_user_activity_loop username max_pages activities page
                 response script')
        | GiveUp => done None script'
        end in
      emit [EvGet (UrlEvents username page)]
        match reply st with
        | NetErr => handler response
        | Resp r =>
          if status_code r =? 404 then done None script'
          else if raises r then handler (Some r)
          else emit (quota_pause r)
            match json r with
            | JEvents data =>
              if is_empty data then done (Some activities) script'
              else
                let activities := activities ++ data in
                if negb (has_next r) || (max_pages <=? page)
                then done (Some activities) script'
                else emit [EvSleep REQUEST_DELAY]
                       (get_user_activity_loop username max_pages activities
                          (page + 1) (Some r) script')
            | _ => raised BadPayload script'
            end
        end
    end.

Definition get_user_activity (username : string) (max_pages : Z)
  : M (option (list string)) :=
  left <- get_user_activity_loop username max_pages [] 1 None ;;
  match left with
  | Some activities => formatted_activities activities
  | None => done None
  end.

(** ** fetch_and_save_stargazer_data *)

(** What the loop over the stargazers builds and the CSV writers are then
    handed: the list of records and the three maps keyed by login. *)
Record Analysis := {
  analysis_results : list Dict;
  user_all_starred_map : list (string * list (string * string));
  user_owned_repos_map : list (string * list (string * string));
  user_activity_map : list (string * list string)
}.

Definition no_analysis : Analysis :=
  {| analysis_results := []; user_all_starred_map := [];
     user_owned_repos_map := []; user_activity_map := [] |}.

(** The initial [user_data] of a stargazer. *)
Definition default_user_data (login : string) : Dict :=
  [ ("login", PStr login); ("created_at", PStr "Error");
    ("public_repos", PStr "Error"); ("has_public_repos", PStr "Error");
    ("followers", PStr "Error"); ("following", PStr "Error");
    ("top_5_repos", PStr "Error"); ("top_5_repos_descriptions", PStr "Error");
    ("starred_repo_status", PStr "Error"); ("starred_repos_sample", PStr "Error");
    ("starred_repos_descriptions", PStr "Error"); ("user_activity", PStr "Error") ].

(** [x > 0 if isinstance(x, int) else 'Error']; a bool is an int in Python. *)
Definition positive_or_error (x : PyVal) : PyVal :=
  match x with
  | PInt n => PBool (0 <? n)
  | PBool b => PBool b
  | _ => PStr "Error"
  end.

(** [user_data.update({...})] and the line after it. *)
Definition with_details (user_data details : Dict) : Dict :=
  let user_data := dict_set user_data "created_at"
                     (dict_get_default details "created_at" (PStr "N/A")) in
  let user_data := dict_set user_data "public_repos"
                     (dict_get_default details "public_repos" (PInt 0)) in
  let user_data := dict_set user_data "followers"
                     (dict_get_default details "followers" (PInt 0)) in
  let user_data := dict_set user_data "following"
                     (dict_get_default details "following" (PInt 0)) in
  dict_set user_data "has_public_repos"
    (positive_or_error (dict_get_default user_data "public_repos" PNone)).

(** [user_data['has_public_repos'] is True] *)
Definition has_public_repos (user_data : Dict) : bool :=
  match dict_get user_data "has_public_repos" with
  | Some (PBool true) => true
  | _ => false
  end.

(** [sep.join(l) if l else "None"] *)
Definition join_or_none (sep : string) (l : list string) : string :=
  if is_empty l then "None" else join sep l.

(** The block under [# Fetch Owned Repos]. *)
Definition fetch_owned_repos (login : string) (user_data : Dict)
    (acc : Analysis) : M (Dict * Analysis) :=
  if has_public_repos user_data then
    top_5_repos_list <- get_user_repos login 5 ;;
    match top_5_repos_list with
    | None =>
        let user_data := dict_set user_data "top_5_repos"
                           (PStr "Error fetching repos") in
        let user_data := dict_set user_data "top_5_repos_descriptions"
                           (PStr "Error fetching repos") in
        done (user_data, acc)
    | Some top_5_repos_list =>
        let repo_names := map fst top_5_repos_list in
        let repo_descriptions := map snd top_5_repos_list in
        let user_data := dict_set user_data "top_5_repos"
                           (PStr (join_or_none ", " repo_names)) in
        let user_data := dict_set user_data "top_5_repos_descriptions"
                           (PStr (join_or_none " | " repo_descriptions)) in
        done (user_data,
              {| analysis_results := analysis_results acc;
                 user_all_starred_map := user_all_starred_map acc;
                 user_owned_repos_map :=
                   dict_set (user_owned_repos_map acc) login top_5_repos_list;
                 user_activity_map := user_activity_map acc |})
    end
  else
    let user_data := dict_set user_data "top_5_repos"
                       (PStr "N/A (0 public repos)") in
    let user_data := dict_set user_data "top_5_repos_descriptions"
                       (PStr "N/A (0 public repos)") in
    done (user_data, acc).

(** The block under [if starred_repos_list is not None], on [user_data]. *)
Definition with_starred (user_data : Dict)
    (starred_repos_list : option (list (string * string)))
    (total_starred_count : PyVal) : Dict :=
  match starred_repos_list with
  | Some starred_repos_list =>
      let user_data :=
        if Z.of_nat (List.length starred_repos_list) =? 0 then
          let user_data := dict_set user_data "starred_repo_status"
                             (PStr "Private (No Access to Starred Repo)") in
          let user_data := dict_set user_data "starred_repos_sample"
                             (PStr "None") in
          dict_set user_data "starred_repos_descriptions" (PStr "None")
        else
          let user_data := dict_set user_data "starred_repo_status"
                             (PStr "Public (Has Starred Repos)") in
          let display_count := 10 in
          let sample_list := py_take display_count starred_repos_list in
          let starred_names := map fst sample_list in
          let starred_descriptions := map snd sample_list in
          let sample := join ", " starred_names in
          let user_data := dict_set user_data "starred_repos_sample"
                             (PStr sample) in
          let user_data := dict_set user_data "starred_repos_descriptions"
                             (PStr (join " | " starred_descriptions)) in
          if display_count <? Z.of_nat (List.length starred_repos_list) then
            let more_count :=
              Z.of_nat (List.length starred_repos_list) - display_count in
            dict_set user_data "starred_repos_sample"
              (PStr (sample ++ ", ... (" ++ str_of_Z more_count ++ " more)")%string)
          else user_data in
      dict_set user_data "total_starred_count" total_starred_count
  | None => user_data     (* the 'Error' status remains *)
  end.

(** The same block, on the map kept for export. *)
Definition save_starred (login : string)
    (starred_repos_list : option (list (string * string)))
    (acc : Analysis) : Analysis :=
  match starred_repos_list with
  | Some starred_repos_list =>
      {| analysis_results := analysis_results acc;
         user_all_starred_map :=
           dict_set (user_all_starred_map acc) login starred_repos_list;
         user_owned_repos_map := user_owned_repos_map acc;
         user_activity_map := user_activity_map acc |}
  | None => acc
  end.

(** [is_public_user] *)
Definition is_public_user (user_data : Dict)
    (starred_repos_list : option (list (string * string))) : bool :=
  has_public_repos user_data ||
  match starred_repos_list with
  | Some l => 0 <? Z.of_nat (List.length l)
  | None => false
  end.

(** The block under [# Fetch User Activity]. *)
Definition fetch_activity (login : string) (user_data : Dict)
    (starred_repos_list : option (list (string * string)))
    (acc : Analysis) : M (Dict * Analysis) :=
  if is_public_user user_data starred_repos_list then
    user_activity <- get_user_activity login 1 ;;
    match user_activity with
    | None =>
        done (dict_set user_data "user_activity"
                (PStr "Error fetching activity or private"), acc)
    | Some [] =>
        done (dict_set user_data "user_activity" (PStr "No recent activity"),
              acc)
    | Some user_activity =>
        let shown := join " || " (py_take 10 user_activity) in
        let shown :=
          if 10 <? Z.of_nat (List.length user_activity) then
            (shown ++ " || ... ("
               ++ str_of_Z (Z.of_nat (List.length user_activity) - 10)
               ++ " more events)")%string
          else shown in
        done (dict_set user_data "user_activity" (PStr shown),
              {| analysis_results := analysis_results acc;
                 user_all_starred_map := user_all_starred_map acc;
                 user_owned_repos_map := user_owned_repos_map acc;
                 user_activity_map :=
                   dict_set (user_activity_map acc) login user_activity |})
    end
  else
    done (dict_set user_data "user_activity" (PStr "N/A (Private user)"), acc).

(** The body of [if details:], for a non-empty [details]. *)
Definition enrich (login : string) (details : Dict) (user_data : Dict)
    (acc : Analysis) : M (Dict * Analysis) :=
  let user_data := with_details user_data details in
  owned <- fetch_owned_repos login user_data acc ;;
  let '(user_data, acc) := owned in
  starred_repos_list <- get_starred_repos login ;;
  total_starred_count <- get_total_starred_count login ;;
  let acc := save_starred login starred_repos_list acc in
  let user_data := with_starred user_data starred_repos_list total_starred_count in
  fetch_activity login user_data starred_repos_list acc.

(** [if details:] holds of a dict that is not [None] and not empty. *)
Definition truthy (details : option Dict) : option Dict :=
  match details with
  | Some (kv :: d) => Some (kv :: d)
  | _ => None
  end.

(** The record of one stargazer: the loop body up to the [append]. *)
Definition shape_record (stargazer : Stargazer) (acc : Analysis)
  : M (Dict * Analysis) :=
  let login := login stargazer in
  details <- get_user_details login ;;
  let user_data := default_user_data login in
  match truthy details with
  | Some details => enrich login details user_data acc
  | None => done (user_data, acc)
  end.

(** One iteration of [for i, stargazer in enumerate(stargazers_to_analyze)]. *)
Definition analyse_stargazer (stargazer : Stargazer) (acc : Analysis)
  : M Analysis :=
  shaped <- shape_record stargazer acc ;;
  let '(user_data, acc) := shaped in
  done {| analysis_results := analysis_results acc ++ [user_data];
          user_all_starred_map := user_all_starred_map acc;
          user_owned_repos_map := user_owned_repos_map acc;
          user_activity_map := user_activity_map acc |}.

Fixpoint analyse_all (stargazers : list Stargazer) (acc : Analysis)
  : M Analysis :=
  match stargazers with
  | [] => done acc
  | stargazer :: stargazers' =>
      acc <- analyse_stargazer stargazer acc ;;
      analyse_all stargazers' acc
  end.

(** The function up to the CSV export: [None] is the early [return] when no
    stargazer was fetched. *)
Definition fetch_and_save_stargazer_data (repo_owner repo_name : string)
    (limit : option Z) : M (option Analysis) :=
  stargazers_to_analyze <- get_stargazers repo_owner repo_name limit ;;
  if is_empty stargazers_to_analyze then done None
  else
    acc <- analyse_all stargazers_to_analyze no_analysis ;;
    done (Some acc).

(** ** Reading a trace *)

(** The requests of a trace, in order. *)
Fixpoint requests (tr : list Ev) : list Url :=
  match tr with
  | [] => []
  | EvGet u :: tr' => u :: requests tr'
  | EvSleep _ :: tr' => requests tr'
  end.

(** The [page] parameter of a paginated URL. *)
Definition page_of (u : Url) : Z :=
  match u with
  | UrlStargazers _ _ page _ => page
  | UrlRepos _ page _ => page
  | UrlEvents _ page => page
  | _ => 1
  end.

(** The reply is a response that passed [raise_for_status] and whose links
    hold a next page. *)
Definition offers_next (st : Step) : bool :=
  match reply st with
  | Resp r => negb (raises r) && has_next r
  | NetErr => false
  end.

(** [pages] are the pages requested one after the other and [script] the
    replies they got: a request asks for the page of the request before it,
    or for the page after it when the reply in between offered one. *)
Fixpoint follows_next (pages : list Z) (script : list Step) : Prop :=
  match pages, script with
  | p :: pages', st :: script' =>
      match pages' with
      | q :: _ => (q = p \/ (q = p + 1 /\ offers_next st = true))
      | [] => True
      end /\ follows_next pages' script'
  | _, _ => True
  end.

(** The pages a run asked for, in order. *)
Definition pages_of {A} (o : Out A) : list Z :=
  map page_of (requests (trace o)).

(** [pages] is empty or starts with [p]. *)
Definition starts_at (p : Z) (pages : list Z) : Prop :=
  match pages with
  | [] => True
  | q :: _ => q = p
  end.

(** The run ended with a value after the one reply [st], leaving the rest
    of the script untouched. *)
Definition stops_after {A} (o : Out A) (script' : list Step) : Prop :=
  (exists a, result o = Returned a) /\ rest o = script' /\
  List.length (requests (trace o)) = 1%nat.

(** ** Sequences of pages *)

(** The reply passed [raise_for_status] and carries a page of stargazers. *)
Definition stargazers_page (st : Step) : bool :=
  match reply st with
  | Resp r => negb (raises r) &&
              match json r with JStargazers _ => true | _ => false end
  | NetErr => false
  end.

(** The reply passed [raise_for_status] and carries a page of repositories. *)
Definition repos_page (st : Step) : bool :=
  match reply st with
  | Resp r => negb (raises r) &&
              match json r with JRepos _ => true | _ => false end
  | NetErr => false
  end.

(** The reply is a 4xx or 5xx that is not a rate-limit hit. *)
Definition failed_reply (st : Step) : bool :=
  match reply st with
  | Resp r => raises r && negb (rate_limited r)
  | NetErr => false
  end.

(** The [Link] header of the reply to the first request of
    [get_total_starred_count] yields no count, so that the function goes on
    to its second request, the one for the user object. *)
Definition asks_user_object (r : Response) : bool :=
  match link_last r with
  | NoLast | LastUnparsed => true
  | LastPage _ | LastNoPage => false
  end.

(** ** Rate-limit hits *)

(** The reply is a 403 whose body carries one of the two rate-limit
    messages. *)
Definition rate_limit_reply (st : Step) : bool :=
  match reply st with
  | Resp r => rate_limited r
  | NetErr => false
  end.

(** How long the rate-limit branch sleeps on such a reply. *)
Definition hit_sleep (st : Step) : Q :=
  match reply st with
  | Resp r => sleep_duration r st
  | NetErr => 0
  end.

(** The request [u] made once per rate-limit hit, each followed by the
    sleep the hit calls for. *)
Definition retries (u : Url) (hits : list Step) : list Ev :=
  flat_map (fun st => [EvGet u; EvSleep (hit_sleep st)]) hits.

(** The local variable [response] after the replies [hits]. *)
Fixpoint response_after (response : option Response) (hits : list Step)
  : option Response :=
  match hits with
  | [] => response
  | st :: hits' =>
      response_after
        (match reply st with Resp r => Some r | NetErr => response end) hits'
  end.

(** ** The calls of one loop iteration of fetch_and_save_stargazer_data *)

(** The scripts that the calls made for one stargazer start from, when
    [get_user_details] returned the non-empty [details]: each call reads on
    from where the call before it stopped. *)
Section Calls.

Variables (stargazer : Stargazer) (acc : Analysis) (details : Dict)
          (script : list Step).

(** [user_data] after the update from [details]. *)
Definition detailed : Dict :=
  with_details (default_user_data (login stargazer)) details.

(** Where [get_user_repos] starts, if it is called. *)
Definition script_at_repos : list Step :=
  rest (get_user_details (login stargazer) script).

(** Where [get_starred_repos] starts. *)
Definition script_at_starred : list Step :=
  rest (fetch_owned_repos (login stargazer) detailed acc script_at_repos).

(** Where [get_total_starred_count] starts. *)
Definition script_at_count : list Step :=
  rest (get_starred_repos (login stargazer) script_at_starred).

(** Where [get_user_activity] starts, if it is called. *)
Definition script_at_activity : list Step :=
  rest (get_total_starred_count (login stargazer) script_at_count).

End Calls.

(** The record's value is the string [s]. *)
Definition field_is (user_data : Dict) (k s : string) : Prop :=
  dict_get user_data k = Some (PStr s).

(** ** Sample replies *)

Definition response_ok (j : Json) (next : bool) : Response :=
  {| status_code := 200; text := ""; ratelimit_remaining := Some 4000;
     ratelimit_reset := Some 1700003600; has_next := next;
     link_last := NoLast; json := j |}.

(** An error reply with few requests left in the quota. *)
Definition response_error (code : Z) (body : string) : Response :=
  {| status_code := code; text := body; ratelimit_remaining := Some 3;
     ratelimit_reset := Some 1700003600; has_next := false;
     link_last := NoLast; json := JUser [("message", PStr body)] |}.

Definition at_noon (r : Reply) : Step :=
  {| reply := r; clock1 := 1700000000; clock2 := 1700000000 |}.

Definition alice : Stargazer := {| login := "alice" |}.
Definition bob : Stargazer := {| login := "bob" |}.
Definition carol : Stargazer := {| login := "carol" |}.

Definition page_alice_bob : Step :=
  at_noon (Resp (response_ok (JStargazers [alice; bob]) true)).
Definition page_carol : Step :=
  at_noon (Resp (response_ok (JStargazers [carol]) false)).
Definition server_error : Step :=
  at_noon (Resp (response_error 500 "Internal Server Error")).
Definition not_found : Step :=
  at_noon (Resp (response_error 404 "Not Found")).
Definition rate_limit_hit : Step :=
  at_noon (Resp (response_error 403 "API rate limit exceeded for user ID 1.")).

Definition repo_one : Repo :=
  {| name := "tool"; full_name := "alice/tool"; description := Some "A tool" |}.
Definition repo_two : Repo :=
  {| name := "notes"; full_name := "alice/notes"; description := None |}.

(** The first page of a short starred list: no link to a last page. *)
Definition starred_first_page : Step :=
  at_noon (Resp (response_ok (JRepos [repo_one]) false)).

Definition user_object : Dict :=
  [("login", PStr "alice"); ("created_at", PStr "2020-01-01T00:00:00Z");
   ("public_repos", PInt 2); ("followers", PInt 7); ("following", PInt 1)].

Definition user_page : Step := at_noon (Resp (response_ok (JUser user_object) false)).
Definition no_repos_page : Step := at_noon (Resp (response_ok (JRepos []) false)).
Definition page_alice : Step :=
  at_noon (Resp (response_ok (JStargazers [alice]) true)).

(** A run for one stargazer, carol: her details, a failed request for her
    repositories, an empty starred list, the starred count (two requests)
    and a 404 for her activity. *)
Definition carol_script : list Step :=
  [user_page; server_error; no_repos_page; no_repos_page; user_page; not_found].

(** The record and the maps that the loop body leaves for carol. *)
Definition carol_shaped : Dict * Analysis :=
  match result (shape_record carol no_analysis carol_script) with
  | Returned shaped => shaped
  | _ => ([], no_analysis)
  end.

(** The [login] field of each record. *)
Definition record_logins (a : Analysis) : list (option PyVal) :=
  map (fun user_data => dict_get user_data "login") (analysis_results a).

(** [acc] with one more record. *)
Definition with_record (acc : Analysis) (user_data : Dict) : Analysis :=
  {| analysis_results := analysis_results acc ++ [user_data];
     user_all_starred_map := user_all_starred_map acc;
     user_owned_repos_map := user_owned_repos_map acc;
     user_activity_map := user_activity_map acc |}.

Definition push_event : Activity :=
  {| ev_type := Some (PStr "PushEvent");
     ev_created_at := Some (PStr "2024-05-01T10:00:00Z");
     ev_repo := Some (RepoObject [("id", PInt 7); ("name", PStr "alice/tool")]) |}.
Definition bare_event : Activity :=
  {| ev_type := Some (PStr "WatchEvent"); ev_created_at := Some PNone;
     ev_repo := None |}.
Definition events_page : Step :=
  at_noon (Resp (response_ok (JEvents [push_event; bare_event]) true)).

(** A run for one stargazer, alice, in which every fetch succeeds: her
    details, two repositories, one starred repository, the starred count
    (two requests) and a page of events. *)
Definition page_alice_only : Step :=
  at_noon (Resp (response_ok (JStargazers [alice]) false)).

Definition alice_script : list Step :=
  [user_page;
   at_noon (Resp (response_ok (JRepos [repo_one; repo_two]) false));
   starred_first_page; starred_first_page; user_page; events_page].

(** What the run leaves for export. *)
Definition alice_analysis : Analysis :=
  match result (fetch_and_save_stargazer_data "o" "r" None
                  (page_alice_only :: alice_script)) with
  | Returned (Some a) => a
  | _ => no_analysis
  end.

(** A run for alice and bob in which the request for the second page of
    stargazers and the two requests for details fail: two default records
    and nothing else to export. *)
Definition failed_script : list Step :=
  [page_alice_bob; server_error; not_found; not_found].

Definition failed_analysis : Analysis :=
  match result (fetch_and_save_stargazer_data "o" "r" None failed_script) with
  | Returned (Some a) => a
  | _ => no_analysis
  end.

(** A run for one stargazer without repositories or stars: his details
    with no [public_repos], an empty starred list and the starred count (two
    requests); a page of events is left unread. *)
Definition bare_user : Dict := [("login", PStr "bob")].

Definition bob_script : list Step :=
  [at_noon (Resp (response_ok (JUser bare_user) false));
   no_repos_page; no_repos_page; user_page; events_page].

Definition bob_shaped : Dict * Analysis :=
  match result (shape_record bob no_analysis bob_script) with
  | Returned shaped => shaped
  | _ => ([], no_analysis)
  end.

(** ** Reading the sleeps of a trace *)

(** A sleep of a minute or more: the quota pause and the rate-limit sleep. *)
Definition long_pause (ev : Ev) : Prop :=
  match ev with
  | EvGet _ => True
  | EvSleep seconds => (60 <= seconds)%Q
  end.

(** A sleep of [REQUEST_DELAY], or of a minute or more. *)
Definition paced (ev : Ev) : Prop :=
  match ev with
  | EvGet _ => True
  | EvSleep seconds => seconds = REQUEST_DELAY \/ (60 <= seconds)%Q
  end.

(** ** Reading the requests of a trace *)

(** The [per_page] parameter of a URL; the user URL has none. *)
Definition per_page_of (u : Url) : Z :=
  match u with
  | UrlStargazers _ _ _ per_page => per_page
  | UrlRepos _ _ per_page => per_page
  | UrlStarred _ => 100
  | UrlStarredCount _ => 1
  | UrlEvents _ _ => 30
  | UrlUser _ => 1
  end.

(** The request asks for a page from the first on and for 1 to 100 items,
    the most the API gives per page, and for no more than [most] items. *)
Definition asks_within (most : option Z) (u : Url) : Prop :=
  1 <= page_of u /\ 1 <= per_page_of u <= 100 /\
  match most with
  | Some n => per_page_of u <= n
  | None => True
  end.

(** ** What the replies held *)

(** The stargazers of a reply: those of a page that passed
    [raise_for_status], none otherwise. *)
Definition stargazers_in (st : Step) : list Stargazer :=
  match reply st with
  | Resp r => if raises r then []
              else match json r with JStargazers data => data | _ => [] end
  | NetErr => []
  end.

Definition repos_in (st : Step) : list Repo :=
  match reply st with
  | Resp r => if raises r then []
              else match json r with JRepos data => data | _ => [] end
  | NetErr => []
  end.

Definition events_in (st : Step) : list Activity :=
  match reply st with
  | Resp r => if raises r then []
              else match json r with JEvents data => data | _ => [] end
  | NetErr => []
  end.

(** ** The columns of the analysis CSV *)

(** The keys of [default_user_data], in order. *)
Definition record_keys : list string :=
  ["login"; "created_at"; "public_repos"; "has_public_repos"; "followers";
   "following"; "top_5_repos"; "top_5_repos_descriptions";
   "starred_repo_status"; "starred_repos_sample";
   "starred_repos_descriptions"; "user_activity"].

(** [default_keys] of the export of the main analysis. *)
Definition default_keys : list string :=
  ["login"; "created_at"; "public_repos"; "has_public_repos"; "followers";
   "following"; "top_5_repos"; "top_5_repos_descriptions";
   "starred_repo_status"; "starred_repos_sample";
   "starred_repos_descriptions"; "total_starred_count"; "user_activity"].

(** [fieldnames = analysis_results[0].keys() if analysis_results else
    default_keys]: the header of the CSV file. *)
Definition fieldnames (analysis_results : list Dict) : list string :=
  match analysis_results with
  | first :: _ => map fst first
  | [] => default_keys
  end.

(** The keys of a record: the twelve of the default record, then
    [total_starred_count] if the record has it. *)
Definition has_record_keys (user_data : Dict) : Prop :=
  map fst user_data
  = record_keys ++ (if dict_has user_data "total_starred_count"
                    then ["total_starred_count"] else []).

(** The request [u] made once per failed request of [errors], each followed
    by the sleep that the reply [previous] calls for at that time. *)
Definition retries_on (previous : Response) (u : Url) (errors : list Step)
  : list Ev :=
  flat_map (fun st => [EvGet u; EvSleep (sleep_duration previous st)]) errors.

(** The request raised instead of giving a reply. *)
Definition network_error (st : Step) : bool :=
  match reply st with
  | NetErr => true
  | Resp _ => false
  end.

(** * Filenames, the exported rows, the report and the command line *)

(** ** More of Python's strings *)

(** Whitespace for [str.strip()], on the ASCII range. *)
Definition is_space (c : ascii) : bool :=
  let n := nat_of_ascii c in
  ((9 <=? n)%nat && (n <=? 13)%nat) || ((28 <=? n)%nat && (n <=? 32)%nat).

Fixpoint lstrip_by (drop : ascii -> bool) (s : string) : string :=
  match s with
  | EmptyString => EmptyString
  | String c s' => if drop c then lstrip_by drop s' else s
  end.

Fixpoint rstrip_by (drop : ascii -> bool) (s : string) : string :=
  match s with
  | EmptyString => EmptyString
  | String c s' =>
      match rstrip_by drop s' with
      | EmptyString => if drop c then EmptyString else String c EmptyString
      | t => String c t
      end
  end.

(** [s.strip()] *)
Definition strip (s : string) : string :=
  rstrip_by is_space (lstrip_by is_space s).

(** [s.strip(c)] for a one-character [c] *)
Definition strip_char (ch : ascii) (s : string) : string :=
  rstrip_by (Ascii.eqb ch) (lstrip_by (Ascii.eqb ch) s).

(** [s.split(sep)] for a one-character [sep]: never the empty list. *)
Fixpoint split (sep : ascii) (s : string) : list string :=
  match s with
  | EmptyString => [EmptyString]
  | String c s' =>
      if Ascii.eqb c sep then EmptyString :: split sep s'
      else match split sep s' with
           | x :: xs => String c x :: xs
           | [] => [String c EmptyString]
           end
  end.

(** [l.index(x)]: [None] is the [ValueError]. *)
Fixpoint index_of (x : string) (l : list string) : option nat :=
  match l with
  | [] => None
  | y :: l' => if String.eqb y x then Some 0%nat
               else option_map S (index_of x l')
  end.

(** [s.endswith(suffix)] *)
Definition ends_with (suffix s : string) : bool :=
  (String.length suffix <=? String.length s)%nat &&
  String.eqb (substring (String.length s - String.length suffix)
                (String.length suffix) s) suffix.

(** The characters of a string are all legal in a filename. *)
Definition legal (s : string) : Prop :=
  forall c, In c (list_ascii_of_string s) -> is_illegal c = false.

(** ** generate_filenames of watchdog.py *)

(** [timestamp] is what [datetime.datetime.now().strftime("%Y%m%d_%H%M%S")]
    gives. *)
Definition generate_filenames (owner repo timestamp : string)
  : list (string * string) :=
  let sanitized_owner := sanitize_filename owner in
  let sanitized_repo := sanitize_filename repo in
  let base_name :=
    (sanitized_owner ++ "_" ++ sanitized_repo ++ "_" ++ timestamp)%string in
  [ ("analysis_csv", (base_name ++ "_stargazer_analysis.csv")%string);
    ("starred_list_csv", (base_name ++ "_all_starred_repos_list.csv")%string);
    ("owned_list_csv", (base_name ++ "_all_owned_repos_list.csv")%string);
    ("user_activity_csv", (base_name ++ "_user_activity.csv")%string);
    ("report_md", (base_name ++ "_analysis_report.md")%string);
    ("owned_repos_plot", (base_name ++ "_common_owned_repos.png")%string);
    ("status_plot",
     (base_name ++ "_account_status_distribution.png")%string) ].

(** [filenames[key]] *)
Fixpoint filename (filenames : list (string * string)) (key : string)
  : option string :=
  match filenames with
  | [] => None
  | (k, v) :: filenames' =>
      if String.eqb k key then Some v else filename filenames' key
  end.

(** ** The rows fetch_and_save_stargazer_data exports *)

(** The row written for an entry of [user_owned_repos_map]: the login, the
    cell [owned_repos] and the cell [owned_repos_descriptions]. *)
Definition owned_repos_row (entry : string * list (string * string))
  : string * string * string :=
  let '(user_login, owned_list) := entry in
  let repo_names := map fst owned_list in
  let repo_descriptions := map snd owned_list in
  (user_login, join_or_none ", " repo_names,
   join_or_none " | " repo_descriptions).

(** What a record holds under [starred_repo_status]: the value
    [csv.DictWriter] is handed for that column of the analysis CSV. *)
Definition record_status (user_data : Dict) : option PyVal :=
  dict_get user_data "starred_repo_status".

(** [filenames[key]] for a key that is there, as the keys looked up are in
    what [generate_filenames] returns. *)
Definition file_of (filenames : list (string * string)) (key : string)
  : string :=
  match filename filenames key with Some path => path | None => "" end.

(** The files the four export blocks open for writing, in order: a block
    runs only when its list or map is not empty. *)
Definition exported_files (filenames : list (string * string)) (a : Analysis)
  : list string :=
  (if is_empty (analysis_results a) then []
   else [file_of filenames "analysis_csv"]) ++
  (if is_empty (user_all_starred_map a) then []
   else [file_of filenames "starred_list_csv"]) ++
  (if is_empty (user_owned_repos_map a) then []
   else [file_of filenames "owned_list_csv"]) ++
  (if is_empty (user_activity_map a) then []
   else [file_of filenames "user_activity_csv"]).

(** The disk is an input, as the network is: which paths exist before the
    run, and whether [open(path, 'w')] creates the file or raises (the
    export blocks catch that, print, and go on). *)
Record Disk := {
  exists_before : string -> bool;
  open_ok : string -> bool
}.

(** [os.path.exists(path)] after a run that opened [opened] for writing.
    (No one else removes or creates files meanwhile.) *)
Definition path_exists (disk : Disk) (opened : list string) (path : string)
  : bool :=
  exists_before disk path
  || (existsb (String.eqb path) opened && open_ok disk path).

(** ** analyze_data of analyze.py *)

(** A value of a column of a frame that [pd.read_csv] returns.  What pandas
    makes of the text of a cell is not this program's code and is left
    open: a cell comes as a string, as a missing value (pandas takes an empty
    cell for one, and texts such as [NA] or [null]), or as something else (a
    number or a truth value, when the column parses as such). *)
Inductive Cell :=
| CStr (s : string)
| CNaN
| COther.

Module AnalyzeData.

(** [len(df[df['starred_repo_status'] == status])] *)
Definition count_status (status : string) (statuses : list string) : Z :=
  Z.of_nat (List.length (filter (String.eqb status) statuses)).

Definition private_count (statuses : list string) : Z :=
  count_status "Private (No Access to Starred Repo)" statuses.

Definition public_count (statuses : list string) : Z :=
  count_status "Public (Has Starred Repos)" statuses.

(** [error_count = total_users - private_count - public_count] *)
Definition error_count (statuses : list string) : Z :=
  let total_users := Z.of_nat (List.length statuses) in
  total_users - private_count statuses - public_count statuses.

(** The dict handed to [generate_status_pie_chart]. *)
Definition status_counts (statuses : list string) : list (string * Z) :=
  let status_counts :=
    [ ("Private (No Access)", private_count statuses);
      ("Public (Has Stars)", public_count statuses) ] in
  if 0 <? error_count statuses
  then status_counts ++ [("Error/Unknown", error_count statuses)]
  else status_counts.

(** [any(sizes)] at the head of [generate_status_pie_chart]. *)
Definition any_sizes (status_counts : list (string * Z)) : bool :=
  existsb (fun size => negb (size =? 0)) (map snd status_counts).

(** The body of the loops over [df['owned_repos'].dropna()]: what one cell
    adds to the list of repositories. *)
Definition repos_of (repo_str : string) : list string :=
  if negb (String.eqb repo_str "") && negb (String.eqb (lower repo_str) "none")
  then map strip (split "," repo_str)
  else [].

(** [all_owned_repos] after the loop over [df_owned['owned_repos'].dropna()]:
    [dropna] leaves the missing values out, and the test
    [isinstance(repo_str, str)] what is not a string. *)
Definition all_owned_repos (column : list Cell) : list string :=
  flat_map (fun cell => match cell with
                        | CStr repo_str => repos_of repo_str
                        | CNaN | COther => []
                        end) column.

(** How far [analyze_data] gets before the section on owned repositories. *)
Inductive Head :=
| ReturnedFalse    (* a required input file is missing: no report *)
| NoUserData       (* the short report of an empty frame, then [return False] *)
| Counted (total_users private_count public_count error_count : Z).

(** [analyze_data] up to the counts of the account statuses (lines 144 to
    189), called with [filenames].  [path_exists] is [os.path.exists];
    [starred_repo_status] is the column of that name of the frame
    [pd.read_csv] returns for the analysis CSV, when it returns one holding
    strings.  [None] is the [KeyError] of a key missing in [filenames]. *)
Definition analyze_data (path_exists : string -> bool)
    (filenames : list (string * string)) (starred_repo_status : list string)
  : option Head :=
  match filename filenames "analysis_csv",
        filename filenames "owned_list_csv",
        filename filenames "report_md",
        filename filenames "owned_repos_plot",
        filename filenames "status_plot" with
  | Some analysis_csv_file, Some owned_repos_csv_file, Some _, Some _, Some _ =>
      if negb (path_exists analysis_csv_file) then Some ReturnedFalse
      else if negb (path_exists owned_repos_csv_file) then Some ReturnedFalse
      else
        let total_users := Z.of_nat (List.length starred_repo_status) in
        if total_users =? 0 then Some NoUserData
        else Some (Counted total_users
                     (private_count starred_repo_status)
                     (public_count starred_repo_status)
                     (error_count starred_repo_status))
  | _, _, _, _, _ => None
  end.

End AnalyzeData.

(** ** The command line of main.py *)

Module Main.

(** [target_repo[:-4]] when the name ends in [.git]. *)
Definition without_git (target_repo : string) : string :=
  if ends_with ".git" target_repo
  then substring 0 (String.length target_repo - 4) target_repo
  else target_repo.

(** The owner and the repository that [run_analysis] is called with for the
    argument [repo_url]; [None] when the script prints an error and calls
    [sys.exit(1)] instead. *)
Definition target (repo_url : string) : option (string * string) :=
  let parts := split "/" (strip_char "/" repo_url) in
  if (2 <=? List.length parts)%nat && contains "github.com" (lower repo_url)
  then
    match index_of "github.com" parts with
    | None => None
    | Some gh_index =>
        if (gh_index + 2 <? List.length parts)%nat then
          let target_owner := nth (gh_index + 1) parts "" in
          let target_repo := nth (gh_index + 2) parts "" in
          Some (target_owner, without_git target_repo)
        else None
    end
  else None.

End Main.

(** ** Reading the rows of the report *)

(** The status is neither of the two the report counts. *)
Definition other_status (status : string) : bool :=
  negb (String.eqb "Private (No Access to Starred Repo)" status) &&
  negb (String.eqb "Public (Has Starred Repos)" status).

(** One of the three values fetch_and_save_stargazer_data writes. *)
Definition written_status (status : string) : Prop :=
  status = "Private (No Access to Starred Repo)" \/
  status = "Public (Has Starred Repos)" \/
  status = "Error".

(** A repository name as GitHub has them for this purpose: not empty,
    without a comma, without whitespace at either end. *)
Definition plain (name : string) : Prop :=
  name <> "" /\ ~ In ","%char (list_ascii_of_string name) /\ strip name = name.

(** The text written into the column [owned_repos] for an entry of the
    map. *)
Definition owned_repos_cell (entry : string * list (string * string))
  : string :=
  snd (fst (owned_repos_row entry)).

(** Reading does not alter a text: the cell that comes back for the text
    [written] is that text when it is a string at all. *)
Definition read_back (written : string) (cell : Cell) : Prop :=
  match cell with
  | CStr s => s = written
  | CNaN | COther => True
  end.

(** The repository names of an entry whose cell came back as a string. *)
Definition names_read (row : (string * list (string * string)) * Cell)
  : list string :=
  match snd row with
  | CStr _ => map fst (snd (fst row))
  | CNaN | COther => []
  end.

(** A disk without files on which every file can be written. *)
Definition empty_disk : Disk :=
  {| exists_before := fun _ => false; open_ok := fun _ => true |}.


(** * Properties *)

(** ** Out and emit *)

Lemma emit_nil {A} (o : Out A) : emit [] o = o.
Proof. destruct o; reflexivity. Qed.

Lemma emit_emit {A} (evs evs' : list Ev) (o : Out A) :
  emit evs (emit evs' o) = emit (evs ++ evs') o.
Proof. unfold emit; cbn. now rewrite app_assoc. Qed.

Lemma result_emit {A} (evs : list Ev) (o : Out A) : result (emit evs o) = result o.
Proof. reflexivity. Qed.

Lemma rest_emit {A} (evs : list Ev) (o : Out A) : rest (emit evs o) = rest o.
Proof. reflexivity. Qed.

Lemma trace_emit {A} (evs : list Ev) (o : Out A) :
  trace (emit evs o) = evs ++ trace o.
Proof. reflexivity. Qed.

(** ** sanitize_filename *)

Lemma map_string_twice (f : ascii -> ascii) (s : string) :
  (forall c, f (f c) = f c) ->
  map_string f (map_string f s) = map_string f s.
Proof.
  intros Hf. induction s as [|c s IH]; cbn; [reflexivity|].
  now rewrite Hf, IH.
Qed.

Lemma is_illegal_spec (c : ascii) : is_illegal c = true <-> In c illegal_chars.
Proof.
  unfold is_illegal. rewrite existsb_exists. split.
  - intros (x & Hin & Heq). apply Ascii.eqb_eq in Heq. now subst.
  - intros Hin. exists c. split; [assumption | apply Ascii.eqb_refl].
Qed.

Lemma sanitized_char_legal (c : ascii) :
  is_illegal (if is_illegal c then "_"%char else c) = false.
Proof. destruct (is_illegal c) eqn:E; [reflexivity | exact E]. Qed.

Lemma sanitize_filename_legal (s : string) (c : ascii) :
  In c (list_ascii_of_string (sanitize_filename s)) -> is_illegal c = false.
Proof.
  unfold sanitize_filename. induction s as [|a s IH]; cbn [map_string list_ascii_of_string].
  - intros [].
  - intros [<- | Hin]; [apply sanitized_char_legal | now apply IH].
Qed.

(** C9: [sanitize_filename] is idempotent, its output holds none of the nine
    characters of the class, and the copy in analyze.py computes the same
    function as the one in watchdog.py. *)
Theorem sanitize_filename_idempotent_clean (s : string) :
  sanitize_filename (sanitize_filename s) = sanitize_filename s /\
  (forall c, In c illegal_chars ->
             ~ In c (list_ascii_of_string (sanitize_filename s))) /\
  Analyze.sanitize_filename s = sanitize_filename s.
Proof.
  split; [|split].
  - unfold sanitize_filename. apply map_string_twice.
    intros c. now rewrite sanitized_char_legal.
  - intros c Hc Hin. apply is_illegal_spec in Hc.
    apply sanitize_filename_legal in Hin. congruence.
  - reflexivity.
Qed.

Lemma sanitize_filename_idempotent_clean_witness :
  sanitize_filename (sanitize_filename "a/b:c") = sanitize_filename "a/b:c" /\
  ~ In "/"%char (list_ascii_of_string (sanitize_filename "a/b:c")) /\
  Analyze.sanitize_filename "a/b:c" = "a_b_c".
Proof.
  destruct (sanitize_filename_idempotent_clean "a/b:c") as (H1 & H2 & H3).
  split; [exact H1 | split; [| exact H3]].
  apply H2. cbn. tauto.
Defined.

(** ** get_user_repos on a limit that asks for nothing *)

(** C8: for a limit of 0 or less, [get_user_repos] returns the empty list at
    once: the script is untouched and the trace holds no request. *)
Theorem get_user_repos_nonpositive_limit
    (username : string) (limit : Z) (script : list Step) :
  limit <= 0 ->
  get_user_repos username limit script = mkOut (Returned (Some [])) script [].
Proof.
  intros H. unfold get_user_repos.
  apply Z.leb_le in H. now rewrite H.
Qed.

Lemma get_user_repos_nonpositive_limit_witness :
  get_user_repos "alice" (-2) [server_error]
  = mkOut (Returned (Some [])) [server_error] [].
Proof.
  apply (get_user_repos_nonpositive_limit "alice" (-2) [server_error]). lia.
Defined.

(** ** The lines of get_user_activity after its loop *)

Lemma trace_formatted (activities : list Activity) (script : list Step) :
  trace (formatted_activities activities script) = [].
Proof.
  unfold formatted_activities. destruct (is_empty activities); [reflexivity|].
  now destruct (format_activities activities).
Qed.

Lemma rest_formatted (activities : list Activity) (script : list Step) :
  rest (formatted_activities activities script) = script.
Proof.
  unfold formatted_activities. destruct (is_empty activities); [reflexivity|].
  now destruct (format_activities activities).
Qed.

Lemma result_formatted (activities : list Activity) (script : list Step) :
  result (formatted_activities activities script)
  = match format_activities activities with
    | Some formatted => Returned (Some formatted)
    | None => Raised AttributeError
    end.
Proof.
  unfold formatted_activities. destruct activities as [|activity activities];
    [reflexivity|]. cbn [is_empty].
  now destruct (format_activities (activity :: activities)).
Qed.

Lemma pages_of_formatted (activities : list Activity) (script : list Step) :
  pages_of (formatted_activities activities script) = [].
Proof. unfold pages_of. now rewrite trace_formatted. Qed.

(** [get_user_activity] asks and sleeps as its loop does, and takes from the
    script what its loop takes. *)
Lemma trace_get_user_activity (username : string) (max_pages : Z)
    (script : list Step) :
  trace (get_user_activity username max_pages script)
  = trace (get_user_activity_loop username max_pages [] 1 None script).
Proof.
  unfold get_user_activity, bind.
  destruct (result (get_user_activity_loop username max_pages [] 1 None script))
    as [[activities|]| |]; cbn [trace emit]; try reflexivity.
  - now rewrite trace_formatted, app_nil_r.
  - now rewrite app_nil_r.
Qed.

Lemma rest_get_user_activity (username : string) (max_pages : Z)
    (script : list Step) :
  rest (get_user_activity username max_pages script)
  = rest (get_user_activity_loop username max_pages [] 1 None script).
Proof.
  unfold get_user_activity, bind.
  destruct (result (get_user_activity_loop username max_pages [] 1 None script))
    as [[activities|]| |]; cbn [rest emit]; try reflexivity.
  apply rest_formatted.
Qed.

Lemma result_get_user_activity (username : string) (max_pages : Z)
    (script : list Step) :
  result (get_user_activity username max_pages script)
  = match result (get_user_activity_loop username max_pages [] 1 None script)
    with
    | Returned (Some activities) =>
        match format_activities activities with
        | Some formatted => Returned (Some formatted)
        | None => Raised AttributeError
        end
    | Returned None => Returned None
    | Raised e => Raised e
    | Starved => Starved
    end.
Proof.
  unfold get_user_activity, bind.
  destruct (result (get_user_activity_loop username max_pages [] 1 None script))
    as [[activities|]| |]; cbn [result emit]; try reflexivity.
  apply result_formatted.
Qed.

Lemma pages_of_get_user_activity (username : string) (max_pages : Z)
    (script : list Step) :
  pages_of (get_user_activity username max_pages script)
  = pages_of (get_user_activity_loop username max_pages [] 1 None script).
Proof. unfold pages_of. now rewrite trace_get_user_activity. Qed.

(** ** Pagination *)

Lemma requests_app (tr tr' : list Ev) :
  requests (tr ++ tr') = requests tr ++ requests tr'.
Proof.
  induction tr as [|[u|d] tr IH]; cbn; [reflexivity | now rewrite IH | exact IH].
Qed.

Lemma requests_quota_pause (r : Response) : requests (quota_pause r) = [].
Proof. unfold quota_pause. now destruct (_ <? 10). Qed.

Lemma pages_of_emit {A} (evs : list Ev) (o : Out A) :
  pages_of (emit evs o) = map page_of (requests evs) ++ pages_of o.
Proof. unfold pages_of. now rewrite trace_emit, requests_app, map_app. Qed.

Lemma pages_of_done {A} (a : A) (script : list Step) : pages_of (done a script) = [].
Proof. reflexivity. Qed.

Lemma pages_of_raised {A} (e : Exn) (script : list Step) :
  pages_of (@raised A e script) = [].
Proof. reflexivity. Qed.

Lemma follows_next_cons (p : Z) (pages : list Z) (st : Step) (script : list Step) :
  starts_at p pages \/ (starts_at (p + 1) pages /\ offers_next st = true) ->
  follows_next pages script ->
  follows_next (p :: pages) (st :: script).
Proof.
  intros Hstart Hrest. cbn [follows_next]. split; [|exact Hrest].
  destruct pages as [|q pages]; [exact I|]. cbn in Hstart. tauto.
Qed.

Lemma follows_next_nil (script : list Step) : follows_next [] script.
Proof. exact I. Qed.

Lemma not_raising_not_404 (r : Response) :
  raises r = false -> (status_code r =? 404) = false.
Proof.
  unfold raises. intros H. apply Z.eqb_neq. intros E. rewrite E in H. discriminate.
Qed.

(** Rewrites the pages of a run made of events and a tail. *)
Ltac pages :=
  repeat first
    [ rewrite pages_of_emit | rewrite pages_of_done | rewrite pages_of_raised
    | rewrite requests_quota_pause ];
  cbn [requests map page_of app].

Lemma get_stargazers_loop_pages (owner repo : string) (limit : option Z)
    (script : list Step) :
  forall stargazers page fetched_count response,
    let pages := pages_of (get_stargazers_loop owner repo limit stargazers page
                             fetched_count response script) in
    starts_at page pages /\ follows_next pages script.
Proof.
  induction script as [|st script' IH];
    intros stargazers page fetched_count response;
    cbn [get_stargazers_loop];
    destruct (stargazers_per_page limit fetched_count) as [cpp|];
    try (cbn; tauto).
  cbv zeta. rewrite pages_of_emit. cbn [requests map page_of app].
  split; [reflexivity|].
  assert (Hhandler : forall resp,
    follows_next
      (page :: pages_of
         match on_request_exception resp st with
         | Unbound => raised UnboundLocalError script'
         | Retry seconds =>
             emit [EvSleep seconds]
               (get_stargazers_loop owner repo limit stargazers page
                  fetched_count resp script')
         | GiveUp => done stargazers script'
         end) (st :: script')).
  { intros resp. apply follows_next_cons;
      destruct (on_request_exception resp st); pages;
      try (left; exact I); try exact I.
    - left. apply IH.
    - apply IH. }
  destruct (reply st) as [|r] eqn:Hreply; [apply Hhandler|].
  destruct (raises r) eqn:Hraises; [apply Hhandler|].
  destruct (json r) as [data| | |]; pages;
    try (apply follows_next_cons; [left; exact I | exact I]).
  destruct (is_empty data); pages;
    try (apply follows_next_cons; [left; exact I | exact I]).
  destruct (limit_reached limit _); pages;
    try (apply follows_next_cons; [left; exact I | exact I]).
  destruct (has_next r) eqn:Hnext; cbn [negb]; pages;
    try (apply follows_next_cons; [left; exact I | exact I]).
  apply follows_next_cons; [right | apply IH].
  split; [apply IH|]. unfold offers_next. now rewrite Hreply, Hraises, Hnext.
Qed.

Lemma get_user_repos_loop_pages (username : string) (limit : Z)
    (script : list Step) :
  forall repos page per_page fetched_count response,
    let pages := pages_of (get_user_repos_loop username limit repos page
                             per_page fetched_count response script) in
    starts_at page pages /\ follows_next pages script.
Proof.
  induction script as [|st script' IH];
    intros repos page per_page fetched_count response;
    cbn [get_user_repos_loop];
    destruct (negb (fetched_count <? limit));
    try (cbn; tauto).
  cbv zeta. rewrite pages_of_emit. cbn [requests map page_of app].
  split; [reflexivity|].
  assert (Hhandler : forall resp,
    follows_next
      (page :: pages_of
         match on_request_exception resp st with
         | Unbound => raised UnboundLocalError script'
         | Retry seconds =>
             emit [EvSleep seconds]
               (get_user_repos_loop username limit repos page per_page
                  fetched_count resp script')
         | GiveUp => done None script'
         end) (st :: script')).
  { intros resp. apply follows_next_cons;
      destruct (on_request_exception resp st); pages;
      try (left; exact I); try exact I.
    - left. apply IH.
    - apply IH. }
  destruct (reply st) as [|r] eqn:Hreply; [apply Hhandler|].
  destruct (raises r) eqn:Hraises; [apply Hhandler|].
  destruct (json r) as [|data| |]; pages;
    try (apply follows_next_cons; [left; exact I | exact I]).
  destruct (is_empty data); pages;
    try (apply follows_next_cons; [left; exact I | exact I]).
  destruct (limit <=? _); cbn [orb]; pages;
    try (apply follows_next_cons; [left; exact I | exact I]).
  destruct (has_next r) eqn:Hnext; cbn [negb]; pages;
    try (apply follows_next_cons; [left; exact I | exact I]).
  apply follows_next_cons; [right | apply IH].
  split; [apply IH|]. unfold offers_next. now rewrite Hreply, Hraises, Hnext.
Qed.

Lemma get_user_activity_loop_pages (username : string) (max_pages : Z)
    (script : list Step) :
  forall activities page response,
    let pages := pages_of (get_user_activity_loop username max_pages activities
                             page response script) in
    starts_at page pages /\ follows_next pages script.
Proof.
  induction script as [|st script' IH];
    intros activities page response;
    cbn [get_user_activity_loop];
    destruct (negb (page <=? max_pages));
    try (cbn; tauto).
  cbv zeta. rewrite pages_of_emit. cbn [requests map page_of app].
  split; [reflexivity|].
  assert (Hhandler : forall resp,
    follows_next
      (page :: pages_of
         match on_request_exception resp st with
         | Unbound => raised UnboundLocalError script'
         | Retry seconds =>
             emit [EvSleep seconds]
               (get_user_activity_loop username max_pages activities page
                  resp script')
         | GiveUp => done None script'
         end) (st :: script')).
  { intros resp. apply follows_next_cons;
      destruct (on_request_exception resp st); pages;
      try (left; exact I); try exact I.
    - left. apply IH.
    - apply IH. }
  destruct (reply st) as [|r] eqn:Hreply; [apply Hhandler|].
  destruct (status_code r =? 404); pages;
    try (apply follows_next_cons; [left; exact I | exact I]).
  destruct (raises r) eqn:Hraises; [apply Hhandler|].
  destruct (json r) as [| |data|]; pages;
    try (apply follows_next_cons; [left; exact I | exact I]).
  destruct (is_empty data); pages;
    try (apply follows_next_cons; [left; exact I | exact I]).
  destruct (has_next r) eqn:Hnext; cbn [negb orb]; pages;
    try (apply follows_next_cons; [left; exact I | exact I]).
  destruct (max_pages <=? page); pages;
    try (apply follows_next_cons; [left; exact I | exact I]).
  apply follows_next_cons; [right | apply IH].
  split; [apply IH|]. unfold offers_next. now rewrite Hreply, Hraises, Hnext.
Qed.

(** *** One iteration on a reply that passes the status checks *)

Lemma get_stargazers_loop_page (owner repo : string) (limit : option Z)
    (stargazers : list Stargazer) (page fetched_count : Z)
    (response : option Response) (st : Step) (script' : list Step)
    (r : Response) (data : list Stargazer) (current_per_page : Z) :
  stargazers_per_page limit fetched_count = Some current_per_page ->
  reply st = Resp r -> raises r = false -> json r = JStargazers data ->
  get_stargazers_loop owner repo limit stargazers page fetched_count response
    (st :: script')
  = emit (EvGet (UrlStargazers owner repo page current_per_page) :: quota_pause r)
      (if is_empty data then done stargazers script'
       else if limit_reached limit (fetched_count + Z.of_nat (List.length data))
       then done (trim limit (stargazers ++ data)) script'
       else if negb (has_next r) then done (stargazers ++ data) script'
       else emit [EvSleep REQUEST_DELAY]
              (get_stargazers_loop owner repo limit (stargazers ++ data)
                 (page + 1) (fetched_count + Z.of_nat (List.length data))
                 (Some r) script')).
Proof.
  intros Hpp Hreply Hraises Hjson. cbn [get_stargazers_loop].
  rewrite Hpp, Hreply, Hraises, Hjson. now rewrite emit_emit.
Qed.

Lemma get_user_repos_loop_page (username : string) (limit : Z)
    (repos : list Repo) (page per_page fetched_count : Z)
    (response : option Response) (st : Step) (script' : list Step)
    (r : Response) (data : list Repo) :
  fetched_count < limit ->
  reply st = Resp r -> raises r = false -> json r = JRepos data ->
  get_user_repos_loop username limit repos page per_page fetched_count response
    (st :: script')
  = emit (EvGet (UrlRepos username page per_page) :: quota_pause r)
      (if is_empty data
       then done (Some (map repo_tuple (py_take limit repos))) script'
       else if (limit <=? fetched_count + Z.of_nat (List.length data))
               || negb (has_next r)
       then done (Some (map repo_tuple (py_take limit (repos ++ data)))) script'
       else emit [EvSleep REQUEST_DELAY]
              (get_user_repos_loop username limit (repos ++ data) (page + 1)
                 (if limit - (fetched_count + Z.of_nat (List.length data))
                       <? per_page
                  then limit - (fetched_count + Z.of_nat (List.length data))
                  else per_page)
                 (fetched_count + Z.of_nat (List.length data))
                 (Some r) script')).
Proof.
  intros Hroom Hreply Hraises Hjson. cbn [get_user_repos_loop].
  apply Z.ltb_lt in Hroom. rewrite Hroom. cbn [negb].
  rewrite Hreply, Hraises, Hjson. now rewrite emit_emit.
Qed.

Lemma get_user_activity_loop_page (username : string) (max_pages : Z)
    (activities : list Activity) (page : Z)
    (response : option Response) (st : Step) (script' : list Step)
    (r : Response) (data : list Activity) :
  page <= max_pages ->
  reply st = Resp r -> raises r = false -> json r = JEvents data ->
  get_user_activity_loop username max_pages activities page response
    (st :: script')
  = emit (EvGet (UrlEvents username page) :: quota_pause r)
      (if is_empty data then done (Some activities) script'
       else if negb (has_next r) || (max_pages <=? page)
       then done (Some (activities ++ data)) script'
       else emit [EvSleep REQUEST_DELAY]
              (get_user_activity_loop username max_pages (activities ++ data)
                 (page + 1) (Some r) script')).
Proof.
  intros Hroom Hreply Hraises Hjson. cbn [get_user_activity_loop].
  apply Z.leb_le in Hroom. rewrite Hroom. cbn [negb].
  rewrite Hreply, (not_raising_not_404 r Hraises), Hraises, Hjson.
  now rewrite emit_emit.
Qed.

Lemma stops_after_emit_done {A} (u : Url) (r : Response) (a : A)
    (script' : list Step) :
  stops_after (emit (EvGet u :: quota_pause r) (done a script')) script'.
Proof.
  unfold stops_after. cbn [result rest trace emit done].
  repeat split; [now exists a|].
  cbn [app requests]. now rewrite app_nil_r, requests_quota_pause.
Qed.

(** C4: each paginated fetch asks for the page after the current one only
    after a reply whose links offer a next page (otherwise it asks for the
    same page again or stops), and it stops after a reply without a next
    link, after an empty page, and once the item limit, or [max_pages], is
    reached. *)
Theorem pagination_follows_next_and_stops :
  (forall owner repo limit script,
     follows_next (pages_of (get_stargazers owner repo limit script)) script) /\
  (forall username limit script,
     follows_next (pages_of (get_user_repos username limit script)) script) /\
  (forall username max_pages script,
     follows_next (pages_of (get_user_activity username max_pages script)) script) /\
  (forall owner repo limit stargazers page fetched_count response st script'
          r data current_per_page,
     stargazers_per_page limit fetched_count = Some current_per_page ->
     reply st = Resp r -> raises r = false -> json r = JStargazers data ->
     has_next r = false \/ data = [] \/
     limit_reached limit (fetched_count + Z.of_nat (List.length data)) = true ->
     stops_after (get_stargazers_loop owner repo limit stargazers page
                    fetched_count response (st :: script')) script') /\
  (forall username limit repos page per_page fetched_count response st script'
          r data,
     fetched_count < limit ->
     reply st = Resp r -> raises r = false -> json r = JRepos data ->
     has_next r = false \/ data = [] \/
     limit <= fetched_count + Z.of_nat (List.length data) ->
     stops_after (get_user_repos_loop username limit repos page per_page
                    fetched_count response (st :: script')) script') /\
  (forall username max_pages activities page response st script' r data,
     page <= max_pages ->
     reply st = Resp r -> raises r = false -> json r = JEvents data ->
     has_next r = false \/ data = [] \/ max_pages <= page ->
     stops_after (get_user_activity_loop username max_pages activities page
                    response (st :: script')) script').
Proof.
  repeat match goal with |- _ /\ _ => split end.
  - intros. apply get_stargazers_loop_pages.
  - intros username limit script. unfold get_user_repos.
    destruct (limit <=? 0); [exact I | apply get_user_repos_loop_pages].
  - intros. rewrite pages_of_get_user_activity.
    apply get_user_activity_loop_pages.
  - intros owner repo limit stargazers page fetched_count response st script'
      r data cpp Hpp Hreply Hraises Hjson Hstop.
    rewrite (get_stargazers_loop_page _ _ _ _ _ _ _ _ _ r data cpp)
      by assumption.
    destruct (is_empty data) eqn:Hdata; [apply stops_after_emit_done|].
    destruct (limit_reached limit _) eqn:Hlim; [apply stops_after_emit_done|].
    destruct (has_next r); [|apply stops_after_emit_done].
    destruct Hstop as [H | [H | H]]; [discriminate | subst; discriminate | discriminate].
  - intros username limit repos page per_page fetched_count response st script'
      r data Hroom Hreply Hraises Hjson Hstop.
    rewrite (get_user_repos_loop_page _ _ _ _ _ _ _ _ _ r data) by assumption.
    destruct (is_empty data) eqn:Hdata; [apply stops_after_emit_done|].
    destruct (limit <=? _) eqn:Hlim; [apply stops_after_emit_done|].
    destruct (has_next r); [|apply stops_after_emit_done].
    apply Z.leb_gt in Hlim.
    destruct Hstop as [H | [H | H]]; [discriminate | subst; discriminate | lia].
  - intros username max_pages activities page response st script' r data
      Hroom Hreply Hraises Hjson Hstop.
    rewrite (get_user_activity_loop_page _ _ _ _ _ _ _ r data) by assumption.
    destruct (is_empty data) eqn:Hdata; [apply stops_after_emit_done|].
    destruct (has_next r); [|apply stops_after_emit_done].
    destruct (max_pages <=? page) eqn:Hmax; [apply stops_after_emit_done|].
    apply Z.leb_gt in Hmax.
    destruct Hstop as [H | [H | H]]; [discriminate | subst; discriminate | lia].
Qed.

Lemma pagination_follows_next_and_stops_witness :
  stops_after
    (get_stargazers_loop "o" "r" None [alice; bob] 2 2 None
       [page_carol; server_error])
    [server_error].
Proof.
  destruct pagination_follows_next_and_stops as (_ & _ & _ & Hstop & _).
  apply (Hstop "o" "r" None [alice; bob] 2 2 None page_carol [server_error]
           (response_ok (JStargazers [carol]) false) [carol] 100);
    try reflexivity.
  left. reflexivity.
Defined.

(** ** The item limit of get_stargazers and get_user_repos *)

Lemma py_take_length {A} (n : Z) (l : list A) :
  0 <= n -> Z.of_nat (List.length (py_take n l)) <= n.
Proof.
  intros Hn. unfold py_take.
  destruct (n <? 0) eqn:E; [apply Z.ltb_lt in E; lia|].
  pose proof (firstn_le_length (Z.to_nat n) l). lia.
Qed.

Lemma on_request_exception_some (r : Response) (st : Step) :
  on_request_exception (Some r) st
  = if rate_limited r then Retry (sleep_duration r st) else GiveUp.
Proof. reflexivity. Qed.

(** The loop invariant: [fetched_count] is the length of [stargazers] and
    has not passed the limit. *)
Lemma get_stargazers_loop_bound (owner repo : string) (limit : Z)
    (script : list Step) :
  forall stargazers page fetched_count response l,
    Z.of_nat (List.length stargazers) = fetched_count ->
    fetched_count <= Z.max limit 0 ->
    result (get_stargazers_loop owner repo (Some limit) stargazers page
              fetched_count response script) = Returned l ->
    Z.of_nat (List.length l) <= Z.max limit 0.
Proof.
  induction script as [|st script' IH];
    intros stargazers page fetched_count response l Hlen Hle;
    cbn [get_stargazers_loop];
    destruct (stargazers_per_page (Some limit) fetched_count) as [cpp|] eqn:Hpp.
  - discriminate.
  - cbn. intros [= <-]. lia.
  - assert (Hroom : fetched_count < limit).
    { cbn in Hpp. destruct (limit - fetched_count <=? 0) eqn:E; [discriminate|].
      apply Z.leb_gt in E. lia. }
    rewrite result_emit.
    assert (Hhandler : forall resp,
      result match on_request_exception resp st with
             | Unbound => raised UnboundLocalError script'
             | Retry seconds =>
                 emit [EvSleep seconds]
                   (get_stargazers_loop owner repo (Some limit) stargazers page
                      fetched_count resp script')
             | GiveUp => done stargazers script'
             end = Returned l ->
      Z.of_nat (List.length l) <= Z.max limit 0).
    { intros resp. destruct (on_request_exception resp st).
      - discriminate.
      - rewrite result_emit. now apply IH.
      - cbn. intros [= <-]. lia. }
    destruct (reply st) as [|r]; [apply Hhandler|].
    destruct (raises r); [apply Hhandler|].
    rewrite result_emit.
    destruct (json r) as [data| | |]; try discriminate.
    destruct (is_empty data) eqn:Hdata; [cbn; intros [= <-]; lia|].
    cbn [limit_reached trim].
    destruct (limit <=? fetched_count + Z.of_nat (List.length data)) eqn:Hreached.
    + cbn. intros [= <-].
      pose proof (py_take_length limit (stargazers ++ data)). lia.
    + apply Z.leb_gt in Hreached.
      destruct (has_next r); cbn [negb].
      * rewrite result_emit. apply IH; [rewrite length_app; lia | lia].
      * cbn. intros [= <-]. rewrite length_app. lia.
  - cbn. intros [= <-]. lia.
Qed.

Lemma get_user_repos_loop_bound (username : string) (limit : Z)
    (script : list Step) :
  0 < limit ->
  forall repos page per_page fetched_count response l,
    result (get_user_repos_loop username limit repos page per_page
              fetched_count response script) = Returned (Some l) ->
    Z.of_nat (List.length l) <= limit.
Proof.
  intros Hpos.
  assert (Hfinish : forall repos script0 l,
    result (done (Some (map repo_tuple (py_take limit repos))) script0)
      = Returned (Some l) ->
    Z.of_nat (List.length l) <= limit).
  { intros repos script0 l. cbn. intros [= <-]. rewrite length_map.
    apply py_take_length. lia. }
  induction script as [|st script' IH];
    intros repos page per_page fetched_count response l;
    cbn [get_user_repos_loop];
    destruct (negb (fetched_count <? limit)); try apply Hfinish.
  - discriminate.
  - rewrite result_emit.
    assert (Hhandler : forall resp,
      result match on_request_exception resp st with
             | Unbound => raised UnboundLocalError script'
             | Retry seconds =>
                 emit [EvSleep seconds]
                   (get_user_repos_loop username limit repos page per_page
                      fetched_count resp script')
             | GiveUp => done None script'
             end = Returned (Some l) ->
      Z.of_nat (List.length l) <= limit).
    { intros resp. destruct (on_request_exception resp st).
      - discriminate.
      - rewrite result_emit. apply IH.
      - discriminate. }
    destruct (reply st) as [|r]; [apply Hhandler|].
    destruct (raises r); [apply Hhandler|].
    rewrite result_emit.
    destruct (json r) as [|data| |]; try discriminate.
    destruct (is_empty data); [apply Hfinish|].
    destruct ((limit <=? fetched_count + Z.of_nat (List.length data))
              || negb (has_next r)); [apply Hfinish|].
    rewrite result_emit. apply IH.
Qed.

(** On a sequence of pages the loop comes to an end: every page that does
    not end it adds an item, so [limit] pages are enough. *)
Lemma get_stargazers_loop_returns (owner repo : string) (limit : Z)
    (script : list Step) :
  forallb stargazers_page script = true ->
  forall stargazers page fetched_count response,
    limit - fetched_count <= Z.of_nat (List.length script) ->
    exists l,
      result (get_stargazers_loop owner repo (Some limit) stargazers page
                fetched_count response script) = Returned l.
Proof.
  induction script as [|st script' IH];
    intros Hpages stargazers page fetched_count response Hroom.
  - cbn [get_stargazers_loop stargazers_per_page]. cbn [List.length] in Hroom.
    replace (limit - fetched_count <=? 0) with true
      by (symmetry; apply Z.leb_le; lia).
    now exists stargazers.
  - cbn [forallb] in Hpages. apply andb_prop in Hpages as [Hst Hpages].
    unfold stargazers_page in Hst.
    destruct (reply st) as [|r] eqn:Hreply; [discriminate|].
    apply andb_prop in Hst as [Hraises Hjson].
    apply negb_true_iff in Hraises.
    destruct (json r) as [data| | |] eqn:Hdata; try discriminate.
    destruct (stargazers_per_page (Some limit) fetched_count) as [cpp|] eqn:Hpp.
    + rewrite (get_stargazers_loop_page _ _ _ _ _ _ _ _ _ r data cpp)
        by assumption.
      rewrite result_emit.
      destruct data as [|x data]; cbn [is_empty]; [now eexists|].
      destruct (limit_reached _ _); [now eexists|].
      destruct (negb (has_next r)); [now eexists|].
      rewrite result_emit. apply IH; [assumption|].
      cbn [List.length] in *. lia.
    + cbn [get_stargazers_loop]. rewrite Hpp. now exists stargazers.
Qed.

Lemma get_user_repos_loop_returns (username : string) (limit : Z)
    (script : list Step) :
  forallb repos_page script = true ->
  forall repos page per_page fetched_count response,
    limit - fetched_count <= Z.of_nat (List.length script) ->
    exists l,
      result (get_user_repos_loop username limit repos page per_page
                fetched_count response script) = Returned (Some l).
Proof.
  induction script as [|st script' IH];
    intros Hpages repos page per_page fetched_count response Hroom.
  - cbn [get_user_repos_loop]. cbn [List.length] in Hroom.
    replace (fetched_count <? limit) with false
      by (symmetry; apply Z.ltb_ge; lia).
    now eexists.
  - cbn [forallb] in Hpages. apply andb_prop in Hpages as [Hst Hpages].
    unfold repos_page in Hst.
    destruct (reply st) as [|r] eqn:Hreply; [discriminate|].
    apply andb_prop in Hst as [Hraises Hjson].
    apply negb_true_iff in Hraises.
    destruct (json r) as [|data| |] eqn:Hdata; try discriminate.
    destruct (fetched_count <? limit) eqn:Hhead.
    + apply Z.ltb_lt in Hhead.
      rewrite (get_user_repos_loop_page _ _ _ _ _ _ _ _ _ r data)
        by assumption.
      rewrite result_emit.
      destruct data as [|x data]; cbn [is_empty]; [now eexists|].
      destruct (_ || _); [now eexists|].
      rewrite result_emit. apply IH; [assumption|].
      cbn [List.length] in *. lia.
    + cbn [get_user_repos_loop]. rewrite Hhead. now eexists.
Qed.

(** C5, as the code has it: with a limit, the list [get_stargazers] returns
    has at most [max(limit, 0)] items, and so has the list [get_user_repos]
    returns when it returns one; that is at most [limit] items whenever the
    limit is not negative.  On a sequence of at least [limit] pages both
    functions do return a list. *)
Theorem fetch_limits_respected
    (owner repo username : string) (limit : Z) (script : list Step) :
  (forall l,
     result (get_stargazers owner repo (Some limit) script) = Returned l ->
     Z.of_nat (List.length l) <= Z.max limit 0) /\
  (forall l,
     result (get_user_repos username limit script) = Returned (Some l) ->
     Z.of_nat (List.length l) <= Z.max limit 0) /\
  (forallb stargazers_page script = true ->
   limit <= Z.of_nat (List.length script) ->
   exists l, result (get_stargazers owner repo (Some limit) script)
             = Returned l) /\
  (forallb repos_page script = true ->
   limit <= Z.of_nat (List.length script) ->
   exists l, result (get_user_repos username limit script)
             = Returned (Some l)).
Proof.
  repeat match goal with |- _ /\ _ => split end.
  - intros l H. unfold get_stargazers in H.
    eapply get_stargazers_loop_bound; [| | exact H]; cbn; lia.
  - intros l H. unfold get_user_repos in H.
    destruct (limit <=? 0) eqn:E.
    + cbn in H. injection H as <-. cbn. lia.
    + apply Z.leb_gt in E.
      pose proof (get_user_repos_loop_bound username limit script E _ _ _ _ _ _ H).
      lia.
  - intros Hpages Hlen. apply get_stargazers_loop_returns; [assumption | lia].
  - intros Hpages Hlen. unfold get_user_repos.
    destruct (limit <=? 0); [now eexists|].
    apply get_user_repos_loop_returns; [assumption | lia].
Qed.

Lemma fetch_limits_respected_witness :
  (exists l, result (get_stargazers "o" "r" (Some 1) [page_alice_bob])
             = Returned l) /\
  result (get_stargazers "o" "r" (Some 1) [page_alice_bob]) = Returned [alice] /\
  Z.of_nat (List.length [alice]) <= Z.max 1 0.
Proof.
  destruct (fetch_limits_respected "o" "r" "alice" 1 [page_alice_bob])
    as (Hbound & _ & Hreturns & _).
  split; [apply Hreturns; [reflexivity | cbn; lia]|].
  split; [reflexivity|].
  apply Hbound. reflexivity.
Defined.

(** C5 as stated fails on a negative limit: the list returned is empty,
    and its length 0 is more than the limit. *)
Lemma negative_limit_counterexample :
  ~ (forall l,
       result (get_stargazers "o" "r" (Some (-1)) [page_alice_bob]) = Returned l ->
       Z.of_nat (List.length l) <= -1).
Proof. intros H. specialize (H [] eq_refl). cbn in H. lia. Qed.

(** ** Rate-limit hits *)

Lemma rate_limited_status (r : Response) :
  rate_limited r = true -> status_code r = 403.
Proof.
  unfold rate_limited. intros H. apply andb_prop in H. now apply Z.eqb_eq.
Qed.

Lemma rate_limited_raises (r : Response) :
  rate_limited r = true -> raises r = true.
Proof.
  intros H. unfold raises. now rewrite (rate_limited_status r H).
Qed.

Lemma not_raising_not_limited (r : Response) :
  raises r = false -> rate_limited r = false.
Proof.
  intros H. destruct (rate_limited r) eqn:E; [|reflexivity].
  apply rate_limited_raises in E. congruence.
Qed.

Lemma rate_limited_not_404 (r : Response) :
  rate_limited r = true -> (status_code r =? 404) = false.
Proof.
  intros H. now rewrite (rate_limited_status r H).
Qed.

Lemma py_max_at_least (a b : Q) : (b <= py_max a b)%Q.
Proof.
  unfold py_max. destruct (Qle_bool b a) eqn:E.
  - now apply Qle_bool_iff.
  - apply Qle_refl.
Qed.

(** The sleep is the reported reset time minus the current time, and a
    minute at least. *)
Lemma sleep_duration_reported (r : Response) (st : Step) (reset_time : Z) :
  ratelimit_reset r = Some reset_time ->
  sleep_duration r st = py_max (inject_Z reset_time - clock2 st) 60 /\
  (60 <= sleep_duration r st)%Q.
Proof.
  intros H. unfold sleep_duration. rewrite H. split; [reflexivity|].
  apply py_max_at_least.
Qed.

Lemma retries_cons (u : Url) (st : Step) (hits : list Step) :
  retries u (st :: hits) = EvGet u :: EvSleep (hit_sleep st) :: retries u hits.
Proof. reflexivity. Qed.

Lemma emit_cons2 {A} (e1 e2 : Ev) (evs : list Ev) (o : Out A) :
  emit [e1] (emit [e2] (emit evs o)) = emit (e1 :: e2 :: evs) o.
Proof. now rewrite !emit_emit. Qed.

(** Unfolds one rate-limit hit at the head of the script. *)
Ltac hit st H :=
  unfold rate_limit_reply in H; unfold hit_sleep;
  let r := fresh "r" in
  destruct (reply st) as [|r]; [discriminate H|];
  try rewrite (rate_limited_not_404 r H);
  rewrite ?(rate_limited_raises r H), ?on_request_exception_some, ?H.

Lemma get_user_details_retries (username : string) (hits script : list Step) :
  forallb rate_limit_reply hits = true ->
  get_user_details username (hits ++ script)
  = emit (retries (UrlUser username) hits) (get_user_details username script).
Proof.
  induction hits as [|st hits IH]; intros Hhits.
  - cbn. now rewrite emit_nil.
  - cbn [forallb] in Hhits. apply andb_prop in Hhits as [Hst Hhits].
    rewrite retries_cons, <- emit_cons2, <- (IH Hhits).
    cbn [app get_user_details]. hit st Hst. reflexivity.
Qed.

Lemma get_starred_repos_retries (username : string) (hits script : list Step) :
  forallb rate_limit_reply hits = true ->
  get_starred_repos username (hits ++ script)
  = emit (retries (UrlStarred username) hits) (get_starred_repos username script).
Proof.
  induction hits as [|st hits IH]; intros Hhits.
  - cbn. now rewrite emit_nil.
  - cbn [forallb] in Hhits. apply andb_prop in Hhits as [Hst Hhits].
    rewrite retries_cons, <- emit_cons2, <- (IH Hhits).
    cbn [app get_starred_repos]. hit st Hst. reflexivity.
Qed.

(** On its first request [get_total_starred_count] retries as well. *)
Lemma get_total_starred_count_retries (username : string)
    (hits script : list Step) :
  forallb rate_limit_reply hits = true ->
  get_total_starred_count username (hits ++ script)
  = emit (retries (UrlStarredCount username) hits)
      (get_total_starred_count username script).
Proof.
  induction hits as [|st hits IH]; intros Hhits.
  - cbn. now rewrite emit_nil.
  - cbn [forallb] in Hhits. apply andb_prop in Hhits as [Hst Hhits].
    rewrite retries_cons, <- emit_cons2, <- (IH Hhits).
    cbn [app get_total_starred_count]. hit st Hst. reflexivity.
Qed.

Lemma get_stargazers_loop_retries (owner repo : string) (limit : option Z)
    (stargazers : list Stargazer) (page fetched_count current_per_page : Z)
    (hits script : list Step) :
  stargazers_per_page limit fetched_count = Some current_per_page ->
  forallb rate_limit_reply hits = true ->
  forall response,
    get_stargazers_loop owner repo limit stargazers page fetched_count response
      (hits ++ script)
    = emit (retries (UrlStargazers owner repo page current_per_page) hits)
        (get_stargazers_loop owner repo limit stargazers page fetched_count
           (response_after response hits) script).
Proof.
  intros Hpp. induction hits as [|st hits IH]; intros Hhits response.
  - cbn [app retries flat_map response_after]. now rewrite emit_nil.
  - cbn [forallb] in Hhits. apply andb_prop in Hhits as [Hst Hhits].
    rewrite retries_cons, <- emit_cons2. cbn [response_after].
    rewrite <- (IH Hhits).
    cbn [app get_stargazers_loop]. rewrite Hpp. hit st Hst. reflexivity.
Qed.

Lemma get_user_repos_loop_retries (username : string) (limit : Z)
    (repos : list Repo) (page per_page fetched_count : Z)
    (hits script : list Step) :
  fetched_count < limit ->
  forallb rate_limit_reply hits = true ->
  forall response,
    get_user_repos_loop username limit repos page per_page fetched_count
      response (hits ++ script)
    = emit (retries (UrlRepos username page per_page) hits)
        (get_user_repos_loop username limit repos page per_page fetched_count
           (response_after response hits) script).
Proof.
  intros Hroom. apply Z.ltb_lt in Hroom.
  induction hits as [|st hits IH]; intros Hhits response.
  - cbn [app retries flat_map response_after]. now rewrite emit_nil.
  - cbn [forallb] in Hhits. apply andb_prop in Hhits as [Hst Hhits].
    rewrite retries_cons, <- emit_cons2. cbn [response_after].
    rewrite <- (IH Hhits).
    cbn [app get_user_repos_loop]. rewrite Hroom. cbn [negb].
    hit st Hst. reflexivity.
Qed.

Lemma get_user_activity_loop_retries (username : string) (max_pages : Z)
    (activities : list Activity) (page : Z) (hits script : list Step) :
  page <= max_pages ->
  forallb rate_limit_reply hits = true ->
  forall response,
    get_user_activity_loop username max_pages activities page response
      (hits ++ script)
    = emit (retries (UrlEvents username page) hits)
        (get_user_activity_loop username max_pages activities page
           (response_after response hits) script).
Proof.
  intros Hroom. apply Z.leb_le in Hroom.
  induction hits as [|st hits IH]; intros Hhits response.
  - cbn [app retries flat_map response_after]. now rewrite emit_nil.
  - cbn [forallb] in Hhits. apply andb_prop in Hhits as [Hst Hhits].
    rewrite retries_cons, <- emit_cons2. cbn [response_after].
    rewrite <- (IH Hhits).
    cbn [app get_user_activity_loop]. rewrite Hroom. cbn [negb].
    hit st Hst. reflexivity.
Qed.

(** C1, where the code falls short of it: the second request of
    [get_total_starred_count], the one for the user object, meets a 403 with
    a rate-limit message, and the function returns [None] at once, with no
    sleep and no retry (the next reply of the script is left unread); its
    handler inspects the first reply, not the failed one.  The same reply to
    [get_user_details] is slept on for the 3600 seconds to the reported
    reset and the request is made again. *)
Theorem starred_count_second_request_not_retried :
  rate_limit_reply rate_limit_hit = true /\
  get_total_starred_count "alice" [starred_first_page; rate_limit_hit; user_page]
  = mkOut (Returned PNone) [user_page]
      [EvGet (UrlStarredCount "alice"); EvGet (UrlUser "alice")] /\
  get_user_details "alice" [rate_limit_hit; user_page]
  = mkOut (Returned (Some user_object)) []
      [EvGet (UrlUser "alice"); EvSleep 3600; EvGet (UrlUser "alice");
       EvSleep REQUEST_DELAY].
Proof. repeat split; vm_compute; reflexivity. Qed.

(** ** Failures that are not rate-limit hits *)

Section Failure.

Variables (st : Step) (script' : list Step) (r : Response).
Hypothesis Hreply : reply st = Resp r.
Hypothesis Hraises : raises r = true.
Hypothesis Hlimit : rate_limited r = false.

Lemma get_user_details_failure (username : string) :
  get_user_details username (st :: script')
  = mkOut (Returned None) script' [EvGet (UrlUser username)].
Proof.
  cbn [get_user_details].
  rewrite Hreply, Hraises, on_request_exception_some, Hlimit.
  now destruct (status_code r =? 404).
Qed.

Lemma get_starred_repos_failure (username : string) :
  get_starred_repos username (st :: script')
  = mkOut (Returned None) script' [EvGet (UrlStarred username)].
Proof.
  cbn [get_starred_repos].
  rewrite Hreply, Hraises, on_request_exception_some, Hlimit.
  now destruct (status_code r =? 404).
Qed.

Lemma get_total_starred_count_failure (username : string) :
  get_total_starred_count username (st :: script')
  = mkOut (Returned (if status_code r =? 404 then PStr "Private" else PNone))
      script' [EvGet (UrlStarredCount username)].
Proof.
  cbn [get_total_starred_count].
  rewrite Hreply, Hraises, on_request_exception_some, Hlimit.
  now destruct (status_code r =? 404).
Qed.

Lemma get_user_repos_loop_failure (username : string) (limit : Z)
    (repos : list Repo) (page per_page fetched_count : Z)
    (response : option Response) :
  fetched_count < limit ->
  get_user_repos_loop username limit repos page per_page fetched_count
    response (st :: script')
  = mkOut (Returned None) script' [EvGet (UrlRepos username page per_page)].
Proof.
  intros Hroom. apply Z.ltb_lt in Hroom. cbn [get_user_repos_loop].
  rewrite Hroom. cbn [negb].
  now rewrite Hreply, Hraises, on_request_exception_some, Hlimit.
Qed.

Lemma get_user_activity_loop_failure (username : string) (max_pages : Z)
    (activities : list Activity) (page : Z) (response : option Response) :
  page <= max_pages ->
  get_user_activity_loop username max_pages activities page response
    (st :: script')
  = mkOut (Returned None) script' [EvGet (UrlEvents username page)].
Proof.
  intros Hroom. apply Z.leb_le in Hroom. cbn [get_user_activity_loop].
  rewrite Hroom. cbn [negb].
  rewrite Hreply, Hraises, on_request_exception_some, Hlimit.
  now destruct (status_code r =? 404).
Qed.

Lemma get_stargazers_loop_failure (owner repo : string) (limit : option Z)
    (stargazers : list Stargazer) (page fetched_count current_per_page : Z)
    (response : option Response) :
  stargazers_per_page limit fetched_count = Some current_per_page ->
  get_stargazers_loop owner repo limit stargazers page fetched_count
    response (st :: script')
  = mkOut (Returned stargazers) script'
      [EvGet (UrlStargazers owner repo page current_per_page)].
Proof.
  intros Hpp. cbn [get_stargazers_loop].
  now rewrite Hpp, Hreply, Hraises, on_request_exception_some, Hlimit.
Qed.

Lemma shape_record_failure (stargazer : Stargazer) (acc : Analysis) :
  shape_record stargazer acc (st :: script')
  = mkOut (Returned (default_user_data (login stargazer), acc)) script'
      [EvGet (UrlUser (login stargazer))].
Proof.
  unfold shape_record, bind.
  now rewrite get_user_details_failure.
Qed.

End Failure.

Lemma status_404_failure (r : Response) :
  status_code r = 404 -> raises r = true /\ rate_limited r = false.
Proof.
  intros H. unfold raises, rate_limited. now rewrite H.
Qed.

(** ** A request that raises before any reply *)

(** In a fresh call [response] is not yet assigned when [requests.get]
    raises, and the handler's test of it raises [UnboundLocalError], which
    nothing catches. *)
Lemma get_user_details_network_error (username : string) (st : Step)
    (script' : list Step) :
  reply st = NetErr ->
  get_user_details username (st :: script')
  = mkOut (Raised UnboundLocalError) script' [EvGet (UrlUser username)].
Proof. intros H. cbn [get_user_details]. now rewrite H. Qed.

(** In a loop the handler then sees the reply of the iteration before. *)
Lemma get_stargazers_loop_network_error (owner repo : string)
    (limit : option Z) (stargazers : list Stargazer)
    (page fetched_count current_per_page : Z) (previous : Response)
    (st : Step) (script' : list Step) :
  stargazers_per_page limit fetched_count = Some current_per_page ->
  reply st = NetErr -> rate_limited previous = false ->
  get_stargazers_loop owner repo limit stargazers page fetched_count
    (Some previous) (st :: script')
  = mkOut (Returned stargazers) script'
      [EvGet (UrlStargazers owner repo page current_per_page)].
Proof.
  intros Hpp Hreply Hprev. cbn [get_stargazers_loop].
  now rewrite Hpp, Hreply, on_request_exception_some, Hprev.
Qed.

(** ** The two requests of get_total_starred_count *)

(** What [get_total_starred_count] does with the reply to its second
    request, after a first reply whose [Link] header gave no count: the
    handler inspects the first reply, which passed the status check. *)
Lemma get_total_starred_count_second_request (username : string)
    (st st2 : Step) (script'' : list Step) (r : Response) :
  reply st = Resp r -> raises r = false -> asks_user_object r = true ->
  get_total_starred_count username (st :: st2 :: script'')
  = mkOut
      (Returned
         match reply st2 with
         | NetErr => PNone
         | Resp user_response =>
             if raises user_response then PNone
             else if has_next r
                  then PStr (str_of_Z (json_len (json r)) ++ "+")%string
                  else PInt (json_len (json r))
         end)
      script''
      (EvGet (UrlStarredCount username) :: quota_pause r
         ++ [EvGet (UrlUser username)]).
Proof.
  intros Hreply Hraises Hlink. cbn [get_total_starred_count].
  rewrite Hreply, (not_raising_not_404 r Hraises), Hraises.
  rewrite on_request_exception_some, (not_raising_not_limited r Hraises).
  unfold asks_user_object in Hlink.
  destruct (link_last r); try discriminate;
    (destruct (reply st2) as [|user_response];
     [|destruct (raises user_response); [|destruct (has_next r)]];
     reflexivity).
Qed.

Lemma get_user_activity_failure (username : string) (max_pages : Z)
    (st : Step) (script' : list Step) (r : Response) :
  reply st = Resp r -> raises r = true -> rate_limited r = false ->
  1 <= max_pages ->
  get_user_activity username max_pages (st :: script')
  = mkOut (Returned None) script' [EvGet (UrlEvents username 1)].
Proof.
  intros Hreply Hraises Hlimit Hroom. unfold get_user_activity, bind.
  now rewrite (get_user_activity_loop_failure st script' r).
Qed.

(** C2 as stated fails for [get_user_details]: a 404 and a 500 give the
    same outcome, [None]. *)
Lemma not_found_counterexample :
  status_code (response_error 404 "Not Found") = 404 /\
  status_code (response_error 500 "Internal Server Error") = 500 /\
  ~ (result (get_user_details "ghost" [not_found])
     <> result (get_user_details "ghost" [server_error])).
Proof. repeat split. intros H. apply H. reflexivity. Qed.

(** C2, as the code has it: of the four functions only
    [get_total_starred_count] gives a 404 an outcome of its own, and only
    for its first request: the string [Private], where another 4xx or 5xx
    reply that is not a rate-limit hit gives [None].  To its second request
    a 404 gives [None], as such another reply does.  [get_user_details],
    [get_starred_repos] and [get_user_activity], at whatever page, return
    [None] on a 404 as they do on such a reply. *)
Theorem not_found_outcomes
    (username : string) (max_pages : Z) (st404 st5xx : Step)
    (script' : list Step) (r404 r5xx : Response) :
  reply st404 = Resp r404 -> status_code r404 = 404 ->
  reply st5xx = Resp r5xx -> raises r5xx = true -> rate_limited r5xx = false ->
  status_code r5xx <> 404 ->
  (result (get_total_starred_count username (st404 :: script'))
     = Returned (PStr "Private") /\
   result (get_total_starred_count username (st5xx :: script'))
     = Returned PNone) /\
  (forall st r,
     reply st = Resp r -> raises r = false -> asks_user_object r = true ->
     result (get_total_starred_count username (st :: st404 :: script'))
       = Returned PNone /\
     result (get_total_starred_count username (st :: st5xx :: script'))
       = Returned PNone) /\
  (result (get_user_details username (st404 :: script')) = Returned None /\
   result (get_user_details username (st5xx :: script')) = Returned None) /\
  (result (get_starred_repos username (st404 :: script')) = Returned None /\
   result (get_starred_repos username (st5xx :: script')) = Returned None) /\
  (1 <= max_pages ->
   result (get_user_activity username max_pages (st404 :: script'))
     = Returned None /\
   result (get_user_activity username max_pages (st5xx :: script'))
     = Returned None) /\
  (forall activities page response,
     page <= max_pages ->
     result (get_user_activity_loop username max_pages activities page
               response (st404 :: script')) = Returned None /\
     result (get_user_activity_loop username max_pages activities page
               response (st5xx :: script')) = Returned None).
Proof.
  intros H404 Hstatus H5xx Hraises Hlimit Hnot404.
  destruct (status_404_failure r404 Hstatus) as [Hraises404 Hlimit404].
  apply Z.eqb_neq in Hnot404.
  split; [split|split; [|split; [split|split; [split|split]]]].
  - rewrite (get_total_starred_count_failure st404 script' r404) by assumption.
    cbn. now rewrite Hstatus.
  - rewrite (get_total_starred_count_failure st5xx script' r5xx) by assumption.
    cbn. now rewrite Hnot404.
  - intros st r Hreply Hpasses Hlink. split.
    + rewrite (get_total_starred_count_second_request _ _ _ _ r) by assumption.
      cbn [result]. now rewrite H404, Hraises404.
    + rewrite (get_total_starred_count_second_request _ _ _ _ r) by assumption.
      cbn [result]. now rewrite H5xx, Hraises.
  - now rewrite (get_user_details_failure st404 script' r404).
  - now rewrite (get_user_details_failure st5xx script' r5xx).
  - now rewrite (get_starred_repos_failure st404 script' r404).
  - now rewrite (get_starred_repos_failure st5xx script' r5xx).
  - intros Hroom. split.
    + now rewrite (get_user_activity_failure _ _ st404 script' r404).
    + now rewrite (get_user_activity_failure _ _ st5xx script' r5xx).
  - intros activities page response Hroom. split.
    + now rewrite (get_user_activity_loop_failure st404 script' r404).
    + now rewrite (get_user_activity_loop_failure st5xx script' r5xx).
Qed.

Lemma not_found_outcomes_witness :
  (result (get_total_starred_count "ghost" [not_found])
     = Returned (PStr "Private") /\
   result (get_total_starred_count "ghost" [server_error]) = Returned PNone) /\
  result (get_total_starred_count "ghost" [starred_first_page; not_found])
    = Returned PNone.
Proof.
  destruct (not_found_outcomes "ghost" 1 not_found server_error []
              (response_error 404 "Not Found")
              (response_error 500 "Internal Server Error")
              eq_refl eq_refl eq_refl eq_refl eq_refl)
    as (Hfirst & Hsecond & _); [cbn; lia|].
  split; [exact Hfirst|].
  apply (Hsecond starred_first_page (response_ok (JRepos [repo_one]) false));
    reflexivity.
Defined.

(** ** What the caller does with a list of stargazers *)

Lemma fetch_and_save_analyses (repo_owner repo_name : string)
    (limit : option Z) (script : list Step) (stargazers : list Stargazer) :
  result (get_stargazers repo_owner repo_name limit script)
    = Returned stargazers ->
  stargazers <> [] ->
  fetch_and_save_stargazer_data repo_owner repo_name limit script
  = emit (trace (get_stargazers repo_owner repo_name limit script))
      ((acc <- analyse_all stargazers no_analysis ;; done (Some acc))
         (rest (get_stargazers repo_owner repo_name limit script))).
Proof.
  intros Hget Hne. unfold fetch_and_save_stargazer_data.
  unfold bind at 1. cbv zeta. rewrite Hget.
  destruct stargazers; [congruence | reflexivity].
Qed.

Lemma stargazers_per_page_room (limit : option Z) (fetched_count per_page : Z) :
  stargazers_per_page limit fetched_count = Some per_page ->
  limit_reached limit fetched_count = false.
Proof.
  unfold stargazers_per_page, limit_reached.
  destruct limit as [limit|]; [|reflexivity]. cbv zeta.
  destruct (limit - fetched_count <=? 0) eqn:E; [discriminate|].
  intros _. apply Z.leb_gt in E. apply Z.leb_gt. lia.
Qed.

(** The stargazers request for the second page fails: the first page is
    what [get_stargazers] returns. *)
Lemma get_stargazers_second_page_failure (owner repo : string)
    (limit : option Z) (st1 st : Step) (script' : list Step)
    (r1 r : Response) (data : list Stargazer) (per_page1 per_page2 : Z) :
  reply st = Resp r -> raises r = true -> rate_limited r = false ->
  stargazers_per_page limit 0 = Some per_page1 ->
  reply st1 = Resp r1 -> raises r1 = false -> json r1 = JStargazers data ->
  data <> [] -> has_next r1 = true ->
  stargazers_per_page limit (Z.of_nat (List.length data)) = Some per_page2 ->
  get_stargazers owner repo limit (st1 :: st :: script')
  = mkOut (Returned data) script'
      (EvGet (UrlStargazers owner repo 1 per_page1) :: quota_pause r1
         ++ [EvSleep REQUEST_DELAY;
             EvGet (UrlStargazers owner repo 2 per_page2)]).
Proof.
  intros Hreply Hraises Hlimit Hpp1 Hreply1 Hraises1 Hjson Hdata Hnext Hpp2.
  unfold get_stargazers.
  rewrite (get_stargazers_loop_page _ _ _ _ _ _ _ _ _ r1 data per_page1)
    by assumption.
  destruct data as [|s data]; [congruence|]. cbn [is_empty].
  change (0 + Z.of_nat (List.length (s :: data)))
    with (Z.of_nat (List.length (s :: data))).
  rewrite (stargazers_per_page_room _ _ _ Hpp2), Hnext. cbn [negb app].
  rewrite (get_stargazers_loop_failure st script' r Hreply Hraises Hlimit
             _ _ _ _ _ _ per_page2 _ Hpp2).
  reflexivity.
Qed.

(** C3 as stated fails for [get_stargazers]: when the request for the
    second page ends in a 500, the function returns the first page it has,
    and the caller goes on to build a record for each of its stargazers. *)
Lemma partial_stargazers_counterexample :
  result (get_stargazers "o" "r" None [page_alice_bob; server_error])
    = Returned [alice; bob] /\
  exists a,
    result (fetch_and_save_stargazer_data "o" "r" None
              [page_alice_bob; server_error; not_found; not_found])
      = Returned (Some a) /\
    List.length (analysis_results a) = 2%nat.
Proof.
  split; [reflexivity|]. eexists. split; [vm_compute; reflexivity | reflexivity].
Qed.

(** C3, as the code has it: on a 4xx or 5xx reply that is not a rate-limit
    hit, [get_user_details], [get_starred_repos], [get_user_repos] and
    [get_user_activity] return [None], whatever they had fetched, and so does
    [get_total_starred_count], for its first and for its second request,
    except that a 404 to its first request gives [Private];
    [get_stargazers] stops and returns the stargazers fetched so far, and
    the caller goes on to analyse the stargazers it is handed, those of
    the first page when it is the request for the second that fails.  When
    it is [get_user_details] that fails, the caller fetches nothing more for
    that stargazer and keeps the default record. *)
Theorem failure_outcomes (st : Step) (script' : list Step) (r : Response) :
  reply st = Resp r -> raises r = true -> rate_limited r = false ->
  (forall username,
     get_user_details username (st :: script')
     = mkOut (Returned None) script' [EvGet (UrlUser username)]) /\
  (forall username,
     get_starred_repos username (st :: script')
     = mkOut (Returned None) script' [EvGet (UrlStarred username)]) /\
  (forall username,
     status_code r <> 404 ->
     get_total_starred_count username (st :: script')
     = mkOut (Returned PNone) script' [EvGet (UrlStarredCount username)]) /\
  (forall username,
     status_code r = 404 ->
     get_total_starred_count username (st :: script')
     = mkOut (Returned (PStr "Private")) script'
         [EvGet (UrlStarredCount username)]) /\
  (forall username st1 r1,
     reply st1 = Resp r1 -> raises r1 = false -> asks_user_object r1 = true ->
     get_total_starred_count username (st1 :: st :: script')
     = mkOut (Returned PNone) script'
         (EvGet (UrlStarredCount username) :: quota_pause r1
            ++ [EvGet (UrlUser username)])) /\
  (forall username limit repos page per_page fetched_count response,
     fetched_count < limit ->
     get_user_repos_loop username limit repos page per_page fetched_count
       response (st :: script')
     = mkOut (Returned None) script' [EvGet (UrlRepos username page per_page)]) /\
  (forall username max_pages activities page response,
     page <= max_pages ->
     get_user_activity_loop username max_pages activities page response
       (st :: script')
     = mkOut (Returned None) script' [EvGet (UrlEvents username page)]) /\
  (forall username max_pages,
     1 <= max_pages ->
     get_user_activity username max_pages (st :: script')
     = mkOut (Returned None) script' [EvGet (UrlEvents username 1)]) /\
  (forall owner repo limit stargazers page fetched_count current_per_page
          response,
     stargazers_per_page limit fetched_count = Some current_per_page ->
     get_stargazers_loop owner repo limit stargazers page fetched_count
       response (st :: script')
     = mkOut (Returned stargazers) script'
         [EvGet (UrlStargazers owner repo page current_per_page)]) /\
  (forall repo_owner repo_name limit script stargazers,
     result (get_stargazers repo_owner repo_name limit script)
       = Returned stargazers ->
     stargazers <> [] ->
     fetch_and_save_stargazer_data repo_owner repo_name limit script
     = emit (trace (get_stargazers repo_owner repo_name limit script))
         ((acc <- analyse_all stargazers no_analysis ;; done (Some acc))
            (rest (get_stargazers repo_owner repo_name limit script)))) /\
  (forall repo_owner repo_name limit st1 r1 data per_page1 per_page2,
     stargazers_per_page limit 0 = Some per_page1 ->
     reply st1 = Resp r1 -> raises r1 = false -> json r1 = JStargazers data ->
     data <> [] -> has_next r1 = true ->
     stargazers_per_page limit (Z.of_nat (List.length data)) = Some per_page2 ->
     fetch_and_save_stargazer_data repo_owner repo_name limit
       (st1 :: st :: script')
     = emit (EvGet (UrlStargazers repo_owner repo_name 1 per_page1)
               :: quota_pause r1
               ++ [EvSleep REQUEST_DELAY;
                   EvGet (UrlStargazers repo_owner repo_name 2 per_page2)])
         ((acc <- analyse_all data no_analysis ;; done (Some acc)) script')) /\
  (forall stargazer acc,
     shape_record stargazer acc (st :: script')
     = mkOut (Returned (default_user_data (login stargazer), acc)) script'
         [EvGet (UrlUser (login stargazer))]).
Proof.
  intros Hreply Hraises Hlimit.
  repeat match goal with |- _ /\ _ => split end.
  - intros. now apply get_user_details_failure with (r := r).
  - intros. now apply get_starred_repos_failure with (r := r).
  - intros username Hstatus.
    rewrite (get_total_starred_count_failure st script' r) by assumption.
    apply Z.eqb_neq in Hstatus. now rewrite Hstatus.
  - intros username Hstatus.
    rewrite (get_total_starred_count_failure st script' r) by assumption.
    now rewrite Hstatus.
  - intros username st1 r1 Hreply1 Hraises1 Hlink.
    rewrite (get_total_starred_count_second_request _ _ _ _ r1) by assumption.
    now rewrite Hreply, Hraises.
  - intros. now apply get_user_repos_loop_failure with (r := r).
  - intros. now apply get_user_activity_loop_failure with (r := r).
  - intros. now apply get_user_activity_failure with (r := r).
  - intros. now apply get_stargazers_loop_failure with (r := r).
  - intros. now apply fetch_and_save_analyses.
  - intros repo_owner repo_name limit st1 r1 data per_page1 per_page2
      Hpp1 Hreply1 Hraises1 Hjson Hdata Hnext Hpp2.
    pose proof (get_stargazers_second_page_failure repo_owner repo_name limit
                  st1 st script' r1 r data per_page1 per_page2
                  Hreply Hraises Hlimit Hpp1 Hreply1 Hraises1 Hjson Hdata
                  Hnext Hpp2) as Hget.
    rewrite (fetch_and_save_analyses _ _ _ _ data)
      by (try exact Hdata; now rewrite Hget).
    now rewrite Hget.
  - intros. now apply shape_record_failure with (r := r).
Qed.

Lemma failure_outcomes_witness :
  get_user_repos_loop "alice" 5 [repo_one] 2 4 1 None [server_error; user_page]
  = mkOut (Returned None) [user_page] [EvGet (UrlRepos "alice" 2 4)] /\
  result (fetch_and_save_stargazer_data "o" "r" None
            [page_alice_bob; server_error; not_found; not_found])
  = result ((acc <- analyse_all [alice; bob] no_analysis ;; done (Some acc))
              [not_found; not_found]).
Proof.
  destruct (failure_outcomes server_error [not_found; not_found]
              (response_error 500 "Internal Server Error")
              eq_refl eq_refl eq_refl)
    as (_ & _ & _ & _ & _ & _ & _ & _ & _ & _ & Hcaller & _).
  destruct (failure_outcomes server_error [user_page]
              (response_error 500 "Internal Server Error")
              eq_refl eq_refl eq_refl)
    as (_ & _ & _ & _ & _ & Hrepos & _).
  split; [apply Hrepos; lia|].
  rewrite (Hcaller "o" "r" None page_alice_bob
             (response_ok (JStargazers [alice; bob]) true) [alice; bob]
             100 100); try reflexivity.
  discriminate.
Defined.

(** ** Delays and the quota pause *)

Lemma quota_pause_low (r : Response) (v : Z) :
  ratelimit_remaining r = Some v -> v < 10 -> quota_pause r = [EvSleep 60].
Proof.
  intros H Hv. unfold quota_pause. rewrite H.
  apply Z.ltb_lt in Hv. now rewrite Hv.
Qed.

Lemma quota_pause_absent (r : Response) :
  ratelimit_remaining r = None -> quota_pause r = [EvSleep 60].
Proof. intros H. unfold quota_pause. now rewrite H. Qed.

Lemma quota_pause_high (r : Response) (v : Z) :
  ratelimit_remaining r = Some v -> 10 <= v -> quota_pause r = [].
Proof.
  intros H Hv. unfold quota_pause. rewrite H.
  apply Z.ltb_ge in Hv. now rewrite Hv.
Qed.

Lemma get_user_details_success (username : string) (st : Step)
    (script' : list Step) (r : Response) (user_data : Dict) :
  reply st = Resp r -> raises r = false -> json r = JUser user_data ->
  get_user_details username (st :: script')
  = mkOut (Returned (Some user_data)) script'
      (EvGet (UrlUser username) :: quota_pause r ++ [EvSleep REQUEST_DELAY]).
Proof.
  intros Hreply Hraises Hjson. cbn [get_user_details].
  now rewrite Hreply, Hraises, Hjson.
Qed.

Lemma get_starred_repos_success (username : string) (st : Step)
    (script' : list Step) (r : Response) (data : list Repo) :
  reply st = Resp r -> raises r = false -> json r = JRepos data ->
  get_starred_repos username (st :: script')
  = mkOut (Returned (Some (map starred_tuple data))) script'
      (EvGet (UrlStarred username) :: quota_pause r ++ [EvSleep REQUEST_DELAY]).
Proof.
  intros Hreply Hraises Hjson. cbn [get_starred_repos].
  now rewrite Hreply, (not_raising_not_404 r Hraises), Hraises, Hjson.
Qed.

(** The whole trace of [get_total_starred_count] on a first reply that
    passes the status checks: the quota pause, and then the second request
    when the [Link] header gave no count.  Whatever the reply to that second
    request, nothing follows it. *)
Lemma get_total_starred_count_trace (username : string) (st : Step)
    (script' : list Step) (r : Response) :
  reply st = Resp r -> raises r = false ->
  trace (get_total_starred_count username (st :: script'))
  = EvGet (UrlStarredCount username) :: quota_pause r
      ++ (if asks_user_object r
          then match script' with
               | [] => []
               | _ :: _ => [EvGet (UrlUser username)]
               end
          else []).
Proof.
  intros Hreply Hraises.
  destruct (asks_user_object r) eqn:Hlink.
  - destruct script' as [|st2 script''].
    + cbn [get_total_starred_count].
      rewrite Hreply, (not_raising_not_404 r Hraises), Hraises.
      unfold asks_user_object in Hlink.
      now destruct (link_last r); try discriminate.
    + now rewrite (get_total_starred_count_second_request _ _ _ _ r).
  - cbn [get_total_starred_count].
    rewrite Hreply, (not_raising_not_404 r Hraises), Hraises.
    unfold asks_user_object in Hlink.
    now destruct (link_last r); try discriminate.
Qed.

(** C6 as stated fails on a reply that does not pass the status check: a
    500 that reports 3 requests left in the quota is followed by no pause,
    and by no delay either: in the run for carol the request for her starred
    list comes right after the failed request for her repositories. *)
Lemma no_pause_counterexample :
  reply server_error = Resp (response_error 500 "Internal Server Error") /\
  ratelimit_remaining (response_error 500 "Internal Server Error") = Some 3 /\
  ~ In (EvSleep 60) (trace (get_user_details "alice" [server_error; user_page])) /\
  exists before after,
    trace (shape_record carol no_analysis carol_script)
    = before ++ [EvGet (UrlRepos "carol" 1 5); EvGet (UrlStarred "carol")]
        ++ after.
Proof.
  split; [reflexivity|]. split; [reflexivity|]. split.
  - cbn. intros [H | []]. discriminate H.
  - exists [EvGet (UrlUser "carol"); EvSleep REQUEST_DELAY].
    eexists. vm_compute. reflexivity.
Qed.

(** C6, as the code has it.  After a reply that passes the status checks
    a fetch function sleeps 60 seconds when the remaining quota the reply
    reports is below 10, or is not reported, and does not otherwise;
    [get_total_starred_count] does so after the reply to its first request.
    A paginated fetch sleeps [REQUEST_DELAY], half a second, before it asks
    for the next page, and ends without a sleep when it asks for none;
    [get_user_details] and [get_starred_repos] sleep it after a successful
    fetch.  The traces are given whole: no other sleep occurs. *)
Theorem delays_and_quota_pause (st : Step) (script' : list Step) (r : Response) :
  reply st = Resp r -> raises r = false ->
  REQUEST_DELAY = (1 # 2)%Q /\
  ((forall v, ratelimit_remaining r = Some v -> v < 10 ->
              quota_pause r = [EvSleep 60]) /\
   (ratelimit_remaining r = None -> quota_pause r = [EvSleep 60]) /\
   (forall v, ratelimit_remaining r = Some v -> 10 <= v ->
              quota_pause r = [])) /\
  (forall owner repo limit stargazers page fetched_count response data
          current_per_page,
     stargazers_per_page limit fetched_count = Some current_per_page ->
     json r = JStargazers data ->
     trace (get_stargazers_loop owner repo limit stargazers page
              fetched_count response (st :: script'))
     = EvGet (UrlStargazers owner repo page current_per_page)
         :: quota_pause r
         ++ (if is_empty data
                || limit_reached limit
                     (fetched_count + Z.of_nat (List.length data))
                || negb (has_next r)
             then []
             else EvSleep REQUEST_DELAY
                    :: trace (get_stargazers_loop owner repo limit
                                (stargazers ++ data) (page + 1)
                                (fetched_count + Z.of_nat (List.length data))
                                (Some r) script'))) /\
  (forall username limit repos page per_page fetched_count response data,
     fetched_count < limit ->
     json r = JRepos data ->
     trace (get_user_repos_loop username limit repos page per_page
              fetched_count response (st :: script'))
     = EvGet (UrlRepos username page per_page)
         :: quota_pause r
         ++ (if is_empty data
                || (limit <=? fetched_count + Z.of_nat (List.length data))
                || negb (has_next r)
             then []
             else EvSleep REQUEST_DELAY
                    :: trace (get_user_repos_loop username limit
                                (repos ++ data) (page + 1)
                                (if limit - (fetched_count
                                             + Z.of_nat (List.length data))
                                      <? per_page
                                 then limit - (fetched_count
                                               + Z.of_nat (List.length data))
                                 else per_page)
                                (fetched_count + Z.of_nat (List.length data))
                                (Some r) script'))) /\
  (forall username max_pages activities page response data,
     page <= max_pages ->
     json r = JEvents data ->
     trace (get_user_activity_loop username max_pages activities page
              response (st :: script'))
     = EvGet (UrlEvents username page)
         :: quota_pause r
         ++ (if is_empty data || negb (has_next r) || (max_pages <=? page)
             then []
             else EvSleep REQUEST_DELAY
                    :: trace (get_user_activity_loop username max_pages
                                (activities ++ data) (page + 1) (Some r)
                                script'))) /\
  (forall username user_data,
     json r = JUser user_data ->
     trace (get_user_details username (st :: script'))
     = EvGet (UrlUser username) :: quota_pause r ++ [EvSleep REQUEST_DELAY]) /\
  (forall username data,
     json r = JRepos data ->
     trace (get_starred_repos username (st :: script'))
     = EvGet (UrlStarred username) :: quota_pause r ++ [EvSleep REQUEST_DELAY]) /\
  (forall username,
     trace (get_total_starred_count username (st :: script'))
     = EvGet (UrlStarredCount username) :: quota_pause r
         ++ (if asks_user_object r
             then match script' with
                  | [] => []
                  | _ :: _ => [EvGet (UrlUser username)]
                  end
             else [])).
Proof.
  intros Hreply Hraises.
  split; [reflexivity|].
  split; [repeat split; [apply quota_pause_low | apply quota_pause_absent
                         | apply quota_pause_high]|].
  repeat match goal with |- _ /\ _ => split end.
  - intros owner repo limit stargazers page fetched_count response data cpp
      Hpp Hjson.
    rewrite (get_stargazers_loop_page _ _ _ _ _ _ _ _ _ r data cpp) by assumption.
    rewrite trace_emit. cbn [app]. do 2 f_equal.
    destruct (is_empty data); [reflexivity|].
    destruct (limit_reached limit _); [reflexivity|].
    now destruct (has_next r).
  - intros username limit repos page per_page fetched_count response data
      Hroom Hjson.
    rewrite (get_user_repos_loop_page _ _ _ _ _ _ _ _ _ r data) by assumption.
    rewrite trace_emit. cbn [app]. do 2 f_equal.
    destruct (is_empty data); [reflexivity|].
    destruct (limit <=? _); [reflexivity|].
    destruct (has_next r); [|reflexivity].
    reflexivity.
  - intros username max_pages activities page response data Hroom Hjson.
    rewrite (get_user_activity_loop_page _ _ _ _ _ _ _ r data) by assumption.
    rewrite trace_emit. cbn [app]. do 2 f_equal.
    destruct (is_empty data); [reflexivity|].
    destruct (has_next r); [|reflexivity].
    now destruct (max_pages <=? page).
  - intros username user_data Hjson.
    now rewrite (get_user_details_success _ _ _ r user_data).
  - intros username data Hjson.
    now rewrite (get_starred_repos_success _ _ _ r data).
  - intros username. now apply get_total_starred_count_trace.
Qed.

Lemma delays_and_quota_pause_witness :
  trace (get_user_details "alice" [user_page; server_error])
  = [EvGet (UrlUser "alice"); EvSleep REQUEST_DELAY] /\
  trace (get_total_starred_count "alice" [starred_first_page; user_page])
  = [EvGet (UrlStarredCount "alice"); EvGet (UrlUser "alice")].
Proof.
  destruct (delays_and_quota_pause user_page [server_error]
              (response_ok (JUser user_object) false) eq_refl eq_refl)
    as (_ & _ & _ & _ & _ & H & _).
  destruct (delays_and_quota_pause starred_first_page [user_page]
              (response_ok (JRepos [repo_one]) false) eq_refl eq_refl)
    as (_ & _ & _ & _ & _ & _ & _ & Hcount).
  split; [exact (H "alice" user_object eq_refl) | exact (Hcount "alice")].
Defined.

(** ** Dicts *)

Lemma dict_get_set (d : Dict) (k k' : string) (v : PyVal) :
  dict_get (dict_set d k v) k'
  = if String.eqb k k' then Some v else dict_get d k'.
Proof.
  induction d as [|[k0 v0] d IH]; cbn.
  - destruct (String.eqb k k'); reflexivity.
  - destruct (String.eqb k0 k) eqn:E0; cbn.
    + apply String.eqb_eq in E0. subst k0.
      destruct (String.eqb k k'); reflexivity.
    + rewrite IH. destruct (String.eqb k0 k') eqn:E1; [|reflexivity].
      apply String.eqb_eq in E1. subst k0.
      destruct (String.eqb k k') eqn:E2; [|reflexivity].
      apply String.eqb_eq in E2. subst k'. now rewrite String.eqb_refl in E0.
Qed.

Lemma dict_get_set_same (d : Dict) (k : string) (v : PyVal) :
  dict_get (dict_set d k v) k = Some v.
Proof. now rewrite dict_get_set, String.eqb_refl. Qed.

Lemma dict_get_set_other (d : Dict) (k k' : string) (v : PyVal) :
  k' <> k -> dict_get (dict_set d k v) k' = dict_get d k'.
Proof.
  intros H. rewrite dict_get_set.
  destruct (String.eqb k k') eqn:E; [|reflexivity].
  apply String.eqb_eq in E. congruence.
Qed.

(** ** Runs of sequenced calls *)

Lemma bind_returned {A B} (m : M A) (f : A -> M B) (script : list Step) (b : B) :
  result (bind m f script) = Returned b ->
  exists a, result (m script) = Returned a /\
            result (f a (rest (m script))) = Returned b.
Proof.
  unfold bind. destruct (result (m script)) as [a| |] eqn:E; try discriminate.
  rewrite result_emit. intros H. now exists a.
Qed.

Lemma bind_returns {A B} (m : M A) (f : A -> M B) (script : list Step) (a : A) :
  result (m script) = Returned a ->
  result (bind m f script) = result (f a (rest (m script))).
Proof. unfold bind. intros ->. apply result_emit. Qed.

Lemma rest_bind_returns {A B} (m : M A) (f : A -> M B) (script : list Step) (a : A) :
  result (m script) = Returned a ->
  rest (bind m f script) = rest (f a (rest (m script))).
Proof. unfold bind. intros ->. apply rest_emit. Qed.

(** ** What each block of the loop body does to the record *)

Lemma with_details_frame (user_data details : Dict) (k : string) :
  k <> "created_at" -> k <> "public_repos" -> k <> "followers" ->
  k <> "following" -> k <> "has_public_repos" ->
  dict_get (with_details user_data details) k = dict_get user_data k.
Proof.
  intros. unfold with_details. now rewrite !dict_get_set_other.
Qed.

Lemma fetch_owned_repos_returned (login : string) (user_data : Dict)
    (acc : Analysis) (script : list Step) (user_data' : Dict) (acc' : Analysis) :
  result (fetch_owned_repos login user_data acc script)
    = Returned (user_data', acc') ->
  (forall k, k <> "top_5_repos" -> k <> "top_5_repos_descriptions" ->
             dict_get user_data' k = dict_get user_data k) /\
  analysis_results acc' = analysis_results acc /\
  (has_public_repos user_data = true ->
   result (get_user_repos login 5 script) = Returned None ->
   dict_get user_data' "top_5_repos" = Some (PStr "Error fetching repos") /\
   dict_get user_data' "top_5_repos_descriptions"
     = Some (PStr "Error fetching repos")).
Proof.
  unfold fetch_owned_repos.
  destruct (has_public_repos user_data).
  - intros H. apply bind_returned in H as (top & Htop & H).
    destruct top as [top|]; cbn in H; injection H as <- <-;
      (split; [intros k H1 H2; now rewrite !dict_get_set_other
              | split; [reflexivity | intros _ Hnone]]).
    + congruence.
    + split; now rewrite !dict_get_set.
  - cbn. intros [= <- <-].
    split; [intros k H1 H2; now rewrite !dict_get_set_other
           | split; [reflexivity | discriminate]].
Qed.

Lemma with_starred_frame (user_data : Dict)
    (starred : option (list (string * string))) (total : PyVal) (k : string) :
  k <> "starred_repo_status" -> k <> "starred_repos_sample" ->
  k <> "starred_repos_descriptions" -> k <> "total_starred_count" ->
  dict_get (with_starred user_data starred total) k = dict_get user_data k.
Proof.
  intros. unfold with_starred.
  destruct starred as [l|]; [|reflexivity].
  rewrite dict_get_set_other by assumption.
  destruct (Z.of_nat (List.length l) =? 0).
  - now rewrite !dict_get_set_other.
  - destruct (10 <? Z.of_nat (List.length l)); now rewrite !dict_get_set_other.
Qed.

Lemma with_starred_status (user_data : Dict)
    (starred : option (list (string * string))) (total : PyVal) :
  dict_get (with_starred user_data starred total) "starred_repo_status"
  = match starred with
    | Some [] => Some (PStr "Private (No Access to Starred Repo)")
    | Some (_ :: _) => Some (PStr "Public (Has Starred Repos)")
    | None => dict_get user_data "starred_repo_status"
    end.
Proof.
  unfold with_starred. destruct starred as [[|x l]|]; [| |reflexivity].
  - cbn [List.length Z.of_nat Z.eqb]. now rewrite !dict_get_set.
  - replace (Z.of_nat (List.length (x :: l)) =? 0) with false
      by (symmetry; apply Z.eqb_neq; cbn [List.length]; lia).
    rewrite dict_get_set. cbn [String.eqb Ascii.eqb Bool.eqb].
    destruct (10 <? _); now rewrite !dict_get_set.
Qed.

Lemma with_starred_total (user_data : Dict)
    (starred : option (list (string * string))) (total : PyVal) :
  dict_get (with_starred user_data starred total) "total_starred_count"
  = match starred with
    | Some _ => Some total
    | None => dict_get user_data "total_starred_count"
    end.
Proof.
  unfold with_starred. destruct starred as [l|]; [|reflexivity].
  apply dict_get_set_same.
Qed.

Lemma fetch_activity_returned (login : string) (user_data : Dict)
    (starred : option (list (string * string))) (acc : Analysis)
    (script : list Step) (user_data' : Dict) (acc' : Analysis) :
  result (fetch_activity login user_data starred acc script)
    = Returned (user_data', acc') ->
  (forall k, k <> "user_activity" -> dict_get user_data' k = dict_get user_data k) /\
  analysis_results acc' = analysis_results acc /\
  (is_public_user user_data starred = true ->
   result (get_user_activity login 1 script) = Returned None ->
   dict_get user_data' "user_activity"
     = Some (PStr "Error fetching activity or private")).
Proof.
  unfold fetch_activity.
  destruct (is_public_user user_data starred).
  - intros H. apply bind_returned in H as (activity & Hact & H).
    destruct activity as [[|a activity]|]; cbn in H; injection H as <- <-;
      (split; [intros k Hk; now rewrite dict_get_set_other
              | split; [reflexivity | intros _ Hnone]]).
    + congruence.
    + congruence.
    + apply dict_get_set_same.
  - cbn. intros [= <- <-].
    split; [intros k Hk; now rewrite dict_get_set_other
           | split; [reflexivity | discriminate]].
Qed.

Lemma save_starred_results (login : string)
    (starred : option (list (string * string))) (acc : Analysis) :
  analysis_results (save_starred login starred acc) = analysis_results acc.
Proof. now destruct starred. Qed.

(** ** One loop iteration of fetch_and_save_stargazer_data *)

Lemma enrich_returned (login : string) (details user_data : Dict)
    (acc : Analysis) (script : list Step) (user_data' : Dict) (acc' : Analysis) :
  result (enrich login details user_data acc script) = Returned (user_data', acc') ->
  let o1 := fetch_owned_repos login (with_details user_data details) acc script in
  let o2 := get_starred_repos login (rest o1) in
  let o3 := get_total_starred_count login (rest o2) in
  exists ud1 acc1 starred total,
    result o1 = Returned (ud1, acc1) /\
    result o2 = Returned starred /\
    result o3 = Returned total /\
    result (fetch_activity login (with_starred ud1 starred total) starred
              (save_starred login starred acc1) (rest o3))
      = Returned (user_data', acc').
Proof.
  unfold enrich. intros H.
  apply bind_returned in H as ([ud1 acc1] & H1 & H).
  apply bind_returned in H as (starred & H2 & H).
  apply bind_returned in H as (total & H3 & H).
  now exists ud1, acc1, starred, total.
Qed.

Lemma has_public_repos_frame (user_data user_data' : Dict) :
  dict_get user_data' "has_public_repos" = dict_get user_data "has_public_repos" ->
  has_public_repos user_data' = has_public_repos user_data.
Proof. unfold has_public_repos. now intros ->. Qed.

Ltac key_neq := intros; discriminate.

(** The run of the loop body when the details were fetched, call by call,
    and what it leaves in the starred fields of the record. *)
Lemma shape_record_enriched (stargazer : Stargazer) (acc : Analysis)
    (script : list Step) (details user_data : Dict) (acc' : Analysis) :
  result (get_user_details (login stargazer) script) = Returned (Some details) ->
  is_empty details = false ->
  result (shape_record stargazer acc script) = Returned (user_data, acc') ->
  exists ud1 acc1 starred total,
    result (fetch_owned_repos (login stargazer) (detailed stargazer details) acc
              (script_at_repos stargazer script)) = Returned (ud1, acc1) /\
    result (get_starred_repos (login stargazer)
              (script_at_starred stargazer acc details script))
      = Returned starred /\
    result (get_total_starred_count (login stargazer)
              (script_at_count stargazer acc details script)) = Returned total /\
    result (fetch_activity (login stargazer) (with_starred ud1 starred total)
              starred (save_starred (login stargazer) starred acc1)
              (script_at_activity stargazer acc details script))
      = Returned (user_data, acc') /\
    is_public_user (with_starred ud1 starred total) starred
      = is_public_user (detailed stargazer details) starred.
Proof.
  intros Hdetails Hnonempty H. unfold shape_record in H.
  rewrite (bind_returns _ _ _ _ Hdetails) in H.
  destruct details as [|kv details]; [discriminate|]. cbn [truthy] in H.
  apply enrich_returned in H. cbv zeta in H.
  destruct H as (ud1 & acc1 & starred & total & H1 & H2 & H3 & H4).
  exists ud1, acc1, starred, total.
  repeat match goal with |- _ /\ _ => split end; try assumption.
  unfold is_public_user. f_equal.
  apply has_public_repos_frame.
  rewrite with_starred_frame by key_neq.
  apply fetch_owned_repos_returned in H1 as (Hframe & _).
  apply Hframe; key_neq.
Qed.

Lemma default_starred_fields (login : string) (details : Dict) (k : string) :
  In k ["starred_repo_status"; "starred_repos_sample";
        "starred_repos_descriptions"] ->
  field_is (with_details (default_user_data login) details) k "Error".
Proof.
  unfold field_is. intros Hk. rewrite with_details_frame.
  - cbn in Hk. decompose [or] Hk; subst; try reflexivity. contradiction.
  - intros ->. cbn in Hk. decompose [or] Hk; discriminate || contradiction.
  - intros ->. cbn in Hk. decompose [or] Hk; discriminate || contradiction.
  - intros ->. cbn in Hk. decompose [or] Hk; discriminate || contradiction.
  - intros ->. cbn in Hk. decompose [or] Hk; discriminate || contradiction.
  - intros ->. cbn in Hk. decompose [or] Hk; discriminate || contradiction.
Qed.

(** C10: for a stargazer whose details were fetched, the record's
    [starred_repo_status] is the Private string exactly when
    [get_starred_repos] returned the empty list, the Public string exactly
    when it returned a non-empty list, and still [Error] exactly when it
    returned [None]; the record has a [total_starred_count] exactly when it
    did not return [None]. *)
Theorem starred_status_follows_starred_list
    (stargazer : Stargazer) (acc : Analysis) (script : list Step)
    (details user_data : Dict) (acc' : Analysis) :
  result (get_user_details (login stargazer) script) = Returned (Some details) ->
  is_empty details = false ->
  result (shape_record stargazer acc script) = Returned (user_data, acc') ->
  exists starred_repos_list,
    result (get_starred_repos (login stargazer)
              (script_at_starred stargazer acc details script))
      = Returned starred_repos_list /\
    (field_is user_data "starred_repo_status"
       "Private (No Access to Starred Repo)"
     <-> starred_repos_list = Some []) /\
    (field_is user_data "starred_repo_status" "Public (Has Starred Repos)"
     <-> exists x l, starred_repos_list = Some (x :: l)) /\
    (field_is user_data "starred_repo_status" "Error"
     <-> starred_repos_list = None) /\
    (dict_has user_data "total_starred_count" = true
     <-> starred_repos_list <> None).
Proof.
  intros Hdetails Hnonempty H.
  destruct (shape_record_enriched _ _ _ _ _ _ Hdetails Hnonempty H)
    as (ud1 & acc1 & starred & total & H1 & H2 & H3 & H4 & _).
  exists starred. split; [exact H2|].
  apply fetch_activity_returned in H4 as (Hact & _).
  apply fetch_owned_repos_returned in H1 as (Howned & _).
  assert (Hstatus : dict_get user_data "starred_repo_status"
            = match starred with
              | Some [] => Some (PStr "Private (No Access to Starred Repo)")
              | Some (_ :: _) => Some (PStr "Public (Has Starred Repos)")
              | None => Some (PStr "Error")
              end).
  { rewrite Hact by key_neq. rewrite with_starred_status.
    destruct starred as [[|x l]|]; try reflexivity.
    rewrite Howned by key_neq.
    apply (default_starred_fields (login stargazer) details). cbn. tauto. }
  assert (Htotal : dict_get user_data "total_starred_count"
            = match starred with Some _ => Some total | None => None end).
  { rewrite Hact by key_neq. rewrite with_starred_total.
    destruct starred; [reflexivity|].
    rewrite Howned by key_neq. unfold detailed.
    now rewrite with_details_frame by key_neq. }
  unfold field_is, dict_has. rewrite Hstatus, Htotal.
  destruct starred as [[|x l]|];
    repeat split; intros; try discriminate; try congruence; eauto.
  - destruct H0 as (? & ? & ?). discriminate.
  - destruct H0 as (? & ? & ?). discriminate.
Qed.

Lemma starred_status_follows_starred_list_witness :
  result (shape_record carol no_analysis carol_script) = Returned carol_shaped /\
  exists starred_repos_list,
    result (get_starred_repos "carol"
              (script_at_starred carol no_analysis user_object carol_script))
      = Returned starred_repos_list /\
    (field_is (fst carol_shaped) "starred_repo_status"
       "Private (No Access to Starred Repo)"
     <-> starred_repos_list = Some []) /\
    (field_is (fst carol_shaped) "starred_repo_status"
       "Public (Has Starred Repos)"
     <-> exists x l, starred_repos_list = Some (x :: l)) /\
    (field_is (fst carol_shaped) "starred_repo_status" "Error"
     <-> starred_repos_list = None) /\
    (dict_has (fst carol_shaped) "total_starred_count" = true
     <-> starred_repos_list <> None).
Proof.
  split; [vm_compute; reflexivity|].
  apply (starred_status_follows_starred_list carol no_analysis carol_script
           user_object (fst carol_shaped) (snd carol_shaped)).
  - vm_compute; reflexivity.
  - reflexivity.
  - vm_compute; reflexivity.
Defined.

(** ** One record per stargazer *)

Lemma shape_record_login (stargazer : Stargazer) (acc : Analysis)
    (script : list Step) (user_data : Dict) (acc' : Analysis) :
  result (shape_record stargazer acc script) = Returned (user_data, acc') ->
  dict_get user_data "login" = Some (PStr (login stargazer)) /\
  analysis_results acc' = analysis_results acc.
Proof.
  unfold shape_record. intros H.
  apply bind_returned in H as (details & _ & H).
  destruct (truthy details) as [d|].
  - apply enrich_returned in H. cbv zeta in H.
    destruct H as (ud1 & acc1 & starred & total & H1 & _ & _ & H4).
    apply fetch_activity_returned in H4 as (Hact & Hres4 & _).
    apply fetch_owned_repos_returned in H1 as (Howned & Hres1 & _).
    split.
    + rewrite Hact by key_neq. rewrite with_starred_frame by key_neq.
      rewrite Howned by key_neq. now rewrite with_details_frame by key_neq.
    + now rewrite Hres4, save_starred_results.
  - cbn in H. now injection H as <- <-.
Qed.

Lemma analyse_stargazer_returned (stargazer : Stargazer) (acc : Analysis)
    (script : list Step) (a : Analysis) :
  result (analyse_stargazer stargazer acc script) = Returned a ->
  record_logins a = record_logins acc ++ [Some (PStr (login stargazer))].
Proof.
  unfold analyse_stargazer. intros H.
  apply bind_returned in H as ([user_data acc'] & Hshape & H).
  cbn in H. injection H as <-.
  apply shape_record_login in Hshape as [Hlogin Hres].
  unfold record_logins. cbn [analysis_results].
  now rewrite map_app, Hres, <- Hlogin.
Qed.

Lemma analyse_all_returned (stargazers : list Stargazer) :
  forall (acc : Analysis) (script : list Step) (a : Analysis),
    result (analyse_all stargazers acc script) = Returned a ->
    record_logins a
    = record_logins acc ++ map (fun s => Some (PStr (login s))) stargazers.
Proof.
  induction stargazers as [|stargazer stargazers IH]; intros acc script a H.
  - cbn in H. injection H as <-. now rewrite app_nil_r.
  - cbn [analyse_all] in H.
    apply bind_returned in H as (acc1 & H1 & H).
    apply IH in H. apply analyse_stargazer_returned in H1.
    rewrite H, H1, <- app_assoc. reflexivity.
Qed.

Lemma shape_record_without_details (stargazer : Stargazer) (acc : Analysis)
    (script : list Step) (details : option Dict) :
  result (get_user_details (login stargazer) script) = Returned details ->
  truthy details = None ->
  result (shape_record stargazer acc script)
  = Returned (default_user_data (login stargazer), acc).
Proof.
  intros Hdetails Hfalsy. unfold shape_record.
  rewrite (bind_returns _ _ _ _ Hdetails), Hfalsy. reflexivity.
Qed.

(** C7 as stated fails on the fields of a failed fetch of repositories: the
    request for carol's repositories ends in a 500 and her record holds the
    string [Error fetching repos], not [Error]. *)
Lemma failed_repos_field_counterexample :
  exists a,
    result (fetch_and_save_stargazer_data "o" "r" None (page_carol :: carol_script))
      = Returned (Some a) /\
    result (get_user_repos "carol" 5 (script_at_repos carol carol_script))
      = Returned None /\
    ~ (forall user_data, In user_data (analysis_results a) ->
                         field_is user_data "top_5_repos" "Error").
Proof.
  eexists. split; [vm_compute; reflexivity|]. split; [vm_compute; reflexivity|].
  intros H. specialize (H _ (or_introl eq_refl)). discriminate H.
Qed.

Lemma analyse_stargazer_failure (stargazer : Stargazer) (acc : Analysis)
    (st : Step) (script' : list Step) :
  failed_reply st = true ->
  analyse_stargazer stargazer acc (st :: script')
  = mkOut (Returned (with_record acc (default_user_data (login stargazer))))
      script' [EvGet (UrlUser (login stargazer))].
Proof.
  unfold failed_reply. intros H.
  destruct (reply st) as [|r] eqn:Hreply; [discriminate|].
  apply andb_prop in H as [Hraises Hlimit]. apply negb_true_iff in Hlimit.
  unfold analyse_stargazer, bind.
  now rewrite (shape_record_failure st script' r).
Qed.

Lemma analyse_all_failures (stargazers : list Stargazer) :
  forall (failures : list Step) (acc : Analysis) (script' : list Step),
    List.length failures = List.length stargazers ->
    forallb failed_reply failures = true ->
    analyse_all stargazers acc (failures ++ script')
    = mkOut (Returned
               (fold_left with_record
                  (map (fun s => default_user_data (login s)) stargazers) acc))
        script' (map (fun s => EvGet (UrlUser (login s))) stargazers).
Proof.
  induction stargazers as [|stargazer stargazers IH];
    intros [|st failures] acc script' Hlen Hfailed; try discriminate.
  - reflexivity.
  - cbn [forallb] in Hfailed. apply andb_prop in Hfailed as [Hst Hfailed].
    injection Hlen as Hlen.
    cbn [analyse_all app map fold_left]. unfold bind.
    rewrite (analyse_stargazer_failure _ _ _ _ Hst). cbn [result rest trace].
    now rewrite (IH failures _ script' Hlen Hfailed).
Qed.


(** C7, as the code has it.  When the run completes, the records are one
    per fetched stargazer, in fetch order, each with that stargazer's login.
    A record is made also when enrichment fails: without details it is the
    default record, every field but the login [Error], and when the
    request for the details of each stargazer ends in a 4xx or 5xx reply
    that is not a rate-limit hit the run completes with these; when the
    starred list fails its three fields stay [Error]; a failed fetch of
    repositories leaves [Error fetching repos] in its two fields and a failed
    fetch of activity leaves [Error fetching activity or private]. *)
Theorem one_record_per_stargazer :
  (forall repo_owner repo_name limit script a,
     result (fetch_and_save_stargazer_data repo_owner repo_name limit script)
       = Returned (Some a) ->
     exists stargazers,
       result (get_stargazers repo_owner repo_name limit script)
         = Returned stargazers /\
       record_logins a = map (fun s => Some (PStr (login s))) stargazers) /\
  (forall stargazer acc script details,
     result (get_user_details (login stargazer) script) = Returned details ->
     truthy details = None ->
     result (analyse_stargazer stargazer acc script)
     = Returned (with_record acc (default_user_data (login stargazer)))) /\
  (forall stargazers failures acc script',
     List.length failures = List.length stargazers ->
     forallb failed_reply failures = true ->
     analyse_all stargazers acc (failures ++ script')
     = mkOut (Returned
                (fold_left with_record
                   (map (fun s => default_user_data (login s)) stargazers) acc))
         script' (map (fun s => EvGet (UrlUser (login s))) stargazers)) /\
  (forall stargazer acc script details user_data acc',
     result (get_user_details (login stargazer) script)
       = Returned (Some details) ->
     is_empty details = false ->
     result (shape_record stargazer acc script) = Returned (user_data, acc') ->
     (has_public_repos (detailed stargazer details) = true ->
      result (get_user_repos (login stargazer) 5
                (script_at_repos stargazer script)) = Returned None ->
      field_is user_data "top_5_repos" "Error fetching repos" /\
      field_is user_data "top_5_repos_descriptions" "Error fetching repos") /\
     (result (get_starred_repos (login stargazer)
                (script_at_starred stargazer acc details script))
        = Returned None ->
      field_is user_data "starred_repo_status" "Error" /\
      field_is user_data "starred_repos_sample" "Error" /\
      field_is user_data "starred_repos_descriptions" "Error") /\
     (forall starred,
        result (get_starred_repos (login stargazer)
                  (script_at_starred stargazer acc details script))
          = Returned starred ->
        is_public_user (detailed stargazer details) starred = true ->
        result (get_user_activity (login stargazer) 1
                  (script_at_activity stargazer acc details script))
          = Returned None ->
        field_is user_data "user_activity"
          "Error fetching activity or private")).
Proof.
  repeat match goal with |- _ /\ _ => split end.
  - intros repo_owner repo_name limit script a H.
    unfold fetch_and_save_stargazer_data in H.
    apply bind_returned in H as (stargazers & Hget & H).
    exists stargazers. split; [exact Hget|].
    destruct (is_empty stargazers); [discriminate|].
    apply bind_returned in H as (acc & Hall & H).
    cbn in H. injection H as <-.
    now apply analyse_all_returned in Hall.
  - intros stargazer acc script details Hdetails Hfalsy.
    unfold analyse_stargazer.
    rewrite (bind_returns _ _ _ _
               (shape_record_without_details _ acc _ _ Hdetails Hfalsy)).
    reflexivity.
  - intros stargazers failures acc script' Hlen Hfailed.
    now apply analyse_all_failures.
  - intros stargazer acc script details user_data acc' Hdetails Hnonempty H.
    destruct (shape_record_enriched _ _ _ _ _ _ Hdetails Hnonempty H)
      as (ud1 & acc1 & starred & total & H1 & H2 & H3 & H4 & Hpublic).
    apply fetch_activity_returned in H4 as (Hact & _ & Hfailed).
    apply fetch_owned_repos_returned in H1 as (Howned & _ & Hrepos).
    unfold field_is.
    split; [|split].
    + intros Hhas Hnone. destruct (Hrepos Hhas Hnone) as [Hnames Hdescs].
      split; rewrite Hact by key_neq; rewrite with_starred_frame by key_neq;
        assumption.
    + intros Hnone. rewrite Hnone in H2. injection H2 as <-.
      cbn [with_starred] in Hact.
      repeat split; rewrite Hact by key_neq; rewrite Howned by key_neq;
        apply (default_starred_fields (login stargazer) details); cbn; tauto.
    + intros starred' Hstarred Hpub Hnone.
      rewrite Hstarred in H2. injection H2 as ->.
      apply Hfailed; [now rewrite Hpublic | exact Hnone].
Qed.

Lemma one_record_per_stargazer_witness :
  result (get_user_details "carol" carol_script) = Returned (Some user_object) /\
  result (shape_record carol no_analysis carol_script) = Returned carol_shaped /\
  result (get_user_repos "carol" 5 (script_at_repos carol carol_script))
    = Returned None /\
  field_is (fst carol_shaped) "top_5_repos" "Error fetching repos" /\
  field_is (fst carol_shaped) "top_5_repos_descriptions" "Error fetching repos".
Proof.
  assert (Hdetails : result (get_user_details "carol" carol_script)
                     = Returned (Some user_object)) by (vm_compute; reflexivity).
  assert (Hshape : result (shape_record carol no_analysis carol_script)
                   = Returned (fst carol_shaped, snd carol_shaped))
    by (vm_compute; reflexivity).
  assert (Hrepos : result (get_user_repos "carol" 5
                             (script_at_repos carol carol_script))
                   = Returned None) by (vm_compute; reflexivity).
  split; [exact Hdetails|]. split; [vm_compute; reflexivity|].
  split; [exact Hrepos|].
  destruct one_record_per_stargazer as (_ & _ & _ & H).
  destruct (H carol no_analysis carol_script user_object (fst carol_shaped)
              (snd carol_shaped) Hdetails eq_refl Hshape) as (Hfield & _).
  apply Hfield; [vm_compute; reflexivity | exact Hrepos].
Defined.

(** * More properties of the fetch functions *)

(** ** Rate-limit hits, one after the other *)

(** X1: [get_user_details], [get_starred_repos] and the first request of
    [get_total_starred_count] answer a run of rate-limit hits by asking for
    the same URL again after each, sleeping what the hit calls for, and then
    go on as they would on the rest of the script. *)
Theorem single_requests_retry_hits (username : string) (hits script : list Step) :
  forallb rate_limit_reply hits = true ->
  get_user_details username (hits ++ script)
  = emit (retries (UrlUser username) hits) (get_user_details username script) /\
  get_starred_repos username (hits ++ script)
  = emit (retries (UrlStarred username) hits)
      (get_starred_repos username script) /\
  get_total_starred_count username (hits ++ script)
  = emit (retries (UrlStarredCount username) hits)
      (get_total_starred_count username script).
Proof.
  intros Hhits. split; [|split].
  - now apply get_user_details_retries.
  - now apply get_starred_repos_retries.
  - now apply get_total_starred_count_retries.
Qed.

Lemma single_requests_retry_hits_witness :
  get_starred_repos "alice" ([rate_limit_hit; rate_limit_hit] ++ [no_repos_page])
  = mkOut (Returned (Some [])) []
      [EvGet (UrlStarred "alice"); EvSleep 3600;
       EvGet (UrlStarred "alice"); EvSleep 3600;
       EvGet (UrlStarred "alice"); EvSleep REQUEST_DELAY].
Proof.
  destruct (single_requests_retry_hits "alice" [rate_limit_hit; rate_limit_hit]
              [no_repos_page] eq_refl) as (_ & H & _).
  rewrite H. vm_compute. reflexivity.
Defined.

(** X2: a paginated fetch answers a run of rate-limit hits by asking again
    for the same page, with the same [per_page], after each sleep; what it
    has fetched, its page and its count are as before when it goes on. *)
Theorem paginated_fetches_retry_hits (hits script : list Step) :
  forallb rate_limit_reply hits = true ->
  (forall owner repo limit stargazers page fetched_count current_per_page
          response,
     stargazers_per_page limit fetched_count = Some current_per_page ->
     get_stargazers_loop owner repo limit stargazers page fetched_count
       response (hits ++ script)
     = emit (retries (UrlStargazers owner repo page current_per_page) hits)
         (get_stargazers_loop owner repo limit stargazers page fetched_count
            (response_after response hits) script)) /\
  (forall username limit repos page per_page fetched_count response,
     fetched_count < limit ->
     get_user_repos_loop username limit repos page per_page fetched_count
       response (hits ++ script)
     = emit (retries (UrlRepos username page per_page) hits)
         (get_user_repos_loop username limit repos page per_page
            fetched_count (response_after response hits) script)) /\
  (forall username max_pages activities page response,
     page <= max_pages ->
     get_user_activity_loop username max_pages activities page response
       (hits ++ script)
     = emit (retries (UrlEvents username page) hits)
         (get_user_activity_loop username max_pages activities page
            (response_after response hits) script)).
Proof.
  intros Hhits. split; [|split]; intros.
  - now apply get_stargazers_loop_retries.
  - now apply get_user_repos_loop_retries.
  - now apply get_user_activity_loop_retries.
Qed.

Lemma paginated_fetches_retry_hits_witness :
  get_stargazers "o" "r" (Some 7) ([rate_limit_hit] ++ [page_carol])
  = mkOut (Returned [carol]) []
      [EvGet (UrlStargazers "o" "r" 1 7); EvSleep 3600;
       EvGet (UrlStargazers "o" "r" 1 7)].
Proof.
  destruct (paginated_fetches_retry_hits [rate_limit_hit] [page_carol] eq_refl)
    as (H & _).
  unfold get_stargazers.
  rewrite (H "o" "r" (Some 7) [] 1 0 7 None eq_refl).
  vm_compute. reflexivity.
Defined.

(** ** How long the sleeps last *)

Lemma Forall_emit {A} (P : Ev -> Prop) (evs : list Ev) (o : Out A) :
  Forall P evs -> Forall P (trace o) -> Forall P (trace (emit evs o)).
Proof. intros. rewrite trace_emit. now apply Forall_app. Qed.

Lemma long_pause_paced (ev : Ev) : long_pause ev -> paced ev.
Proof. destruct ev; cbn; tauto. Qed.

Lemma long_pause_quota_pause (r : Response) : Forall long_pause (quota_pause r).
Proof.
  unfold quota_pause. destruct (_ <? 10); constructor; [|constructor].
  cbn. apply Qle_refl.
Qed.

Lemma long_pause_sleep_duration (r : Response) (st : Step) :
  long_pause (EvSleep (sleep_duration r st)).
Proof. cbn. unfold sleep_duration. apply py_max_at_least. Qed.

Lemma on_request_exception_retry (response : option Response) (st : Step)
    (seconds : Q) :
  on_request_exception response st = Retry seconds -> (60 <= seconds)%Q.
Proof.
  destruct response as [r|]; cbn; [|discriminate].
  destruct (rate_limited r); [|discriminate].
  intros [= <-]. apply (long_pause_sleep_duration r st).
Qed.

(** Closes the goals on the events a fetch function emits itself. *)
Ltac sleeps :=
  repeat first
    [ apply Forall_nil
    | apply Forall_emit
    | apply Forall_cons
    | exact I
    | apply long_pause_quota_pause
    | apply (Forall_impl _ long_pause_paced), long_pause_quota_pause
    | progress cbn [trace done raised starved paced long_pause]
    | solve [left; reflexivity] ].

Lemma get_total_starred_count_sleeps (username : string) (script : list Step) :
  Forall long_pause (trace (get_total_starred_count username script)).
Proof.
  induction script as [|st script' IH]; cbn [get_total_starred_count]; [sleeps|].
  apply Forall_emit; [sleeps|].
  assert (Hhandler : forall response,
    Forall long_pause
      (trace match on_request_exception response st with
             | Unbound => raised UnboundLocalError script'
             | Retry seconds =>
                 emit [EvSleep seconds] (get_total_starred_count username script')
             | GiveUp => done PNone script'
             end)).
  { intros response. destruct (on_request_exception response st) eqn:E; sleeps.
    - exact (on_request_exception_retry _ _ _ E).
    - exact IH. }
  destruct (reply st) as [|r]; [apply Hhandler|].
  destruct (status_code r =? 404); [sleeps|].
  destruct (raises r) eqn:Hraises; [apply Hhandler|].
  apply Forall_emit; [sleeps|].
  destruct (link_last r); sleeps;
    (destruct script' as [|st2 script'']; [sleeps|];
     rewrite on_request_exception_some, (not_raising_not_limited r Hraises);
     destruct (reply st2) as [|r2]; sleeps;
     destruct (raises r2); sleeps; destruct (has_next r); sleeps).
Qed.

Lemma paced_handler {A} (response : option Response) (st : Step)
    (unbound giveup : Out A) (retry : Out A) :
  Forall paced (trace unbound) -> Forall paced (trace giveup) ->
  Forall paced (trace retry) ->
  Forall paced
    (trace match on_request_exception response st with
           | Unbound => unbound
           | Retry seconds => emit [EvSleep seconds] retry
           | GiveUp => giveup
           end).
Proof.
  intros Hu Hg Hr. destruct (on_request_exception response st) eqn:E;
    [exact Hu | | exact Hg].
  apply Forall_emit; [|exact Hr]. constructor; [|constructor].
  right. exact (on_request_exception_retry _ _ _ E).
Qed.

Lemma get_user_details_sleeps (username : string) (script : list Step) :
  Forall paced (trace (get_user_details username script)).
Proof.
  induction script as [|st script' IH]; cbn [get_user_details]; [sleeps|].
  apply Forall_emit; [sleeps|].
  destruct (reply st) as [|r]; [apply paced_handler; sleeps; exact IH|].
  destruct (raises r).
  - destruct (status_code r =? 404); [sleeps|].
    apply paced_handler; sleeps; exact IH.
  - apply Forall_emit; [sleeps|]. destruct (json r); sleeps.
Qed.

Lemma get_starred_repos_sleeps (username : string) (script : list Step) :
  Forall paced (trace (get_starred_repos username script)).
Proof.
  induction script as [|st script' IH]; cbn [get_starred_repos]; [sleeps|].
  apply Forall_emit; [sleeps|].
  destruct (reply st) as [|r]; [apply paced_handler; sleeps; exact IH|].
  destruct (status_code r =? 404); [sleeps|].
  destruct (raises r); [apply paced_handler; sleeps; exact IH|].
  apply Forall_emit; [sleeps|]. destruct (json r); sleeps.
Qed.

Lemma get_stargazers_loop_sleeps (owner repo : string) (limit : option Z)
    (script : list Step) :
  forall stargazers page fetched_count response,
    Forall paced (trace (get_stargazers_loop owner repo limit stargazers page
                           fetched_count response script)).
Proof.
  induction script as [|st script' IH];
    intros stargazers page fetched_count response;
    cbn [get_stargazers_loop];
    destruct (stargazers_per_page limit fetched_count); sleeps.
  destruct (reply st) as [|r]; [apply paced_handler; sleeps; apply IH|].
  destruct (raises r); [apply paced_handler; sleeps; apply IH|].
  apply Forall_emit; [sleeps|].
  destruct (json r) as [data| | |]; sleeps.
  destruct (is_empty data); sleeps.
  destruct (limit_reached _ _); sleeps.
  destruct (negb (has_next r)); sleeps. apply IH.
Qed.

Lemma get_user_repos_loop_sleeps (username : string) (limit : Z)
    (script : list Step) :
  forall repos page per_page fetched_count response,
    Forall paced (trace (get_user_repos_loop username limit repos page
                           per_page fetched_count response script)).
Proof.
  induction script as [|st script' IH];
    intros repos page per_page fetched_count response;
    cbn [get_user_repos_loop];
    destruct (negb (fetched_count <? limit)); sleeps.
  destruct (reply st) as [|r]; [apply paced_handler; sleeps; apply IH|].
  destruct (raises r); [apply paced_handler; sleeps; apply IH|].
  apply Forall_emit; [sleeps|].
  destruct (json r) as [|data| |]; sleeps.
  destruct (is_empty data); sleeps.
  destruct (_ || _); sleeps. apply IH.
Qed.

Lemma get_user_activity_loop_sleeps (username : string) (max_pages : Z)
    (script : list Step) :
  forall activities page response,
    Forall paced (trace (get_user_activity_loop username max_pages activities
                           page response script)).
Proof.
  induction script as [|st script' IH];
    intros activities page response;
    cbn [get_user_activity_loop];
    destruct (negb (page <=? max_pages)); sleeps.
  destruct (reply st) as [|r]; [apply paced_handler; sleeps; apply IH|].
  destruct (status_code r =? 404); [sleeps|].
  destruct (raises r); [apply paced_handler; sleeps; apply IH|].
  apply Forall_emit; [sleeps|].
  destruct (json r) as [| |data|]; sleeps.
  destruct (is_empty data); sleeps.
  destruct (_ || _); sleeps. apply IH.
Qed.

(** X3: whatever the replies, a fetch function sleeps for [REQUEST_DELAY] or
    for a minute or more, and for nothing else: a rate-limit sleep is never
    cut below 60 seconds, also when the reported reset time has passed. *)
Theorem fetch_sleeps_are_paced (script : list Step) :
  (forall owner repo limit,
     Forall paced (trace (get_stargazers owner repo limit script))) /\
  (forall username,
     Forall paced (trace (get_user_details username script))) /\
  (forall username limit,
     Forall paced (trace (get_user_repos username limit script))) /\
  (forall username,
     Forall paced (trace (get_starred_repos username script))) /\
  (forall username,
     Forall paced (trace (get_total_starred_count username script))) /\
  (forall username max_pages,
     Forall paced (trace (get_user_activity username max_pages script))).
Proof.
  repeat match goal with |- _ /\ _ => split end; intros.
  - apply get_stargazers_loop_sleeps.
  - apply get_user_details_sleeps.
  - unfold get_user_repos. destruct (limit <=? 0); [sleeps|].
    apply get_user_repos_loop_sleeps.
  - apply get_starred_repos_sleeps.
  - apply (Forall_impl _ long_pause_paced), get_total_starred_count_sleeps.
  - rewrite trace_get_user_activity. apply get_user_activity_loop_sleeps.
Qed.

(** X4: [get_total_starred_count] never sleeps for [REQUEST_DELAY]: every
    sleep of its is a quota pause or a rate-limit sleep, a minute or more.
    (Its [time.sleep(REQUEST_DELAY)] comes after a [return] on both
    branches.) *)
Theorem starred_count_never_delays (username : string) (script : list Step) :
  Forall long_pause (trace (get_total_starred_count username script)) /\
  ~ In (EvSleep REQUEST_DELAY) (trace (get_total_starred_count username script)).
Proof.
  pose proof (get_total_starred_count_sleeps username script) as H.
  split; [exact H|].
  intros Hin. rewrite Forall_forall in H. apply H in Hin.
  cbn in Hin. unfold REQUEST_DELAY, Qle in Hin. cbn in Hin. lia.
Qed.

(** ** A request that raises instead of giving a reply *)

(** X5: when the very first request of a fetch function raises (connection
    error, timeout), the function does not return: its handler reads
    [response], which was never assigned, and the [UnboundLocalError] goes up
    to the caller, [fetch_and_save_stargazer_data] included. *)
Theorem network_error_on_first_request (st : Step) (script' : list Step) :
  reply st = NetErr ->
  (forall owner repo limit,
     (forall n, limit = Some n -> 0 < n) ->
     result (get_stargazers owner repo limit (st :: script'))
       = Raised UnboundLocalError /\
     result (fetch_and_save_stargazer_data owner repo limit (st :: script'))
       = Raised UnboundLocalError) /\
  (forall username,
     result (get_user_details username (st :: script'))
       = Raised UnboundLocalError) /\
  (forall username limit,
     0 < limit ->
     result (get_user_repos username limit (st :: script'))
       = Raised UnboundLocalError) /\
  (forall username,
     result (get_starred_repos username (st :: script'))
       = Raised UnboundLocalError) /\
  (forall username,
     result (get_total_starred_count username (st :: script'))
       = Raised UnboundLocalError) /\
  (forall username max_pages,
     1 <= max_pages ->
     result (get_user_activity username max_pages (st :: script'))
       = Raised UnboundLocalError).
Proof.
  intros Hreply.
  repeat match goal with |- _ /\ _ => split end; intros.
  - assert (Hget : result (get_stargazers owner repo limit (st :: script'))
                   = Raised UnboundLocalError).
    { unfold get_stargazers. cbn [get_stargazers_loop].
      destruct limit as [n|]; cbn [stargazers_per_page].
      - specialize (H n eq_refl).
        replace (n - 0 <=? 0) with false by (symmetry; apply Z.leb_gt; lia).
        destruct (n - 0 <? 100); now rewrite Hreply.
      - now rewrite Hreply. }
    split; [exact Hget|].
    unfold fetch_and_save_stargazer_data, bind. now rewrite Hget.
  - cbn [get_user_details]. now rewrite Hreply.
  - unfold get_user_repos.
    replace (limit <=? 0) with false by (symmetry; apply Z.leb_gt; lia).
    cbn [get_user_repos_loop].
    replace (0 <? limit) with true by (symmetry; apply Z.ltb_lt; lia).
    cbn [negb]. now rewrite Hreply.
  - cbn [get_starred_repos]. now rewrite Hreply.
  - cbn [get_total_starred_count]. now rewrite Hreply.
  - rewrite result_get_user_activity. cbn [get_user_activity_loop].
    replace (1 <=? max_pages) with true by (symmetry; apply Z.leb_le; lia).
    cbn [negb]. now rewrite Hreply.
Qed.

Lemma network_error_on_first_request_witness :
  result (fetch_and_save_stargazer_data "o" "r" (Some 10)
            [at_noon NetErr; page_carol])
  = Raised UnboundLocalError.
Proof.
  destruct (network_error_on_first_request (at_noon NetErr) [page_carol] eq_refl)
    as (H & _).
  apply (H "o" "r" (Some 10)). intros n [= <-]. lia.
Defined.

Lemma retries_on_cons (previous : Response) (u : Url) (st : Step)
    (errors : list Step) :
  retries_on previous u (st :: errors)
  = EvGet u :: EvSleep (sleep_duration previous st)
      :: retries_on previous u errors.
Proof. reflexivity. Qed.

(** Unfolds one request that raised at the head of the script. *)
Ltac raised_request st H previous Hlimited :=
  unfold network_error in H;
  destruct (reply st); [|discriminate H];
  rewrite on_request_exception_some, Hlimited.

Lemma get_stargazers_loop_network_errors (owner repo : string)
    (limit : option Z) (stargazers : list Stargazer)
    (page fetched_count current_per_page : Z) (previous : Response)
    (errors script : list Step) :
  stargazers_per_page limit fetched_count = Some current_per_page ->
  rate_limited previous = true ->
  forallb network_error errors = true ->
  get_stargazers_loop owner repo limit stargazers page fetched_count
    (Some previous) (errors ++ script)
  = emit (retries_on previous
            (UrlStargazers owner repo page current_per_page) errors)
      (get_stargazers_loop owner repo limit stargazers page fetched_count
         (Some previous) script).
Proof.
  intros Hpp Hlimited. induction errors as [|st errors IH]; intros Herrors.
  - cbn [app retries_on flat_map]. now rewrite emit_nil.
  - cbn [forallb] in Herrors. apply andb_prop in Herrors as [Hst Herrors].
    rewrite retries_on_cons, <- emit_cons2, <- (IH Herrors).
    cbn [app get_stargazers_loop]. rewrite Hpp.
    raised_request st Hst previous Hlimited. reflexivity.
Qed.

Lemma get_user_repos_loop_network_errors (username : string) (limit : Z)
    (repos : list Repo) (page per_page fetched_count : Z)
    (previous : Response) (errors script : list Step) :
  fetched_count < limit ->
  rate_limited previous = true ->
  forallb network_error errors = true ->
  get_user_repos_loop username limit repos page per_page fetched_count
    (Some previous) (errors ++ script)
  = emit (retries_on previous (UrlRepos username page per_page) errors)
      (get_user_repos_loop username limit repos page per_page fetched_count
         (Some previous) script).
Proof.
  intros Hroom Hlimited. apply Z.ltb_lt in Hroom.
  induction errors as [|st errors IH]; intros Herrors.
  - cbn [app retries_on flat_map]. now rewrite emit_nil.
  - cbn [forallb] in Herrors. apply andb_prop in Herrors as [Hst Herrors].
    rewrite retries_on_cons, <- emit_cons2, <- (IH Herrors).
    cbn [app get_user_repos_loop]. rewrite Hroom. cbn [negb].
    raised_request st Hst previous Hlimited. reflexivity.
Qed.

Lemma get_user_activity_loop_network_errors (username : string)
    (max_pages : Z) (activities : list Activity) (page : Z)
    (previous : Response) (errors script : list Step) :
  page <= max_pages ->
  rate_limited previous = true ->
  forallb network_error errors = true ->
  get_user_activity_loop username max_pages activities page
    (Some previous) (errors ++ script)
  = emit (retries_on previous (UrlEvents username page) errors)
      (get_user_activity_loop username max_pages activities page
         (Some previous) script).
Proof.
  intros Hroom Hlimited. apply Z.leb_le in Hroom.
  induction errors as [|st errors IH]; intros Herrors.
  - cbn [app retries_on flat_map]. now rewrite emit_nil.
  - cbn [forallb] in Herrors. apply andb_prop in Herrors as [Hst Herrors].
    rewrite retries_on_cons, <- emit_cons2, <- (IH Herrors).
    cbn [app get_user_activity_loop]. rewrite Hroom. cbn [negb].
    raised_request st Hst previous Hlimited. reflexivity.
Qed.

(** X6: in a later iteration of a paginated fetch the handler of a request
    that raised sees the reply of the iteration before.  After a rate-limit
    hit every such request, however many follow, is slept on and made again
    as if it were one more hit; after a page the first one ends the fetch,
    with the stargazers so far for [get_stargazers] and with [None] for the
    other two. *)
Theorem network_error_sees_previous_reply
    (previous : Response) (errors script : list Step) :
  forallb network_error errors = true ->
  (rate_limited previous = true ->
   (forall owner repo limit stargazers page fetched_count current_per_page,
      stargazers_per_page limit fetched_count = Some current_per_page ->
      get_stargazers_loop owner repo limit stargazers page fetched_count
        (Some previous) (errors ++ script)
      = emit (retries_on previous
                (UrlStargazers owner repo page current_per_page) errors)
          (get_stargazers_loop owner repo limit stargazers page
             fetched_count (Some previous) script)) /\
   (forall username limit repos page per_page fetched_count,
      fetched_count < limit ->
      get_user_repos_loop username limit repos page per_page fetched_count
        (Some previous) (errors ++ script)
      = emit (retries_on previous (UrlRepos username page per_page) errors)
          (get_user_repos_loop username limit repos page per_page
             fetched_count (Some previous) script)) /\
   (forall username max_pages activities page,
      page <= max_pages ->
      get_user_activity_loop username max_pages activities page
        (Some previous) (errors ++ script)
      = emit (retries_on previous (UrlEvents username page) errors)
          (get_user_activity_loop username max_pages activities page
             (Some previous) script))) /\
  (rate_limited previous = false ->
   forall st errors',
     errors = st :: errors' ->
     (forall owner repo limit stargazers page fetched_count current_per_page,
        stargazers_per_page limit fetched_count = Some current_per_page ->
        get_stargazers_loop owner repo limit stargazers page fetched_count
          (Some previous) (errors ++ script)
        = mkOut (Returned stargazers) (errors' ++ script)
            [EvGet (UrlStargazers owner repo page current_per_page)]) /\
     (forall username limit repos page per_page fetched_count,
        fetched_count < limit ->
        get_user_repos_loop username limit repos page per_page fetched_count
          (Some previous) (errors ++ script)
        = mkOut (Returned None) (errors' ++ script)
            [EvGet (UrlRepos username page per_page)]) /\
     (forall username max_pages activities page,
        page <= max_pages ->
        get_user_activity_loop username max_pages activities page
          (Some previous) (errors ++ script)
        = mkOut (Returned None) (errors' ++ script)
            [EvGet (UrlEvents username page)])).
Proof.
  intros Herrors. split.
  - intros Hlimited. split; [|split]; intros.
    + now apply get_stargazers_loop_network_errors.
    + now apply get_user_repos_loop_network_errors.
    + now apply get_user_activity_loop_network_errors.
  - intros Hlimited st errors' ->.
    cbn [forallb] in Herrors. apply andb_prop in Herrors as [Hst _].
    unfold network_error in Hst.
    destruct (reply st) eqn:Hreply; [|discriminate].
    split; [|split].
    + intros owner repo limit stargazers page fetched_count cpp Hpp.
      cbn [app get_stargazers_loop].
      now rewrite Hpp, Hreply, on_request_exception_some, Hlimited.
    + intros username limit repos page per_page fetched_count Hroom.
      apply Z.ltb_lt in Hroom. cbn [app get_user_repos_loop].
      rewrite Hroom. cbn [negb].
      now rewrite Hreply, on_request_exception_some, Hlimited.
    + intros username max_pages activities page Hroom.
      apply Z.leb_le in Hroom. cbn [app get_user_activity_loop].
      rewrite Hroom. cbn [negb].
      now rewrite Hreply, on_request_exception_some, Hlimited.
Qed.

Lemma network_error_sees_previous_reply_witness :
  get_stargazers_loop "o" "r" None [] 1 0
    (Some (response_error 403 "API rate limit exceeded for user ID 1."))
    ([at_noon NetErr; at_noon NetErr] ++ [page_carol])
  = mkOut (Returned [carol]) []
      [EvGet (UrlStargazers "o" "r" 1 100); EvSleep 3600;
       EvGet (UrlStargazers "o" "r" 1 100); EvSleep 3600;
       EvGet (UrlStargazers "o" "r" 1 100)].
Proof.
  destruct (network_error_sees_previous_reply
              (response_error 403 "API rate limit exceeded for user ID 1.")
              [at_noon NetErr; at_noon NetErr] [page_carol] eq_refl)
    as (H & _).
  destruct (H eq_refl) as (Hstargazers & _).
  rewrite (Hstargazers "o" "r" None [] 1 0 100 eq_refl).
  vm_compute. reflexivity.
Defined.

(** ** What the requests ask for *)

Lemma Forall_requests_emit {A} (P : Url -> Prop) (evs : list Ev) (o : Out A) :
  Forall P (requests evs) -> Forall P (requests (trace o)) ->
  Forall P (requests (trace (emit evs o))).
Proof. intros. rewrite trace_emit, requests_app. now apply Forall_app. Qed.

Lemma Forall_requests_handler {A} (P : Url -> Prop)
    (response : option Response) (st : Step) (unbound giveup retry : Out A) :
  Forall P (requests (trace unbound)) -> Forall P (requests (trace giveup)) ->
  Forall P (requests (trace retry)) ->
  Forall P
    (requests (trace match on_request_exception response st with
                     | Unbound => unbound
                     | Retry seconds => emit [EvSleep seconds] retry
                     | GiveUp => giveup
                     end)).
Proof.
  intros Hu Hg Hr. destruct (on_request_exception response st);
    [exact Hu | | exact Hg].
  apply Forall_requests_emit; [constructor | exact Hr].
Qed.

Lemma stargazers_per_page_bounds (limit : option Z) (fetched_count n : Z) :
  0 <= fetched_count ->
  stargazers_per_page limit fetched_count = Some n ->
  1 <= n <= 100 /\ match limit with Some most => n <= most | None => True end.
Proof.
  intros Hpos. unfold stargazers_per_page. destruct limit as [most|].
  - destruct (most - fetched_count <=? 0) eqn:E; [discriminate|].
    apply Z.leb_gt in E.
    destruct (most - fetched_count <? 100) eqn:E'; intros [= <-].
    + apply Z.ltb_lt in E'. lia.
    + apply Z.ltb_ge in E'. lia.
  - intros [= <-]. lia.
Qed.

(** The requests a step emits itself, and the run that follows. *)
Ltac asks :=
  repeat first
    [ apply Forall_nil
    | apply Forall_requests_emit
    | apply Forall_requests_handler
    | rewrite requests_quota_pause
    | progress cbn [trace done raised starved requests] ].

Lemma get_stargazers_loop_asks (owner repo : string) (limit : option Z)
    (script : list Step) :
  forall stargazers page fetched_count response,
    1 <= page -> 0 <= fetched_count ->
    Forall (asks_within limit)
      (requests (trace (get_stargazers_loop owner repo limit stargazers page
                          fetched_count response script))).
Proof.
  induction script as [|st script' IH];
    intros stargazers page fetched_count response Hpage Hcount;
    cbn [get_stargazers_loop];
    destruct (stargazers_per_page limit fetched_count) as [n|] eqn:Hpp; asks.
  - constructor; [|constructor].
    destruct (stargazers_per_page_bounds _ _ _ Hcount Hpp) as [Hn Hmost].
    unfold asks_within. cbn [page_of per_page_of]. tauto.
  - destruct (reply st) as [|r]; asks; try now apply IH.
    destruct (raises r); asks; try now apply IH.
    destruct (json r) as [data| | |]; asks.
    destruct (is_empty data); asks.
    destruct (limit_reached _ _); asks.
    destruct (negb (has_next r)); asks.
    apply IH; lia.
Qed.

Lemma get_user_repos_loop_asks (username : string) (limit : Z)
    (script : list Step) :
  forall repos page per_page fetched_count response,
    1 <= page -> 1 <= per_page <= 100 -> per_page <= limit ->
    Forall (asks_within (Some limit))
      (requests (trace (get_user_repos_loop username limit repos page per_page
                          fetched_count response script))).
Proof.
  induction script as [|st script' IH];
    intros repos page per_page fetched_count response Hpage Hper Hmost;
    cbn [get_user_repos_loop];
    destruct (negb (fetched_count <? limit)); asks.
  - constructor; [|constructor].
    unfold asks_within. cbn [page_of per_page_of]. tauto.
  - destruct (reply st) as [|r]; asks; try now apply IH.
    destruct (raises r); asks; try now apply IH.
    destruct (json r) as [|data| |]; asks.
    destruct (is_empty data); asks.
    destruct (limit <=? fetched_count + Z.of_nat (List.length data)) eqn:Hreached;
      cbn [orb]; asks.
    apply Z.leb_gt in Hreached.
    destruct (negb (has_next r)); asks.
    apply IH; [lia | | ];
      destruct (limit - (fetched_count + Z.of_nat (List.length data)) <? per_page)
        eqn:E; try (apply Z.ltb_lt in E); lia.
Qed.

Lemma get_user_activity_loop_asks (username : string) (max_pages : Z)
    (script : list Step) :
  forall activities page response,
    1 <= page ->
    Forall (fun u => 1 <= page_of u <= max_pages /\ per_page_of u = 30)
      (requests (trace (get_user_activity_loop username max_pages activities
                          page response script))).
Proof.
  induction script as [|st script' IH];
    intros activities page response Hpage;
    cbn [get_user_activity_loop];
    destruct (negb (page <=? max_pages)) eqn:Hhead; asks.
  - constructor; [|constructor].
    apply negb_false_iff, Z.leb_le in Hhead. cbn [page_of per_page_of]. lia.
  - destruct (reply st) as [|r]; asks; try now apply IH.
    destruct (status_code r =? 404); asks.
    destruct (raises r); asks; try now apply IH.
    destruct (json r) as [| |data|]; asks.
    destruct (is_empty data); asks.
    destruct (_ || _); asks.
    apply IH; lia.
Qed.

(** X7: whatever the replies, [get_stargazers] and [get_user_repos] ask for
    pages from the first on and for 1 to 100 items per page, never more than
    the limit; [get_user_activity] asks for 30 items of a page between 1 and
    [max_pages]. *)
Theorem requests_stay_within_bounds (script : list Step) :
  (forall owner repo limit,
     Forall (asks_within limit)
       (requests (trace (get_stargazers owner repo limit script)))) /\
  (forall username limit,
     Forall (asks_within (Some limit))
       (requests (trace (get_user_repos username limit script)))) /\
  (forall username max_pages,
     Forall (fun u => 1 <= page_of u <= max_pages /\ per_page_of u = 30)
       (requests (trace (get_user_activity username max_pages script)))).
Proof.
  split; [|split]; intros.
  - apply get_stargazers_loop_asks; lia.
  - unfold get_user_repos. destruct (limit <=? 0) eqn:E; [constructor|].
    apply Z.leb_gt in E. apply get_user_repos_loop_asks; lia.
  - rewrite trace_get_user_activity. apply get_user_activity_loop_asks; lia.
Qed.

(** ** What a fetch returns is what the replies held *)

Lemma py_take_all {A} (n : Z) (l : list A) :
  Z.of_nat (List.length l) <= n -> py_take n l = l.
Proof.
  intros H. unfold py_take.
  destruct (n <? 0) eqn:E; [apply Z.ltb_lt in E; lia|].
  apply firstn_all2. lia.
Qed.

Lemma py_take_nil {A} (n : Z) : py_take n (@nil A) = [].
Proof. unfold py_take. destruct (n <? 0); cbn; now rewrite ?firstn_nil. Qed.

Lemma stargazers_in_failed (st : Step) :
  match reply st with Resp r => raises r = true | NetErr => True end ->
  stargazers_in st = [].
Proof. unfold stargazers_in. destruct (reply st); [reflexivity|]. now intros ->. Qed.

Lemma get_stargazers_loop_complete (owner repo : string) (limit : option Z)
    (script : list Step) :
  forall stargazers page fetched_count response l,
    Z.of_nat (List.length stargazers) = fetched_count ->
    (forall most, limit = Some most -> stargazers = [] \/ fetched_count < most) ->
    let o := get_stargazers_loop owner repo limit stargazers page fetched_count
               response script in
    result o = Returned l ->
    exists consumed,
      script = consumed ++ rest o /\
      l = trim limit (stargazers ++ flat_map stargazers_in consumed).
Proof.
  induction script as [|st script' IH];
    intros stargazers page fetched_count response l Hlen Hinv;
    cbn [get_stargazers_loop];
    destruct (stargazers_per_page limit fetched_count) as [n|] eqn:Hpp;
    cbv zeta.
  - discriminate.
  - cbn. intros [= <-]. exists []. split; [reflexivity|].
    cbn [flat_map]. rewrite app_nil_r.
    destruct limit as [most|]; [|discriminate]. cbn [trim].
    cbn in Hpp. destruct (most - fetched_count <=? 0) eqn:E;
      [|destruct (_ <? 100); discriminate].
    apply Z.leb_le in E.
    destruct (Hinv most eq_refl) as [-> | Hlt]; [now rewrite py_take_nil | lia].
  - (* the limit, when there is one, is not reached at the head *)
    assert (Hroom : forall most, limit = Some most -> fetched_count < most).
    { intros most ->. cbn in Hpp.
      destruct (most - fetched_count <=? 0) eqn:E; [discriminate|].
      apply Z.leb_gt in E. lia. }
    assert (Hkeep : trim limit stargazers = stargazers).
    { destruct limit as [most|]; [|reflexivity]. cbn [trim].
      apply py_take_all. specialize (Hroom most eq_refl). lia. }
    rewrite result_emit, rest_emit.
    assert (Hhandler : forall resp,
      stargazers_in st = [] ->
      let o := match on_request_exception resp st with
               | Unbound => raised UnboundLocalError script'
               | Retry seconds =>
                   emit [EvSleep seconds]
                     (get_stargazers_loop owner repo limit stargazers page
                        fetched_count resp script')
               | GiveUp => done stargazers script'
               end in
      result o = Returned l ->
      exists consumed,
        st :: script' = consumed ++ rest o /\
        l = trim limit (stargazers ++ flat_map stargazers_in consumed)).
    { intros resp Hnone. destruct (on_request_exception resp st); cbv zeta.
      - discriminate.
      - rewrite result_emit, rest_emit. intros H.
        destruct (IH _ _ _ _ _ Hlen Hinv H) as (consumed & Hscript & Hl).
        exists (st :: consumed). split; [cbn; now rewrite <- Hscript|].
        cbn [flat_map]. now rewrite Hnone.
      - cbn. intros [= <-]. exists [st]. split; [reflexivity|].
        cbn [flat_map]. now rewrite Hnone, !app_nil_r. }
    destruct (reply st) as [|r] eqn:Hreply.
    { apply Hhandler. apply stargazers_in_failed. now rewrite Hreply. }
    destruct (raises r) eqn:Hraises.
    { apply Hhandler. apply stargazers_in_failed. now rewrite Hreply. }
    rewrite result_emit, rest_emit.
    destruct (json r) as [data| | |] eqn:Hjson; try discriminate.
    assert (Hin : stargazers_in st = data).
    { unfold stargazers_in. now rewrite Hreply, Hraises, Hjson. }
    destruct (is_empty data) eqn:Hempty.
    { cbn. intros [= <-]. exists [st]. split; [reflexivity|].
      cbn [flat_map]. rewrite Hin. destruct data; [|discriminate].
      now rewrite !app_nil_r. }
    destruct (limit_reached limit _) eqn:Hreached.
    { cbn. intros [= <-]. exists [st]. split; [reflexivity|].
      cbn [flat_map]. now rewrite Hin, app_nil_r. }
    assert (Hroom' : forall most, limit = Some most ->
              fetched_count + Z.of_nat (List.length data) < most).
    { intros most ->. cbn in Hreached. now apply Z.leb_gt in Hreached. }
    destruct (negb (has_next r)).
    { cbn. intros [= <-]. exists [st]. split; [reflexivity|].
      cbn [flat_map]. rewrite Hin, app_nil_r.
      destruct limit as [most|]; [|reflexivity]. cbn [trim]. symmetry.
      apply py_take_all. specialize (Hroom' most eq_refl).
      rewrite length_app. lia. }
    rewrite result_emit, rest_emit. intros H.
    apply IH in H; [| rewrite length_app; lia | intros most Hm; right; auto].
    destruct H as (consumed & Hscript & Hl).
    exists (st :: consumed). split; [cbn; now rewrite <- Hscript|].
    cbn [flat_map]. now rewrite Hin, app_assoc.
  - cbn. intros [= <-]. exists []. split; [reflexivity|].
    cbn [flat_map]. rewrite app_nil_r.
    destruct limit as [most|]; [|discriminate]. cbn [trim].
    cbn in Hpp. destruct (most - fetched_count <=? 0) eqn:E;
      [|destruct (_ <? 100); discriminate].
    apply Z.leb_le in E.
    destruct (Hinv most eq_refl) as [-> | Hlt]; [now rewrite py_take_nil | lia].
Qed.

(** X8: the list [get_stargazers] returns is made of the stargazers of the
    pages it read, all of them and in the order they came, cut to the limit
    when there is one: nothing is lost, repeated or moved, whatever failed
    in between. *)
Theorem get_stargazers_returns_what_pages_held
    (owner repo : string) (limit : option Z) (script : list Step)
    (l : list Stargazer) :
  result (get_stargazers owner repo limit script) = Returned l ->
  exists consumed,
    script = consumed ++ rest (get_stargazers owner repo limit script) /\
    l = trim limit (flat_map stargazers_in consumed).
Proof.
  intros H. unfold get_stargazers in *.
  apply get_stargazers_loop_complete in H; [exact H | reflexivity |].
  intros most _. now left.
Qed.

Lemma get_stargazers_returns_what_pages_held_witness :
  exists consumed,
    [page_alice_bob; rate_limit_hit; page_carol; server_error]
    = consumed ++ rest (get_stargazers "o" "r" None
                          [page_alice_bob; rate_limit_hit; page_carol;
                           server_error]) /\
    [alice; bob; carol] = trim None (flat_map stargazers_in consumed).
Proof.
  apply (get_stargazers_returns_what_pages_held "o" "r" None
           [page_alice_bob; rate_limit_hit; page_carol; server_error]
           [alice; bob; carol]).
  vm_compute. reflexivity.
Defined.

Lemma repos_in_failed (st : Step) :
  match reply st with Resp r => raises r = true | NetErr => True end ->
  repos_in st = [].
Proof. unfold repos_in. destruct (reply st); [reflexivity|]. now intros ->. Qed.

Lemma get_user_repos_loop_complete (username : string) (limit : Z)
    (script : list Step) :
  forall repos page per_page fetched_count response l,
    let o := get_user_repos_loop username limit repos page per_page
               fetched_count response script in
    result o = Returned (Some l) ->
    exists consumed,
      script = consumed ++ rest o /\
      l = map repo_tuple (py_take limit (repos ++ flat_map repos_in consumed)).
Proof.
  induction script as [|st script' IH];
    intros repos page per_page fetched_count response l;
    cbn [get_user_repos_loop];
    destruct (negb (fetched_count <? limit)); cbv zeta.
  - cbn. intros [= <-]. exists []. split; [reflexivity|].
    cbn [flat_map]. now rewrite app_nil_r.
  - discriminate.
  - cbn. intros [= <-]. exists []. split; [reflexivity|].
    cbn [flat_map]. now rewrite app_nil_r.
  - rewrite result_emit, rest_emit.
    assert (Hhandler : forall resp,
      repos_in st = [] ->
      let o := match on_request_exception resp st with
               | Unbound => raised UnboundLocalError script'
               | Retry seconds =>
                   emit [EvSleep seconds]
                     (get_user_repos_loop username limit repos page per_page
                        fetched_count resp script')
               | GiveUp => done None script'
               end in
      result o = Returned (Some l) ->
      exists consumed,
        st :: script' = consumed ++ rest o /\
        l = map repo_tuple
              (py_take limit (repos ++ flat_map repos_in consumed))).
    { intros resp Hnone. destruct (on_request_exception resp st); cbv zeta;
        try discriminate.
      rewrite result_emit, rest_emit. intros H.
      destruct (IH _ _ _ _ _ _ H) as (consumed & Hscript & Hl).
      exists (st :: consumed). split; [cbn; now rewrite <- Hscript|].
      cbn [flat_map]. now rewrite Hnone. }
    destruct (reply st) as [|r] eqn:Hreply.
    { apply Hhandler. apply repos_in_failed. now rewrite Hreply. }
    destruct (raises r) eqn:Hraises.
    { apply Hhandler. apply repos_in_failed. now rewrite Hreply. }
    rewrite result_emit, rest_emit.
    destruct (json r) as [|data| |] eqn:Hjson; try discriminate.
    assert (Hin : repos_in st = data).
    { unfold repos_in. now rewrite Hreply, Hraises, Hjson. }
    destruct (is_empty data) eqn:Hempty.
    { cbn. intros [= <-]. exists [st]. split; [reflexivity|].
      cbn [flat_map]. rewrite Hin. destruct data; [|discriminate].
      now rewrite !app_nil_r. }
    destruct (_ || _).
    { cbn. intros [= <-]. exists [st]. split; [reflexivity|].
      cbn [flat_map]. now rewrite Hin, app_nil_r. }
    rewrite result_emit, rest_emit. intros H.
    apply IH in H. destruct H as (consumed & Hscript & Hl).
    exists (st :: consumed). split; [cbn; now rewrite <- Hscript|].
    cbn [flat_map]. now rewrite Hin, app_assoc.
Qed.

(** X9: the list [get_user_repos] returns holds the name and description of
    the first [limit] repositories of the pages it read, in the order they
    came. *)
Theorem get_user_repos_returns_what_pages_held
    (username : string) (limit : Z) (script : list Step)
    (l : list (string * string)) :
  result (get_user_repos username limit script) = Returned (Some l) ->
  exists consumed,
    script = consumed ++ rest (get_user_repos username limit script) /\
    l = map repo_tuple (py_take limit (flat_map repos_in consumed)).
Proof.
  unfold get_user_repos. destruct (limit <=? 0).
  - cbn. intros [= <-]. exists []. split; [reflexivity|].
    cbn [flat_map]. now rewrite py_take_nil.
  - intros H. now apply get_user_repos_loop_complete in H.
Qed.

Lemma get_user_repos_returns_what_pages_held_witness :
  exists consumed,
    [at_noon (Resp (response_ok (JRepos [repo_one; repo_two]) true)); user_page]
    = consumed ++ rest (get_user_repos "alice" 1
                          [at_noon (Resp (response_ok
                                            (JRepos [repo_one; repo_two]) true));
                           user_page]) /\
    [("tool", "A tool")]
    = map repo_tuple (py_take 1 (flat_map repos_in consumed)).
Proof.
  apply (get_user_repos_returns_what_pages_held "alice" 1
           [at_noon (Resp (response_ok (JRepos [repo_one; repo_two]) true));
            user_page]
           [("tool", "A tool")]).
  vm_compute. reflexivity.
Defined.

Lemma events_in_failed (st : Step) :
  match reply st with Resp r => raises r = true | NetErr => True end ->
  events_in st = [].
Proof. unfold events_in. destruct (reply st); [reflexivity|]. now intros ->. Qed.

Lemma get_user_activity_loop_complete (username : string) (max_pages : Z)
    (script : list Step) :
  forall activities page response l,
    let o := get_user_activity_loop username max_pages activities page
               response script in
    result o = Returned (Some l) ->
    exists consumed,
      script = consumed ++ rest o /\
      l = activities ++ flat_map events_in consumed.
Proof.
  induction script as [|st script' IH];
    intros activities page response l;
    cbn [get_user_activity_loop];
    destruct (negb (page <=? max_pages)); cbv zeta.
  - cbn. intros [= <-]. exists [].
    split; [reflexivity|]. cbn [flat_map]. now rewrite app_nil_r.
  - discriminate.
  - cbn. intros [= <-]. exists [].
    split; [reflexivity|]. cbn [flat_map]. now rewrite app_nil_r.
  - rewrite result_emit, rest_emit.
    assert (Hhandler : forall resp,
      events_in st = [] ->
      let o := match on_request_exception resp st with
               | Unbound => raised UnboundLocalError script'
               | Retry seconds =>
                   emit [EvSleep seconds]
                     (get_user_activity_loop username max_pages activities
                        page resp script')
               | GiveUp => done None script'
               end in
      result o = Returned (Some l) ->
      exists consumed,
        st :: script' = consumed ++ rest o /\
        l = activities ++ flat_map events_in consumed).
    { intros resp Hnone. destruct (on_request_exception resp st); cbv zeta;
        try discriminate.
      rewrite result_emit, rest_emit. intros H.
      destruct (IH _ _ _ _ H) as (consumed & Hscript & Hl).
      exists (st :: consumed). split; [cbn; now rewrite <- Hscript|].
      cbn [flat_map]. now rewrite Hnone. }
    destruct (reply st) as [|r] eqn:Hreply.
    { apply Hhandler. apply events_in_failed. now rewrite Hreply. }
    destruct (status_code r =? 404); [discriminate|].
    destruct (raises r) eqn:Hraises.
    { apply Hhandler. apply events_in_failed. now rewrite Hreply. }
    rewrite result_emit, rest_emit.
    destruct (json r) as [| |data|] eqn:Hjson; try discriminate.
    assert (Hin : events_in st = data).
    { unfold events_in. now rewrite Hreply, Hraises, Hjson. }
    destruct (is_empty data) eqn:Hempty.
    { cbn. intros [= <-]. exists [st].
      split; [reflexivity|].
      cbn [flat_map]. rewrite Hin. destruct data; [|discriminate].
      now rewrite !app_nil_r. }
    destruct (_ || _).
    { cbn. intros [= <-]. exists [st].
      split; [reflexivity|].
      cbn [flat_map]. now rewrite Hin, app_nil_r. }
    rewrite result_emit, rest_emit. intros H.
    apply IH in H. destruct H as (consumed & Hscript & Hl).
    exists (st :: consumed). split; [cbn; now rewrite <- Hscript|].
    cbn [flat_map]. now rewrite Hin, app_assoc.
Qed.

(** The loop itself calls [.get] on no event. *)
Lemma get_user_activity_loop_raises (username : string) (max_pages : Z)
    (script : list Step) :
  forall activities page response,
    result (get_user_activity_loop username max_pages activities page
              response script) <> Raised AttributeError.
Proof.
  induction script as [|st script' IH]; intros activities page response;
    cbn [get_user_activity_loop];
    destruct (negb (page <=? max_pages)); try discriminate.
  rewrite result_emit.
  assert (Hhandler : forall resp,
    result match on_request_exception resp st with
           | Unbound => raised UnboundLocalError script'
           | Retry seconds =>
               emit [EvSleep seconds]
                 (get_user_activity_loop username max_pages activities
                    page resp script')
           | GiveUp => done None script'
           end <> Raised AttributeError).
  { intros resp. destruct (on_request_exception resp st); try discriminate.
    rewrite result_emit. apply IH. }
  destruct (reply st) as [|r]; [apply Hhandler|].
  destruct (status_code r =? 404); [discriminate|].
  destruct (raises r); [apply Hhandler|].
  rewrite result_emit.
  destruct (json r) as [| |data|]; try discriminate.
  destruct (is_empty data); [discriminate|].
  destruct (_ || _); [discriminate|].
  rewrite result_emit. apply IH.
Qed.

Lemma format_activity_raises (activity : Activity) :
  format_activity activity = None <-> ev_repo activity = Some RepoOther.
Proof.
  unfold format_activity, repo_name.
  destruct (ev_repo activity) as [[repo|]|]; cbn; split; congruence.
Qed.

Lemma format_activities_lines (activities : list Activity) (l : list string) :
  format_activities activities = Some l ->
  Forall2 (fun activity line => format_activity activity = Some line)
    activities l.
Proof.
  revert l. induction activities as [|activity activities IH]; intros l;
    cbn [format_activities].
  - intros [= <-]. constructor.
  - destruct (format_activity activity) as [line|] eqn:E; [|discriminate].
    destruct (format_activities activities) as [lines|]; [|discriminate].
    cbn. intros [= <-]. constructor; [exact E | now apply IH].
Qed.

Lemma format_activities_raises (activities : list Activity) :
  format_activities activities = None ->
  exists activity, In activity activities /\ ev_repo activity = Some RepoOther.
Proof.
  induction activities as [|activity activities IH]; cbn [format_activities];
    [discriminate|].
  destruct (format_activity activity) as [line|] eqn:E.
  - destruct (format_activities activities) as [lines|]; [discriminate|].
    intros _. destruct (IH eq_refl) as (a & Hin & Ha).
    exists a. split; [now right | exact Ha].
  - intros _. exists activity. split; [now left|].
    now apply format_activity_raises.
Qed.

(** X10: the list [get_user_activity] returns has one line per event of the
    pages it read, in the order they came, each the line its date, type and
    repository name format to ([Unknown] for a key that is absent, [None]
    for a null).  When it ends in an [AttributeError] instead, one of the
    events it read holds under [repo] something that is not an object. *)
Theorem get_user_activity_returns_what_pages_held
    (username : string) (max_pages : Z) (script : list Step) :
  let o := get_user_activity username max_pages script in
  (forall l,
     result o = Returned (Some l) ->
     exists consumed,
       script = consumed ++ rest o /\
       Forall2 (fun activity line => format_activity activity = Some line)
         (flat_map events_in consumed) l) /\
  (result o = Raised AttributeError ->
   exists consumed activity,
     script = consumed ++ rest o /\
     In activity (flat_map events_in consumed) /\
     ev_repo activity = Some RepoOther).
Proof.
  cbv zeta. rewrite result_get_user_activity, rest_get_user_activity.
  pose proof (get_user_activity_loop_complete username max_pages script
                [] 1 None) as Hloop.
  pose proof (get_user_activity_loop_raises username max_pages script
                [] 1 None) as Hraises.
  cbv zeta in Hloop.
  destruct (result (get_user_activity_loop username max_pages [] 1 None script))
    as [[activities|]|e|]; split; try discriminate.
  - intros l Hl. destruct (Hloop activities eq_refl) as (consumed & Hs & Ha).
    exists consumed. split; [exact Hs|]. cbn [app] in Ha. subst activities.
    apply format_activities_lines.
    now destruct (format_activities (flat_map events_in consumed)) as [lines|];
      [injection Hl as <-|].
  - intros Hl. destruct (Hloop activities eq_refl) as (consumed & Hs & Ha).
    cbn [app] in Ha. subst activities.
    destruct (format_activities (flat_map events_in consumed)) eqn:E;
      [discriminate|].
    apply format_activities_raises in E as (activity & Hin & Hrepo).
    now exists consumed, activity.
  - intros [= ->]. congruence.
Qed.

Lemma get_user_activity_returns_what_pages_held_witness :
  exists consumed,
    [events_page; user_page]
    = consumed ++ rest (get_user_activity "alice" 1 [events_page; user_page]) /\
    Forall2 (fun activity line => format_activity activity = Some line)
      (flat_map events_in consumed)
      ["2024-05-01T10:00:00Z: PushEvent on alice/tool";
       "None: WatchEvent on Unknown"].
Proof.
  destruct (get_user_activity_returns_what_pages_held "alice" 1
              [events_page; user_page]) as (H & _).
  apply H. vm_compute. reflexivity.
Defined.

(** * More properties of fetch_and_save_stargazer_data *)

(** ** The keys and values of a dict after an assignment *)

Lemma dict_set_keys {V} (d : list (string * V)) (k : string) (v : V) :
  map fst (dict_set d k v)
  = if existsb (String.eqb k) (map fst d) then map fst d
    else map fst d ++ [k].
Proof.
  induction d as [|[k0 v0] d IH]; cbn; [reflexivity|].
  rewrite (String.eqb_sym k k0).
  destruct (String.eqb k0 k); cbn; [reflexivity|].
  rewrite IH. now destruct (existsb _ _).
Qed.

Lemma dict_set_keys_incl {V} (d : list (string * V)) (k k' : string) (v : V) :
  In k' (map fst (dict_set d k v)) -> k' = k \/ In k' (map fst d).
Proof.
  rewrite dict_set_keys. destruct (existsb _ _); [tauto|].
  rewrite in_app_iff. cbn. intuition.
Qed.

Lemma dict_set_keys_nodup {V} (d : list (string * V)) (k : string) (v : V) :
  NoDup (map fst d) -> NoDup (map fst (dict_set d k v)).
Proof.
  intros H. rewrite dict_set_keys.
  destruct (existsb (String.eqb k) (map fst d)) eqn:E; [exact H|].
  apply NoDup_app; [exact H | repeat constructor; intros [] |].
  intros x Hx [Heq | []]. subst x.
  assert (existsb (String.eqb k) (map fst d) = true); [|congruence].
  apply existsb_exists. exists k. split; [exact Hx | apply String.eqb_refl].
Qed.

Lemma dict_set_values {V} (P : V -> Prop) (d : list (string * V))
    (k : string) (v : V) :
  Forall P (map snd d) -> P v -> Forall P (map snd (dict_set d k v)).
Proof.
  intros Hd Hv. induction d as [|[k0 v0] d IH]; cbn.
  - now repeat constructor.
  - inversion Hd; subst. destruct (String.eqb k0 k); cbn; constructor; auto.
Qed.

(** ** The maps kept for export *)

Lemma get_user_repos_five (username : string) (script : list Step)
    (l : list (string * string)) :
  result (get_user_repos username 5 script) = Returned (Some l) ->
  (List.length l <= 5)%nat.
Proof.
  unfold get_user_repos. cbn [Z.leb Z.compare].
  intros H. apply get_user_repos_loop_bound in H; lia.
Qed.

Lemma fetch_owned_repos_maps (login : string) (user_data : Dict)
    (acc : Analysis) (script : list Step) (user_data' : Dict) (acc' : Analysis) :
  result (fetch_owned_repos login user_data acc script)
    = Returned (user_data', acc') ->
  user_all_starred_map acc' = user_all_starred_map acc /\
  user_activity_map acc' = user_activity_map acc /\
  (user_owned_repos_map acc' = user_owned_repos_map acc \/
   exists l, (List.length l <= 5)%nat /\
             user_owned_repos_map acc'
             = dict_set (user_owned_repos_map acc) login l).
Proof.
  unfold fetch_owned_repos. destruct (has_public_repos user_data).
  - intros H. apply bind_returned in H as (top & Htop & H).
    destruct top as [top|]; cbn in H; injection H as <- <-; cbn; auto.
    repeat split. right. exists top. split; [|reflexivity].
    now apply get_user_repos_five in Htop.
  - cbn. intros [= <- <-]. auto.
Qed.

Lemma fetch_activity_maps (login : string) (user_data : Dict)
    (starred : option (list (string * string))) (acc : Analysis)
    (script : list Step) (user_data' : Dict) (acc' : Analysis) :
  result (fetch_activity login user_data starred acc script)
    = Returned (user_data', acc') ->
  user_all_starred_map acc' = user_all_starred_map acc /\
  user_owned_repos_map acc' = user_owned_repos_map acc /\
  (user_activity_map acc' = user_activity_map acc \/
   exists l, l <> [] /\
             user_activity_map acc' = dict_set (user_activity_map acc) login l).
Proof.
  unfold fetch_activity. destruct (is_public_user user_data starred).
  - intros H. apply bind_returned in H as (activity & Hact & H).
    destruct activity as [[|a activity]|]; cbn in H; injection H as <- <-;
      cbn; auto.
    repeat split. right. exists (a :: activity). now split.
  - cbn. intros [= <- <-]. auto.
Qed.

Lemma save_starred_maps (login : string)
    (starred : option (list (string * string))) (acc : Analysis) :
  user_owned_repos_map (save_starred login starred acc)
    = user_owned_repos_map acc /\
  user_activity_map (save_starred login starred acc) = user_activity_map acc /\
  (user_all_starred_map (save_starred login starred acc)
     = user_all_starred_map acc \/
   exists l, user_all_starred_map (save_starred login starred acc)
             = dict_set (user_all_starred_map acc) login l).
Proof.
  destruct starred as [l|]; cbn; auto. repeat split. right. now exists l.
Qed.

(** What one loop iteration does to the three maps: each is left as it was
    or is assigned at the stargazer's login. *)
Lemma analyse_stargazer_maps (stargazer : Stargazer) (acc : Analysis)
    (script : list Step) (acc' : Analysis) :
  result (analyse_stargazer stargazer acc script) = Returned acc' ->
  (user_all_starred_map acc' = user_all_starred_map acc \/
   exists l, user_all_starred_map acc'
             = dict_set (user_all_starred_map acc) (login stargazer) l) /\
  (user_owned_repos_map acc' = user_owned_repos_map acc \/
   exists l, (List.length l <= 5)%nat /\
             user_owned_repos_map acc'
             = dict_set (user_owned_repos_map acc) (login stargazer) l) /\
  (user_activity_map acc' = user_activity_map acc \/
   exists l, l <> [] /\
             user_activity_map acc'
             = dict_set (user_activity_map acc) (login stargazer) l).
Proof.
  unfold analyse_stargazer. intros H.
  apply bind_returned in H as ([user_data acc1] & Hshape & H).
  cbn in H. injection H as <-. cbn [user_all_starred_map user_owned_repos_map
                                      user_activity_map].
  unfold shape_record in Hshape.
  apply bind_returned in Hshape as (details & _ & Hshape).
  destruct (truthy details) as [d|].
  - apply enrich_returned in Hshape. cbv zeta in Hshape.
    destruct Hshape as (ud1 & acc0 & starred & total & H1 & _ & _ & H4).
    apply fetch_owned_repos_maps in H1 as (Hs1 & Ha1 & Ho1).
    apply fetch_activity_maps in H4 as (Hs4 & Ho4 & Ha4).
    destruct (save_starred_maps (login stargazer) starred acc0)
      as (Ho2 & Ha2 & Hs2).
    rewrite Hs4, Ho4, Ho2. rewrite Ha2, Ha1 in Ha4. rewrite Hs1 in Hs2.
    auto.
  - cbn in Hshape. injection Hshape as <- <-. auto.
Qed.

(** The maps after the whole loop, from what they were before it. *)
Lemma analyse_all_maps (stargazers : list Stargazer) :
  forall (acc : Analysis) (script : list Step) (a : Analysis),
    result (analyse_all stargazers acc script) = Returned a ->
    (* keys *)
    ((NoDup (map fst (user_all_starred_map acc)) ->
      NoDup (map fst (user_all_starred_map a))) /\
     (NoDup (map fst (user_owned_repos_map acc)) ->
      NoDup (map fst (user_owned_repos_map a))) /\
     (NoDup (map fst (user_activity_map acc)) ->
      NoDup (map fst (user_activity_map a)))) /\
    ((forall k, In k (map fst (user_all_starred_map a)) ->
                In k (map fst (user_all_starred_map acc)) \/
                In k (map login stargazers)) /\
     (forall k, In k (map fst (user_owned_repos_map a)) ->
                In k (map fst (user_owned_repos_map acc)) \/
                In k (map login stargazers)) /\
     (forall k, In k (map fst (user_activity_map a)) ->
                In k (map fst (user_activity_map acc)) \/
                In k (map login stargazers))) /\
    (* values *)
    (Forall (fun l => (List.length l <= 5)%nat)
       (map snd (user_owned_repos_map acc)) ->
     Forall (fun l => (List.length l <= 5)%nat)
       (map snd (user_owned_repos_map a))) /\
    (Forall (fun l => l <> []) (map snd (user_activity_map acc)) ->
     Forall (fun l => l <> []) (map snd (user_activity_map a))).
Proof.
  induction stargazers as [|stargazer stargazers IH]; intros acc script a H.
  - cbn in H. injection H as <-. cbn [map In]. tauto.
  - cbn [analyse_all] in H. apply bind_returned in H as (acc1 & H1 & H).
    apply IH in H. clear IH.
    destruct H as ((Hn1 & Hn2 & Hn3) & (Hk1 & Hk2 & Hk3) & Hfive & Hfull).
    apply analyse_stargazer_maps in H1 as (Hs & Ho & Ha).
    cbn [map In].
    repeat match goal with |- _ /\ _ => split end.
    + intros Hacc. apply Hn1.
      destruct Hs as [-> | (l & ->)]; [|apply dict_set_keys_nodup]; exact Hacc.
    + intros Hacc. apply Hn2.
      destruct Ho as [-> | (l & _ & ->)]; [|apply dict_set_keys_nodup];
        exact Hacc.
    + intros Hacc. apply Hn3.
      destruct Ha as [-> | (l & _ & ->)]; [|apply dict_set_keys_nodup];
        exact Hacc.
    + intros k Hk. destruct (Hk1 k Hk) as [Hin | Hin]; [|tauto].
      destruct Hs as [Heq | (l & Heq)]; rewrite Heq in Hin; [tauto|].
      apply dict_set_keys_incl in Hin as [-> | Hin]; tauto.
    + intros k Hk. destruct (Hk2 k Hk) as [Hin | Hin]; [|tauto].
      destruct Ho as [Heq | (l & _ & Heq)]; rewrite Heq in Hin; [tauto|].
      apply dict_set_keys_incl in Hin as [-> | Hin]; tauto.
    + intros k Hk. destruct (Hk3 k Hk) as [Hin | Hin]; [|tauto].
      destruct Ha as [Heq | (l & _ & Heq)]; rewrite Heq in Hin; [tauto|].
      apply dict_set_keys_incl in Hin as [-> | Hin]; tauto.
    + intros Hacc. apply Hfive.
      destruct Ho as [-> | (l & Hl & ->)]; [exact Hacc|].
      now apply dict_set_values.
    + intros Hacc. apply Hfull.
      destruct Ha as [-> | (l & Hl & ->)]; [exact Hacc|].
      now apply dict_set_values.
Qed.

Lemma fetch_and_save_returned (repo_owner repo_name : string)
    (limit : option Z) (script : list Step) (a : Analysis) :
  result (fetch_and_save_stargazer_data repo_owner repo_name limit script)
    = Returned (Some a) ->
  exists stargazers,
    result (get_stargazers repo_owner repo_name limit script)
      = Returned stargazers /\
    stargazers <> [] /\
    result (analyse_all stargazers no_analysis
              (rest (get_stargazers repo_owner repo_name limit script)))
      = Returned a.
Proof.
  unfold fetch_and_save_stargazer_data. intros H.
  apply bind_returned in H as (stargazers & Hget & H).
  exists stargazers. split; [exact Hget|].
  destruct stargazers as [|s stargazers]; [discriminate|].
  cbn [is_empty] in H. split; [discriminate|].
  apply bind_returned in H as (acc & Hall & H).
  cbn in H. now injection H as <-.
Qed.

(** X11: in a run that completes, the map of owned repositories kept for
    export holds at most five repositories for each user: the limit of 5
    handed to [get_user_repos] holds whatever the pages carry. *)
Theorem owned_repos_export_at_most_five
    (repo_owner repo_name : string) (limit : option Z) (script : list Step)
    (a : Analysis) :
  result (fetch_and_save_stargazer_data repo_owner repo_name limit script)
    = Returned (Some a) ->
  forall user_login owned_list,
    In (user_login, owned_list) (user_owned_repos_map a) ->
    (List.length owned_list <= 5)%nat.
Proof.
  intros H user_login owned_list Hin.
  apply fetch_and_save_returned in H as (stargazers & _ & _ & H).
  apply analyse_all_maps in H as (_ & _ & Hfive & _).
  specialize (Hfive (Forall_nil _)). rewrite Forall_forall in Hfive.
  apply (Hfive owned_list). apply in_map_iff. now exists (user_login, owned_list).
Qed.

(** X12: in a run that completes, each of the three maps kept for export has
    one entry per login at most, and only logins of fetched stargazers: a
    stargazer listed twice gets two analysis records but one row in each of
    the other CSV files. *)
Theorem export_maps_keyed_by_stargazers
    (repo_owner repo_name : string) (limit : option Z) (script : list Step)
    (a : Analysis) :
  result (fetch_and_save_stargazer_data repo_owner repo_name limit script)
    = Returned (Some a) ->
  exists stargazers,
    result (get_stargazers repo_owner repo_name limit script)
      = Returned stargazers /\
    (NoDup (map fst (user_all_starred_map a)) /\
     incl (map fst (user_all_starred_map a)) (map login stargazers)) /\
    (NoDup (map fst (user_owned_repos_map a)) /\
     incl (map fst (user_owned_repos_map a)) (map login stargazers)) /\
    (NoDup (map fst (user_activity_map a)) /\
     incl (map fst (user_activity_map a)) (map login stargazers)).
Proof.
  intros H.
  apply fetch_and_save_returned in H as (stargazers & Hget & _ & H).
  exists stargazers. split; [exact Hget|].
  apply analyse_all_maps in H as ((Hn1 & Hn2 & Hn3) & (Hk1 & Hk2 & Hk3) & _).
  cbn [no_analysis user_all_starred_map user_owned_repos_map user_activity_map
       map In] in *.
  repeat split; try (now auto using NoDup_nil);
    intros k Hk; [destruct (Hk1 k Hk) | destruct (Hk2 k Hk) | destruct (Hk3 k Hk)];
    tauto.
Qed.

(** X13: in a run that completes, the activity map kept for export holds no
    empty list: a user without recent activity gets no entry, so the export
    of an entry never falls back on the cell [None]. *)
Theorem activity_export_never_empty
    (repo_owner repo_name : string) (limit : option Z) (script : list Step)
    (a : Analysis) :
  result (fetch_and_save_stargazer_data repo_owner repo_name limit script)
    = Returned (Some a) ->
  forall user_login activity_list,
    In (user_login, activity_list) (user_activity_map a) ->
    activity_list <> [].
Proof.
  intros H user_login activity_list Hin.
  apply fetch_and_save_returned in H as (stargazers & _ & _ & H).
  apply analyse_all_maps in H as (_ & _ & _ & Hfull).
  specialize (Hfull (Forall_nil _)). rewrite Forall_forall in Hfull.
  apply (Hfull activity_list). apply in_map_iff.
  now exists (user_login, activity_list).
Qed.

Lemma alice_run :
  result (fetch_and_save_stargazer_data "o" "r" None
            (page_alice_only :: alice_script))
  = Returned (Some alice_analysis).
Proof. vm_compute. reflexivity. Qed.

Lemma owned_repos_export_at_most_five_witness :
  In ("alice", [("tool", "A tool"); ("notes", "")])
    (user_owned_repos_map alice_analysis) /\
  (List.length [("tool", "A tool"); ("notes", "")] <= 5)%nat.
Proof.
  assert (Hin : In ("alice", [("tool", "A tool"); ("notes", "")])
                  (user_owned_repos_map alice_analysis))
    by (vm_compute; left; reflexivity).
  split; [exact Hin|].
  exact (owned_repos_export_at_most_five "o" "r" None
           (page_alice_only :: alice_script) alice_analysis alice_run
           "alice" _ Hin).
Defined.

Lemma export_maps_keyed_by_stargazers_witness :
  exists stargazers,
    result (get_stargazers "o" "r" None (page_alice_only :: alice_script))
      = Returned stargazers /\
    (NoDup (map fst (user_all_starred_map alice_analysis)) /\
     incl (map fst (user_all_starred_map alice_analysis))
       (map login stargazers)) /\
    (NoDup (map fst (user_owned_repos_map alice_analysis)) /\
     incl (map fst (user_owned_repos_map alice_analysis))
       (map login stargazers)) /\
    (NoDup (map fst (user_activity_map alice_analysis)) /\
     incl (map fst (user_activity_map alice_analysis)) (map login stargazers)).
Proof.
  exact (export_maps_keyed_by_stargazers "o" "r" None
           (page_alice_only :: alice_script) alice_analysis alice_run).
Defined.

Lemma activity_export_never_empty_witness :
  In ("alice", ["2024-05-01T10:00:00Z: PushEvent on alice/tool";
                "None: WatchEvent on Unknown"])
    (user_activity_map alice_analysis) /\
  ["2024-05-01T10:00:00Z: PushEvent on alice/tool";
   "None: WatchEvent on Unknown"] <> [].
Proof.
  assert (Hin : In ("alice", ["2024-05-01T10:00:00Z: PushEvent on alice/tool";
                              "None: WatchEvent on Unknown"])
                  (user_activity_map alice_analysis))
    by (vm_compute; left; reflexivity).
  split; [exact Hin|].
  exact (activity_export_never_empty "o" "r" None
           (page_alice_only :: alice_script) alice_analysis alice_run
           "alice" _ Hin).
Defined.

(** ** The keys of a record *)

Lemma dict_set_keys_present {V} (d : list (string * V)) (k : string) (v : V) :
  In k (map fst d) -> map fst (dict_set d k v) = map fst d.
Proof.
  intros H. rewrite dict_set_keys.
  replace (existsb (String.eqb k) (map fst d)) with true; [reflexivity|].
  symmetry. apply existsb_exists. exists k. split; [exact H | apply String.eqb_refl].
Qed.

(** Keeps the keys of a dict through assignments at keys it has. *)
Ltac keep_keys H :=
  repeat (rewrite dict_set_keys_present; [|rewrite ?H; cbn; tauto]);
  rewrite ?H.

Lemma with_details_keys (login : string) (details : Dict) :
  map fst (with_details (default_user_data login) details) = record_keys.
Proof.
  unfold with_details.
  assert (H : map fst (default_user_data login) = record_keys) by reflexivity.
  repeat (rewrite dict_set_keys_present;
          [|repeat (rewrite dict_set_keys_present; [|rewrite ?H; cbn; tauto]);
            rewrite ?H; cbn; tauto]).
  exact H.
Qed.

Lemma fetch_owned_repos_keys (login : string) (user_data : Dict)
    (acc : Analysis) (script : list Step) (user_data' : Dict) (acc' : Analysis) :
  map fst user_data = record_keys ->
  result (fetch_owned_repos login user_data acc script)
    = Returned (user_data', acc') ->
  map fst user_data' = record_keys.
Proof.
  intros Hkeys. unfold fetch_owned_repos.
  destruct (has_public_repos user_data).
  - intros H. apply bind_returned in H as (top & _ & H).
    destruct top as [top|]; cbn in H; injection H as <- <-.
    + rewrite dict_set_keys_present;
        [rewrite dict_set_keys_present; rewrite ?Hkeys; cbn; tauto|].
      rewrite dict_set_keys_present; rewrite ?Hkeys; cbn; tauto.
    + rewrite dict_set_keys_present;
        [rewrite dict_set_keys_present; rewrite ?Hkeys; cbn; tauto|].
      rewrite dict_set_keys_present; rewrite ?Hkeys; cbn; tauto.
  - cbn. intros [= <- <-].
    rewrite dict_set_keys_present;
      [rewrite dict_set_keys_present; rewrite ?Hkeys; cbn; tauto|].
    rewrite dict_set_keys_present; rewrite ?Hkeys; cbn; tauto.
Qed.

Lemma with_starred_keys (user_data : Dict)
    (starred : option (list (string * string))) (total : PyVal) :
  map fst user_data = record_keys ->
  has_record_keys (with_starred user_data starred total).
Proof.
  intros Hkeys. unfold has_record_keys, dict_has.
  rewrite with_starred_total. unfold with_starred.
  destruct starred as [l|].
  - assert (Hinner : forall d, map fst d = record_keys ->
              map fst (dict_set d "total_starred_count" total)
              = record_keys ++ ["total_starred_count"]).
    { intros d Hd. now rewrite dict_set_keys, Hd. }
    apply Hinner.
    destruct (Z.of_nat (List.length l) =? 0).
    + rewrite dict_set_keys_present;
        [rewrite dict_set_keys_present;
         [rewrite dict_set_keys_present; rewrite ?Hkeys; cbn; tauto|];
         rewrite dict_set_keys_present; rewrite ?Hkeys; cbn; tauto|].
      rewrite dict_set_keys_present;
        [|rewrite dict_set_keys_present; rewrite ?Hkeys; cbn; tauto].
      rewrite dict_set_keys_present; rewrite ?Hkeys; cbn; tauto.
    + assert (H3 : forall v1 v2 v3,
                map fst (dict_set (dict_set (dict_set user_data
                   "starred_repo_status" v1) "starred_repos_sample" v2)
                   "starred_repos_descriptions" v3) = record_keys).
      { intros v1 v2 v3.
        assert (H1 : map fst (dict_set user_data "starred_repo_status" v1)
                     = record_keys)
          by (rewrite dict_set_keys_present; rewrite ?Hkeys; cbn; tauto).
        assert (H2 : map fst (dict_set (dict_set user_data
                        "starred_repo_status" v1) "starred_repos_sample" v2)
                     = record_keys)
          by (rewrite dict_set_keys_present; rewrite ?H1; cbn; tauto).
        rewrite dict_set_keys_present; rewrite ?H2; cbn; tauto. }
      destruct (10 <? Z.of_nat (List.length l)); [|apply H3].
      rewrite dict_set_keys_present; rewrite ?H3; cbn; tauto.
  - rewrite Hkeys.
    replace (dict_get user_data "total_starred_count") with (@None PyVal).
    + now rewrite app_nil_r.
    + symmetry. destruct (dict_get user_data "total_starred_count") eqn:E;
        [|reflexivity].
      exfalso.
      assert (Hin : In "total_starred_count" (map fst user_data)).
      { clear Hkeys. induction user_data as [|[k v] d IH]; [discriminate|].
        cbn in E. destruct (String.eqb k "total_starred_count") eqn:Ek.
        - apply String.eqb_eq in Ek. left. exact Ek.
        - right. now apply IH. }
      rewrite Hkeys in Hin. cbn in Hin.
      repeat (destruct Hin as [Hin | Hin]; [discriminate|]). exact Hin.
Qed.

Lemma fetch_activity_keys (login : string) (user_data : Dict)
    (starred : option (list (string * string))) (acc : Analysis)
    (script : list Step) (user_data' : Dict) (acc' : Analysis) :
  has_record_keys user_data ->
  result (fetch_activity login user_data starred acc script)
    = Returned (user_data', acc') ->
  has_record_keys user_data'.
Proof.
  intros Hkeys H. unfold has_record_keys, dict_has in *.
  pose proof (fetch_activity_returned _ _ _ _ _ _ _ H) as (Hframe & _).
  rewrite (Hframe "total_starred_count") by discriminate.
  rewrite <- Hkeys.
  assert (Hin : In "user_activity" (map fst user_data)).
  { rewrite Hkeys. apply in_or_app. left. cbn. tauto. }
  clear Hframe Hkeys. unfold fetch_activity in H.
  destruct (is_public_user user_data starred).
  - apply bind_returned in H as (activity & _ & H).
    destruct activity as [[|x activity]|]; cbn in H; injection H as <- <-;
      now apply dict_set_keys_present.
  - cbn in H. injection H as <- <-. now apply dict_set_keys_present.
Qed.

Lemma shape_record_keys (stargazer : Stargazer) (acc : Analysis)
    (script : list Step) (user_data : Dict) (acc' : Analysis) :
  result (shape_record stargazer acc script) = Returned (user_data, acc') ->
  has_record_keys user_data.
Proof.
  unfold shape_record. intros H.
  apply bind_returned in H as (details & _ & H).
  destruct (truthy details) as [d|].
  - apply enrich_returned in H. cbv zeta in H.
    destruct H as (ud1 & acc1 & starred & total & H1 & _ & _ & H4).
    apply fetch_owned_repos_keys in H1; [|apply with_details_keys].
    eapply fetch_activity_keys; [|exact H4].
    now apply with_starred_keys.
  - cbn in H. injection H as <- <-. reflexivity.
Qed.

Lemma analyse_all_records (P : Dict -> Prop) (stargazers : list Stargazer) :
  (forall stargazer acc script user_data acc',
     result (shape_record stargazer acc script) = Returned (user_data, acc') ->
     P user_data) ->
  forall (acc : Analysis) (script : list Step) (a : Analysis),
    result (analyse_all stargazers acc script) = Returned a ->
    Forall P (analysis_results acc) -> Forall P (analysis_results a).
Proof.
  intros HP. induction stargazers as [|stargazer stargazers IH];
    intros acc script a H Hacc.
  - cbn in H. now injection H as <-.
  - cbn [analyse_all] in H. apply bind_returned in H as (acc1 & H1 & H).
    apply (IH _ _ _ H). clear IH H.
    unfold analyse_stargazer in H1.
    apply bind_returned in H1 as ([user_data acc0] & Hshape & H1).
    cbn in H1. injection H1 as <-. cbn [analysis_results].
    apply Forall_app. split.
    + apply shape_record_login in Hshape as [_ ->]. exact Hacc.
    + repeat constructor. exact (HP _ _ _ _ _ Hshape).
Qed.

(** X14: in a run that completes, every record has the twelve keys of the
    default record, in that order, followed by [total_starred_count] when it
    has one.  The header of the analysis CSV is the key list of the first
    record: the column [total_starred_count] is written exactly when the
    first stargazer's record has it, and it comes last. *)
Theorem analysis_csv_columns
    (repo_owner repo_name : string) (limit : option Z) (script : list Step)
    (a : Analysis) :
  result (fetch_and_save_stargazer_data repo_owner repo_name limit script)
    = Returned (Some a) ->
  Forall has_record_keys (analysis_results a) /\
  exists first others,
    analysis_results a = first :: others /\
    fieldnames (analysis_results a)
    = record_keys ++ (if dict_has first "total_starred_count"
                      then ["total_starred_count"] else []).
Proof.
  intros H.
  apply fetch_and_save_returned in H as (stargazers & _ & Hne & H).
  assert (Hall : Forall has_record_keys (analysis_results a)).
  { apply (analyse_all_records has_record_keys stargazers shape_record_keys
             _ _ _ H). constructor. }
  split; [exact Hall|].
  apply analyse_all_returned in H.
  destruct (analysis_results a) as [|first others] eqn:E.
  - unfold record_logins in H. rewrite E in H. cbn in H.
    destruct stargazers; [congruence | discriminate].
  - exists first, others. split; [reflexivity|].
    inversion Hall; subst. assumption.
Qed.

Lemma analysis_csv_columns_witness :
  fieldnames (analysis_results alice_analysis)
  = record_keys ++ ["total_starred_count"].
Proof.
  destruct (analysis_csv_columns "o" "r" None (page_alice_only :: alice_script)
              alice_analysis alice_run) as (_ & first & others & Hfirst & Hnames).
  rewrite Hnames.
  assert (Hhas : dict_has first "total_starred_count" = true).
  { assert (Hhd : hd [] (analysis_results alice_analysis) = first)
      by now rewrite Hfirst.
    rewrite <- Hhd. vm_compute. reflexivity. }
  now rewrite Hhas.
Defined.

(** ** Requests that are not made *)

Lemma detailed_has_public_repos (stargazer : Stargazer) (details : Dict) :
  dict_get (detailed stargazer details) "has_public_repos"
  = Some (positive_or_error
            (dict_get_default details "public_repos" (PInt 0))).
Proof.
  unfold detailed, with_details. rewrite dict_get_set_same.
  unfold dict_get_default at 1.
  rewrite !dict_get_set_other by discriminate.
  now rewrite dict_get_set_same.
Qed.

Lemma no_public_repos (stargazer : Stargazer) (details : Dict) :
  dict_get details "public_repos" = None \/
  (exists n, dict_get details "public_repos" = Some (PInt n) /\ n <= 0) ->
  dict_get (detailed stargazer details) "has_public_repos" = Some (PBool false).
Proof.
  intros H. rewrite detailed_has_public_repos. unfold dict_get_default.
  destruct H as [-> | (n & -> & Hn)]; [reflexivity|].
  cbn. replace (0 <? n) with false; [reflexivity|].
  symmetry. apply Z.ltb_ge. exact Hn.
Qed.

Lemma shape_record_rest (stargazer : Stargazer) (acc : Analysis)
    (script : list Step) (details : Dict) (ud1 : Dict) (acc1 : Analysis)
    (starred : option (list (string * string))) (total : PyVal) :
  result (get_user_details (login stargazer) script) = Returned (Some details) ->
  is_empty details = false ->
  result (fetch_owned_repos (login stargazer) (detailed stargazer details) acc
            (script_at_repos stargazer script)) = Returned (ud1, acc1) ->
  result (get_starred_repos (login stargazer)
            (script_at_starred stargazer acc details script))
    = Returned starred ->
  result (get_total_starred_count (login stargazer)
            (script_at_count stargazer acc details script)) = Returned total ->
  rest (shape_record stargazer acc script)
  = rest (fetch_activity (login stargazer) (with_starred ud1 starred total)
            starred (save_starred (login stargazer) starred acc1)
            (script_at_activity stargazer acc details script)).
Proof.
  intros Hdetails Hnonempty H1 H2 H3. unfold shape_record.
  rewrite (rest_bind_returns _ _ _ _ Hdetails).
  destruct details as [|kv details]; [discriminate|]. cbn [truthy].
  unfold enrich.
  rewrite (rest_bind_returns _ _ _ _ H1).
  rewrite (rest_bind_returns _ _ _ _ H2).
  rewrite (rest_bind_returns _ _ _ _ H3).
  reflexivity.
Qed.

(** X15: for a user whose object has no [public_repos], or has 0 or less
    there, no request for repositories is made: the next call reads on from
    where the details left the script, and the record says
    [N/A (0 public repos)]. *)
Theorem no_repos_request_without_public_repos
    (stargazer : Stargazer) (acc : Analysis) (script : list Step)
    (details user_data : Dict) (acc' : Analysis) :
  result (get_user_details (login stargazer) script) = Returned (Some details) ->
  is_empty details = false ->
  dict_get details "public_repos" = None \/
  (exists n, dict_get details "public_repos" = Some (PInt n) /\ n <= 0) ->
  result (shape_record stargazer acc script) = Returned (user_data, acc') ->
  trace (fetch_owned_repos (login stargazer) (detailed stargazer details) acc
           (script_at_repos stargazer script)) = [] /\
  script_at_starred stargazer acc details script
  = script_at_repos stargazer script /\
  dict_get user_data "has_public_repos" = Some (PBool false) /\
  field_is user_data "top_5_repos" "N/A (0 public repos)" /\
  field_is user_data "top_5_repos_descriptions" "N/A (0 public repos)".
Proof.
  intros Hdetails Hnonempty Hnone H.
  pose proof (no_public_repos stargazer details Hnone) as Hfalse.
  assert (Hhas : has_public_repos (detailed stargazer details) = false).
  { unfold has_public_repos. now rewrite Hfalse. }
  destruct (shape_record_enriched _ _ _ _ _ _ Hdetails Hnonempty H)
    as (ud1 & acc1 & starred & total & H1 & _ & _ & H4 & _).
  apply fetch_activity_returned in H4 as (Hact & _).
  unfold script_at_starred.
  remember (detailed stargazer details) as d eqn:Hd. clear Hd.
  unfold fetch_owned_repos in H1 |- *.
  rewrite Hhas in H1 |- *. cbn [done result] in H1. injection H1 as <- <-.
  split; [reflexivity|]. split; [reflexivity|].
  unfold field_is.
  repeat split; rewrite Hact by discriminate;
    rewrite with_starred_frame by discriminate.
  - rewrite !dict_get_set_other by discriminate. exact Hfalse.
  - rewrite dict_get_set_other by discriminate. apply dict_get_set_same.
  - apply dict_get_set_same.
Qed.

(** X16: for a user without public repositories whose starred list is empty
    or failed, no request for activity is made: the loop body is done where
    the starred count left the script, and the record says
    [N/A (Private user)]. *)
Theorem no_activity_request_for_private_user
    (stargazer : Stargazer) (acc : Analysis) (script : list Step)
    (details user_data : Dict) (acc' : Analysis)
    (starred : option (list (string * string))) :
  result (get_user_details (login stargazer) script) = Returned (Some details) ->
  is_empty details = false ->
  has_public_repos (detailed stargazer details) = false ->
  result (get_starred_repos (login stargazer)
            (script_at_starred stargazer acc details script))
    = Returned starred ->
  starred = None \/ starred = Some [] ->
  result (shape_record stargazer acc script) = Returned (user_data, acc') ->
  rest (shape_record stargazer acc script)
  = script_at_activity stargazer acc details script /\
  field_is user_data "user_activity" "N/A (Private user)".
Proof.
  intros Hdetails Hnonempty Hhas Hstarred Hempty H.
  destruct (shape_record_enriched _ _ _ _ _ _ Hdetails Hnonempty H)
    as (ud1 & acc1 & starred' & total & H1 & H2 & H3 & H4 & Hpublic).
  rewrite Hstarred in H2. injection H2 as <-.
  rewrite (shape_record_rest _ _ _ _ _ _ _ _ Hdetails Hnonempty H1 Hstarred H3).
  assert (Hprivate : is_public_user (with_starred ud1 starred total) starred
                     = false).
  { rewrite Hpublic. unfold is_public_user. rewrite Hhas.
    destruct Hempty as [-> | ->]; reflexivity. }
  unfold fetch_activity in H4 |- *. rewrite Hprivate in H4 |- *.
  cbn [done result] in H4. injection H4 as <- _.
  split; [reflexivity | apply dict_get_set_same].
Qed.

Lemma no_repos_request_without_public_repos_witness :
  script_at_starred bob no_analysis bare_user bob_script
  = script_at_repos bob bob_script /\
  field_is (fst bob_shaped) "top_5_repos" "N/A (0 public repos)".
Proof.
  destruct (no_repos_request_without_public_repos bob no_analysis bob_script
              bare_user (fst bob_shaped) (snd bob_shaped))
    as (_ & Hscript & _ & Hfield & _).
  - vm_compute. reflexivity.
  - reflexivity.
  - left. reflexivity.
  - vm_compute. reflexivity.
  - split; assumption.
Defined.

Lemma no_activity_request_for_private_user_witness :
  rest (shape_record bob no_analysis bob_script) = [events_page] /\
  field_is (fst bob_shaped) "user_activity" "N/A (Private user)".
Proof.
  destruct (no_activity_request_for_private_user bob no_analysis bob_script
              bare_user (fst bob_shaped) (snd bob_shaped) (Some []))
    as (Hrest & Hfield).
  - vm_compute. reflexivity.
  - reflexivity.
  - vm_compute. reflexivity.
  - vm_compute. reflexivity.
  - right. reflexivity.
  - vm_compute. reflexivity.
  - split; [|exact Hfield]. rewrite Hrest. vm_compute. reflexivity.
Defined.

(** * Filenames *)

Lemma list_ascii_of_string_append (a b : string) :
  list_ascii_of_string (a ++ b)
  = list_ascii_of_string a ++ list_ascii_of_string b.
Proof. induction a as [|c a IH]; cbn; [reflexivity | now rewrite IH]. Qed.

Lemma legal_append (a b : string) : legal a -> legal b -> legal (a ++ b).
Proof.
  intros Ha Hb c Hc. rewrite list_ascii_of_string_append in Hc.
  apply in_app_or in Hc as [Hc | Hc]; auto.
Qed.

Lemma legal_forallb (s : string) :
  forallb (fun c => negb (is_illegal c)) (list_ascii_of_string s) = true ->
  legal s.
Proof.
  intros H c Hc. rewrite forallb_forall in H.
  apply H in Hc. now apply negb_true_iff.
Qed.

Lemma legal_sanitized (s : string) : legal (sanitize_filename s).
Proof. intros c. apply sanitize_filename_legal. Qed.

Lemma append_inv_head (a b c : string) : (a ++ b = a ++ c)%string -> b = c.
Proof. induction a as [|x a IH]; cbn; [auto|]. intros [= H]. auto. Qed.

Lemma NoDup_map_append (base : string) (suffixes : list string) :
  NoDup suffixes -> NoDup (map (append base) suffixes).
Proof.
  induction 1 as [|s suffixes Hs Hnd IH]; cbn; constructor; [|exact IH].
  intros Hin. apply in_map_iff in Hin as (s' & Heq & Hin).
  apply append_inv_head in Heq. now subst.
Qed.

(** X17: the seven filenames [generate_filenames] makes are all different,
    and, for a timestamp of legal characters (digits and an underscore are),
    none of them holds one of the nine characters [sanitize_filename]
    replaces, whatever the owner and the repository are called. *)
Theorem generated_filenames_legal_and_distinct (owner repo timestamp : string) :
  NoDup (map snd (generate_filenames owner repo timestamp)) /\
  (legal timestamp ->
   forall key name,
     In (key, name) (generate_filenames owner repo timestamp) -> legal name).
Proof.
  split.
  - unfold generate_filenames. cbv zeta. cbn [map snd].
    set (base := (sanitize_filename owner ++ "_" ++ sanitize_filename repo
                  ++ "_" ++ timestamp)%string).
    change (NoDup (map (append base)
                     ["_stargazer_analysis.csv"; "_all_starred_repos_list.csv";
                      "_all_owned_repos_list.csv"; "_user_activity.csv";
                      "_analysis_report.md"; "_common_owned_repos.png";
                      "_account_status_distribution.png"])).
    apply NoDup_map_append.
    repeat constructor; cbn; intuition discriminate.
  - intros Hts key name Hin.
    assert (Hbase : legal (sanitize_filename owner ++ "_"
                           ++ sanitize_filename repo ++ "_" ++ timestamp)).
    { repeat apply legal_append; try apply legal_sanitized; try assumption;
        now apply legal_forallb. }
    unfold generate_filenames in Hin. cbv zeta in Hin. cbn [In] in Hin.
    repeat (destruct Hin as [Hin | Hin];
            [injection Hin as <- <-; apply legal_append;
             [exact Hbase | now apply legal_forallb]|]).
    destruct Hin.
Qed.

Lemma generated_filenames_legal_and_distinct_witness :
  legal "a_b_c_20240101_000000_analysis_report.md".
Proof.
  destruct (generated_filenames_legal_and_distinct "a/b" "c" "20240101_000000")
    as (_ & H).
  apply (H (legal_forallb "20240101_000000" eq_refl) "report_md").
  cbn. tauto.
Defined.

(** X18: the filenames [generate_filenames] of analyze.py makes are those
    [generate_filenames] of watchdog.py makes under the same keys, for the
    same owner, repository and timestamp. *)
Theorem analyze_filenames_agree (owner repo timestamp key name : string) :
  filename (Analyze.generate_filenames owner repo timestamp) key = Some name ->
  filename (generate_filenames owner repo timestamp) key = Some name.
Proof.
  unfold Analyze.generate_filenames, generate_filenames. cbv zeta.
  change (Analyze.sanitize_filename owner) with (sanitize_filename owner).
  change (Analyze.sanitize_filename repo) with (sanitize_filename repo).
  set (base := (sanitize_filename owner ++ "_" ++ sanitize_filename repo
                ++ "_" ++ timestamp)%string).
  cbn [filename].
  repeat match goal with
         | |- context [String.eqb ?k key] =>
             let E := fresh "E" in
             destruct (String.eqb k key) eqn:E;
             [apply String.eqb_eq in E; subst key; cbn; tauto|]
         end.
  discriminate.
Qed.

Lemma analyze_filenames_agree_witness :
  filename (generate_filenames "a/b" "c" "20240101_000000") "owned_list_csv"
  = Some "a_b_c_20240101_000000_all_owned_repos_list.csv".
Proof.
  apply (analyze_filenames_agree "a/b" "c" "20240101_000000" "owned_list_csv").
  reflexivity.
Defined.

(** * The report *)

(** ** The counts of the account statuses *)

Lemma status_counts_split (statuses : list string) :
  Z.of_nat (List.length statuses)
  = AnalyzeData.private_count statuses + AnalyzeData.public_count statuses
    + Z.of_nat (List.length (filter other_status statuses)).
Proof.
  unfold AnalyzeData.private_count, AnalyzeData.public_count,
    AnalyzeData.count_status, other_status.
  induction statuses as [|s statuses IH]; [reflexivity|].
  cbn [filter List.length].
  destruct (String.eqb "Private (No Access to Starred Repo)" s) eqn:E1;
    destruct (String.eqb "Public (Has Starred Repos)" s) eqn:E2;
    cbn [negb andb List.length]; try lia.
  apply String.eqb_eq in E1, E2. subst s. discriminate.
Qed.

Lemma error_count_others (statuses : list string) :
  AnalyzeData.error_count statuses
  = Z.of_nat (List.length (filter other_status statuses)).
Proof.
  unfold AnalyzeData.error_count. cbv zeta.
  rewrite (status_counts_split statuses). lia.
Qed.

(** X19: the error count of the report, computed as the total less the
    private and the public users, is the number of rows whose status is
    neither of the two: it is never negative, as no row counts twice. *)
Theorem error_count_is_the_other_rows (statuses : list string) :
  AnalyzeData.error_count statuses
  = Z.of_nat (List.length (filter other_status statuses)) /\
  0 <= AnalyzeData.error_count statuses /\
  0 <= AnalyzeData.private_count statuses /\
  0 <= AnalyzeData.public_count statuses.
Proof.
  split; [apply error_count_others|].
  rewrite error_count_others.
  unfold AnalyzeData.private_count, AnalyzeData.public_count,
    AnalyzeData.count_status. lia.
Qed.

(** X20: once the analysis CSV has a row, the dict of counts handed to
    [generate_status_pie_chart] has a count that is not zero: the chart is
    never given up for lack of data. *)
Theorem status_chart_has_data (statuses : list string) :
  statuses <> [] ->
  AnalyzeData.any_sizes (AnalyzeData.status_counts statuses) = true.
Proof.
  intros Hne.
  assert (Htotal : 0 < Z.of_nat (List.length statuses)).
  { destruct statuses; [congruence | cbn [List.length]; lia]. }
  pose proof (status_counts_split statuses) as Hsplit.
  pose proof (error_count_others statuses) as Herr.
  unfold AnalyzeData.any_sizes, AnalyzeData.status_counts. cbv zeta.
  destruct (0 <? AnalyzeData.error_count statuses) eqn:E.
  - apply Z.ltb_lt in E. rewrite map_app, existsb_app. cbn [map snd existsb].
    replace (AnalyzeData.error_count statuses =? 0) with false
      by (symmetry; apply Z.eqb_neq; lia).
    cbn. now rewrite !orb_true_r.
  - apply Z.ltb_ge in E. cbn [map snd existsb].
    assert (Hp : 0 <= AnalyzeData.private_count statuses)
      by (unfold AnalyzeData.private_count, AnalyzeData.count_status; lia).
    assert (Hq : 0 <= AnalyzeData.public_count statuses)
      by (unfold AnalyzeData.public_count, AnalyzeData.count_status; lia).
    destruct (AnalyzeData.private_count statuses =? 0) eqn:E1;
      [|reflexivity].
    destruct (AnalyzeData.public_count statuses =? 0) eqn:E2;
      [|reflexivity].
    apply Z.eqb_eq in E1, E2. lia.
Qed.

Lemma status_chart_has_data_witness :
  AnalyzeData.any_sizes (AnalyzeData.status_counts ["Error"; "Error"]) = true.
Proof. apply status_chart_has_data. discriminate. Defined.

(** ** The statuses that reach the report *)

Lemma shape_record_status (stargazer : Stargazer) (acc : Analysis)
    (script : list Step) (user_data : Dict) (acc' : Analysis) :
  result (shape_record stargazer acc script) = Returned (user_data, acc') ->
  exists status,
    record_status user_data = Some (PStr status) /\
    written_status status.
Proof.
  unfold shape_record, written_status, record_status. intros H.
  apply bind_returned in H as (details & _ & H).
  destruct (truthy details) as [d|].
  - apply enrich_returned in H. cbv zeta in H.
    destruct H as (ud1 & acc1 & starred & total & H1 & _ & _ & H4).
    apply fetch_activity_returned in H4 as (Hact & _).
    apply fetch_owned_repos_returned in H1 as (Howned & _).
    rewrite Hact by discriminate. rewrite with_starred_status.
    destruct starred as [[|x l]|]; eauto.
    rewrite Howned by discriminate.
    rewrite with_details_frame by discriminate. cbn. eauto.
  - cbn in H. injection H as <- <-. cbn. eauto.
Qed.

Lemma other_written_status (status : string) :
  written_status status ->
  other_status status = String.eqb "Error" status.
Proof. intros [-> | [-> | ->]]; reflexivity. Qed.

Lemma error_count_written (statuses : list string) :
  Forall written_status statuses ->
  AnalyzeData.error_count statuses = AnalyzeData.count_status "Error" statuses.
Proof.
  intros Hall. rewrite error_count_others.
  unfold AnalyzeData.count_status. do 2 f_equal.
  induction Hall as [|s l Hs Hl IH]; [reflexivity|].
  cbn [filter]. now rewrite (other_written_status s Hs), IH.
Qed.

(** The statuses the records of a run hold are strings, each one of the
    three that fetch_and_save_stargazer_data writes. *)
Lemma statuses_of_records (records : list Dict) :
  Forall (fun user_data =>
            exists status, record_status user_data = Some (PStr status) /\
                           written_status status) records ->
  (exists statuses,
     map (fun status => Some (PStr status)) statuses
     = map record_status records) /\
  (forall statuses,
     map (fun status => Some (PStr status)) statuses
     = map record_status records ->
     Forall written_status statuses).
Proof.
  induction 1 as [|user_data records (status & Hstatus & Hwritten) _
                    [(statuses & IH1) IH2]].
  - split; [now exists []|]. intros [|s l]; [constructor | discriminate].
  - split.
    + exists (status :: statuses). cbn [map]. now rewrite Hstatus, IH1.
    + intros [|s l]; [discriminate|]. cbn [map]. rewrite Hstatus.
      intros [= -> Hl]. constructor; [exact Hwritten | now apply IH2].
Qed.

(** ** The input files of the report *)

Lemma eqb_append_head (base a b : string) :
  String.eqb (base ++ a) (base ++ b) = String.eqb a b.
Proof.
  induction base as [|c base IH]; cbn; [reflexivity|].
  now rewrite Ascii.eqb_refl.
Qed.

(** With the filenames of [generate_filenames] no lookup fails. *)
Lemma analyze_data_generated (path_exists : string -> bool)
    (owner repo timestamp : string) (statuses : list string) :
  let filenames := generate_filenames owner repo timestamp in
  AnalyzeData.analyze_data path_exists filenames statuses
  = Some
      (if negb (path_exists (file_of filenames "analysis_csv"))
       then AnalyzeData.ReturnedFalse
       else if negb (path_exists (file_of filenames "owned_list_csv"))
       then AnalyzeData.ReturnedFalse
       else if Z.of_nat (List.length statuses) =? 0
       then AnalyzeData.NoUserData
       else AnalyzeData.Counted (Z.of_nat (List.length statuses))
              (AnalyzeData.private_count statuses)
              (AnalyzeData.public_count statuses)
              (AnalyzeData.error_count statuses)).
Proof.
  cbv zeta. unfold AnalyzeData.analyze_data, file_of, generate_filenames.
  cbv zeta. cbn [filename String.eqb Ascii.eqb Bool.eqb].
  destruct (negb _); [reflexivity|].
  destruct (negb _); [reflexivity|].
  now destruct (_ =? 0).
Qed.

(** A run that kept the repositories of no user leaves the file of the
    owned repositories as it was. *)
Lemma owned_list_not_written (disk : Disk) (owner repo timestamp : string)
    (a : Analysis) :
  let filenames := generate_filenames owner repo timestamp in
  user_owned_repos_map a = [] ->
  path_exists disk (exported_files filenames a)
    (file_of filenames "owned_list_csv")
  = exists_before disk (file_of filenames "owned_list_csv").
Proof.
  cbv zeta. intros Hmap.
  unfold path_exists, exported_files, file_of, generate_filenames.
  cbv zeta. rewrite Hmap.
  cbn [is_empty filename String.eqb Ascii.eqb Bool.eqb app].
  destruct (is_empty (analysis_results a));
    destruct (is_empty (user_all_starred_map a));
    destruct (is_empty (user_activity_map a));
    cbn [app existsb]; rewrite ?eqb_append_head; cbn;
    now rewrite orb_false_r.
Qed.

(** X21: the report against the run that feeds it, through the files of
    [generate_filenames].  When the run fetched the repositories of no
    stargazer, it writes no owned-repositories CSV, and [analyze_data] finds
    none and returns [False] without a report, unless such a file was there
    before.  When both input files are there and the status column comes
    back as the strings the records hold, [analyze_data] counts one user per
    fetched stargazer, every status is one of the three the fetch writes,
    and the error count is the number of records still at [Error]. *)
Theorem report_counts_what_was_fetched
    (repo_owner repo_name timestamp : string) (limit : option Z)
    (script : list Step) (a : Analysis) (disk : Disk) :
  result (fetch_and_save_stargazer_data repo_owner repo_name limit script)
    = Returned (Some a) ->
  let filenames := generate_filenames repo_owner repo_name timestamp in
  let on_disk := path_exists disk (exported_files filenames a) in
  (forall statuses,
     user_owned_repos_map a = [] ->
     exists_before disk (file_of filenames "owned_list_csv") = false ->
     AnalyzeData.analyze_data on_disk filenames statuses
     = Some AnalyzeData.ReturnedFalse) /\
  (exists statuses,
     map (fun status => Some (PStr status)) statuses
     = map record_status (analysis_results a)) /\
  (forall statuses,
     on_disk (file_of filenames "analysis_csv") = true ->
     on_disk (file_of filenames "owned_list_csv") = true ->
     map (fun status => Some (PStr status)) statuses
     = map record_status (analysis_results a) ->
     Forall written_status statuses /\
     exists stargazers,
       result (get_stargazers repo_owner repo_name limit script)
         = Returned stargazers /\
       AnalyzeData.analyze_data on_disk filenames statuses
       = Some (AnalyzeData.Counted
                 (Z.of_nat (List.length stargazers))
                 (AnalyzeData.private_count statuses)
                 (AnalyzeData.public_count statuses)
                 (AnalyzeData.count_status "Error" statuses))).
Proof.
  intros H filenames on_disk.
  apply fetch_and_save_returned in H as (stargazers & Hget & Hne & H).
  assert (Hrecords :
    Forall (fun user_data =>
              exists status, record_status user_data = Some (PStr status) /\
                             written_status status) (analysis_results a)).
  { apply (analyse_all_records _ stargazers) with (acc := no_analysis)
      (script := rest (get_stargazers repo_owner repo_name limit script));
      [|exact H | constructor].
    intros stargazer acc script0 user_data acc' Hshape.
    now apply shape_record_status in Hshape. }
  destruct (statuses_of_records _ Hrecords) as [Hexists Hwritten].
  split; [|split; [exact Hexists|]].
  - intros statuses Hmap Hbefore. subst on_disk filenames.
    rewrite analyze_data_generated, owned_list_not_written by exact Hmap.
    rewrite Hbefore. cbn [negb]. now destruct (negb _).
  - intros statuses Hanalysis Howned Hmap.
    split; [now apply Hwritten|].
    exists stargazers. split; [exact Hget|].
    assert (Hlen : List.length statuses = List.length stargazers).
    { apply analyse_all_returned in H.
      apply (f_equal (@List.length _)) in H, Hmap.
      unfold record_logins in H. cbn [no_analysis analysis_results map app] in H.
      rewrite !length_map in H, Hmap. congruence. }
    subst on_disk filenames.
    rewrite analyze_data_generated, Hanalysis, Howned. cbn [negb].
    rewrite (error_count_written statuses (Hwritten statuses Hmap)), Hlen.
    destruct stargazers as [|s stargazers]; [congruence|].
    reflexivity.
Qed.

Lemma failed_run :
  result (fetch_and_save_stargazer_data "o" "r" None failed_script)
  = Returned (Some failed_analysis).
Proof. vm_compute. reflexivity. Qed.

Lemma report_counts_what_was_fetched_witness :
  AnalyzeData.analyze_data
    (path_exists empty_disk
       (exported_files (generate_filenames "o" "r" "20240501_120000")
          alice_analysis))
    (generate_filenames "o" "r" "20240501_120000")
    ["Public (Has Starred Repos)"]
  = Some (AnalyzeData.Counted 1 0 1 0) /\
  AnalyzeData.analyze_data
    (path_exists empty_disk
       (exported_files (generate_filenames "o" "r" "20240501_120000")
          failed_analysis))
    (generate_filenames "o" "r" "20240501_120000")
    ["Error"; "Error"]
  = Some AnalyzeData.ReturnedFalse.
Proof.
  destruct (report_counts_what_was_fetched "o" "r" "20240501_120000" None
              (page_alice_only :: alice_script) alice_analysis empty_disk
              alice_run) as (_ & _ & Hcounts).
  destruct (report_counts_what_was_fetched "o" "r" "20240501_120000" None
              failed_script failed_analysis empty_disk failed_run)
    as (Hnone & _).
  split; [|apply Hnone; reflexivity].
  destruct (Hcounts ["Public (Has Starred Repos)"])
    as (_ & stargazers & Hget & ->); try (vm_compute; reflexivity).
  replace stargazers with [alice]
    by (vm_compute in Hget; now injection Hget as <-).
  reflexivity.
Defined.

(** ** From the exported cell back to the repositories *)

Lemma split_no_sep (sep : ascii) (s : string) :
  ~ In sep (list_ascii_of_string s) -> split sep s = [s].
Proof.
  induction s as [|c s IH]; cbn; [reflexivity|]. intros H.
  destruct (Ascii.eqb c sep) eqn:E.
  - apply Ascii.eqb_eq in E. tauto.
  - rewrite IH by tauto. reflexivity.
Qed.

Lemma split_append (sep : ascii) (a b : string) :
  ~ In sep (list_ascii_of_string a) ->
  split sep (a ++ String sep b) = a :: split sep b.
Proof.
  induction a as [|c a IH]; cbn.
  - intros _. now rewrite Ascii.eqb_refl.
  - intros H. destruct (Ascii.eqb c sep) eqn:E.
    + apply Ascii.eqb_eq in E. tauto.
    + rewrite IH by tauto. reflexivity.
Qed.

Lemma split_joined (name : string) (names : list string) :
  Forall (fun n => ~ In ","%char (list_ascii_of_string n)) (name :: names) ->
  split "," (join ", " (name :: names)) = name :: map (String " ") names.
Proof.
  revert name. induction names as [|m names IH]; intros name H.
  - cbn [join map]. apply split_no_sep. now inversion H.
  - inversion H as [|? ? Hname Hrest]; subst.
    change (join ", " (name :: m :: names))
      with (name ++ String "," (String " " (join ", " (m :: names))))%string.
    rewrite split_append by assumption.
    cbn [split]. change (Ascii.eqb " " ",") with false. cbv iota.
    now rewrite (IH m Hrest).
Qed.

Lemma strip_after_space (s : string) : strip (String " " s) = strip s.
Proof. reflexivity. Qed.

Lemma list_ascii_of_lower (s : string) :
  list_ascii_of_string (lower s) = map lower_char (list_ascii_of_string s).
Proof. induction s as [|c s IH]; cbn; [reflexivity | now rewrite <- IH]. Qed.

Lemma lower_with_comma (s : string) :
  In ","%char (list_ascii_of_string s) -> lower s <> "none".
Proof.
  intros Hin Heq.
  assert (H : In ","%char (list_ascii_of_string (lower s))).
  { rewrite list_ascii_of_lower.
    change ","%char with (lower_char ","). now apply in_map. }
  rewrite Heq in H. cbn in H. intuition discriminate.
Qed.

Lemma joined_nonempty (name : string) (names : list string) :
  name <> "" -> join ", " (name :: names) <> "".
Proof.
  destruct names; cbn [join]; [auto|].
  destruct name; [congruence | discriminate].
Qed.

Lemma repos_of_cell (names : list string) :
  Forall plain names ->
  map lower names <> ["none"] ->
  AnalyzeData.repos_of (join_or_none ", " names) = names.
Proof.
  intros Hplain Hnone. unfold join_or_none.
  destruct names as [|name names]; [reflexivity|]. cbn [is_empty].
  unfold AnalyzeData.repos_of.
  assert (Hne : join ", " (name :: names) <> "").
  { apply joined_nonempty. inversion Hplain as [|? ? [H _] _]. exact H. }
  apply String.eqb_neq in Hne. rewrite Hne. cbn [negb andb].
  assert (Hlow : lower (join ", " (name :: names)) <> "none").
  { destruct names as [|m names].
    - cbn [join]. intros H. apply Hnone. cbn. now rewrite H.
    - apply lower_with_comma.
      change (join ", " (name :: m :: names))
        with (name ++ String "," (String " " (join ", " (m :: names))))%string.
      rewrite list_ascii_of_string_append. apply in_or_app. right. now left. }
  apply String.eqb_neq in Hlow. rewrite Hlow. cbn [negb].
  rewrite split_joined.
  - cbn [map]. rewrite map_map. f_equal.
    + inversion Hplain as [|? ? [_ [_ H]] _]. exact H.
    + inversion Hplain as [|? ? _ Hrest]; subst.
      clear - Hrest. induction Hrest as [|m names [_ [_ Hm]] _ IH];
        [reflexivity|].
      cbn [map]. now rewrite strip_after_space, Hm, IH.
  - apply Forall_impl with (2 := Hplain). intros n [_ [H _]]. exact H.
Qed.

(** X22: the repositories the report reads out of the column [owned_repos]
    are the repositories fetch_and_save_stargazer_data put into the map it
    exports, user by user and in order, for the rows whose cell comes back
    from the CSV file as the string that was written; a row whose cell comes
    back as a missing value or as a number adds nothing.  This holds when the
    names are plain (not empty, no comma, no whitespace at the ends) and no
    user owns just one repository called [none] in whatever case; such a
    user's cell reads as the word the export writes for no repository. *)
Theorem owned_repos_round_trip
    (user_owned_repos_map : list (string * list (string * string)))
    (column : list Cell) :
  Forall (fun entry => Forall plain (map fst (snd entry)) /\
                       map lower (map fst (snd entry)) <> ["none"])
    user_owned_repos_map ->
  Forall2 (fun entry cell => read_back (owned_repos_cell entry) cell)
    user_owned_repos_map column ->
  AnalyzeData.all_owned_repos column
  = flat_map names_read (combine user_owned_repos_map column) /\
  (Forall (fun cell => exists s, cell = CStr s) column ->
   AnalyzeData.all_owned_repos column
   = flat_map (fun entry => map fst (snd entry)) user_owned_repos_map).
Proof.
  intros Hplain Hread. unfold AnalyzeData.all_owned_repos.
  induction Hread as [|[user_login owned_list] cell m column Hcell _ IH];
    [split; reflexivity|].
  inversion Hplain as [|? ? [Hnames Hnone] Hrest]; subst.
  destruct (IH Hrest) as [IH1 IH2]. clear IH.
  cbn [fst snd] in Hnames, Hnone.
  unfold read_back, owned_repos_cell in Hcell.
  cbn [owned_repos_row fst snd] in Hcell.
  cbn [combine flat_map]. rewrite IH1. split.
  - f_equal. unfold names_read. cbn [fst snd].
    destruct cell as [s| |]; try reflexivity.
    subst s. now apply repos_of_cell.
  - intros Hall. inversion Hall as [|? ? [s ->] Hcolumn]; subst.
    rewrite <- IH1, (IH2 Hcolumn). f_equal.
    subst s. now apply repos_of_cell.
Qed.

Lemma owned_repos_round_trip_witness :
  AnalyzeData.all_owned_repos [CStr "tool, notes"] = ["tool"; "notes"].
Proof.
  destruct (owned_repos_round_trip (user_owned_repos_map alice_analysis)
              [CStr "tool, notes"]) as [_ H].
  - vm_compute. repeat constructor; try discriminate;
      cbn; intuition discriminate.
  - vm_compute. repeat constructor.
  - rewrite H; [vm_compute; reflexivity|].
    repeat constructor. now exists "tool, notes".
Defined.

(** * The command line *)

Lemma rstrip_by_none (drop : ascii -> bool) (s : string) :
  (forall c, In c (list_ascii_of_string s) -> drop c = false) ->
  rstrip_by drop s = s.
Proof.
  induction s as [|c s IH]; cbn; [reflexivity|]. intros H.
  rewrite IH by auto. destruct s; [|reflexivity].
  now rewrite (H c (or_introl eq_refl)).
Qed.

Lemma rstrip_by_append (drop : ascii -> bool) (a b : string) :
  rstrip_by drop b <> "" ->
  rstrip_by drop (a ++ b) = (a ++ rstrip_by drop b)%string.
Proof.
  intros Hb. induction a as [|c a IH]; cbn; [reflexivity|].
  rewrite IH. destruct (a ++ rstrip_by drop b)%string eqn:E; [|reflexivity].
  destruct a; cbn in E; [congruence | discriminate].
Qed.

Lemma string_append_assoc (a b c : string) :
  ((a ++ b) ++ c = a ++ b ++ c)%string.
Proof. induction a as [|x a IH]; cbn; [reflexivity | now rewrite IH]. Qed.

Lemma string_length_append (a b : string) :
  String.length (a ++ b) = (String.length a + String.length b)%nat.
Proof. induction a as [|c a IH]; cbn; [reflexivity | now rewrite IH]. Qed.

Lemma substring_append_right (a b : string) (n : nat) :
  substring (String.length a) n (a ++ b) = substring 0 n b.
Proof. induction a as [|c a IH]; cbn; [reflexivity | exact IH]. Qed.

Lemma substring_append_left (a b : string) :
  substring 0 (String.length a) (a ++ b) = a.
Proof.
  induction a as [|c a IH]; cbn; [now destruct b | now rewrite IH].
Qed.

Lemma without_git_suffix (name : string) :
  Main.without_git (name ++ ".git") = name.
Proof.
  unfold Main.without_git, ends_with.
  rewrite string_length_append. cbn [String.length].
  replace (4 <=? String.length name + 4)%nat with true
    by (symmetry; apply Nat.leb_le; lia).
  replace (String.length name + 4 - 4)%nat with (String.length name) by lia.
  rewrite substring_append_right. cbn [substring andb String.eqb Ascii.eqb Bool.eqb].
  apply substring_append_left.
Qed.

Lemma contains_here (sub s : string) : prefixb sub s = true -> contains sub s = true.
Proof. intros H. destruct s; cbn; rewrite H; reflexivity. Qed.

Lemma contains_later (sub : string) (c : ascii) (s : string) :
  contains sub s = true -> contains sub (String c s) = true.
Proof. intros H. cbn [contains]. rewrite H. apply orb_true_r. Qed.

(** X23: for an owner and a repository name without a slash, the name not
    empty, the command line of main.py takes
    [https://github.com/owner/repo] for that owner and that repository, less
    one [.git] at the end of the name if it has one. *)
Theorem github_url_is_parsed (owner repo : string) :
  ~ In "/"%char (list_ascii_of_string owner) ->
  ~ In "/"%char (list_ascii_of_string repo) ->
  repo <> "" ->
  Main.target ("https://github.com/" ++ owner ++ "/" ++ repo)
  = Some (owner, Main.without_git repo) /\
  Main.target ("https://github.com/" ++ owner ++ "/" ++ repo ++ ".git")
  = Some (owner, repo).
Proof.
  assert (Hgen : forall name,
    ~ In "/"%char (list_ascii_of_string owner) ->
    ~ In "/"%char (list_ascii_of_string name) ->
    name <> "" ->
    Main.target ("https://github.com/" ++ owner ++ "/" ++ name)
    = Some (owner, Main.without_git name)).
  { intros name Howner Hname Hne. unfold Main.target.
    assert (Hstrip : strip_char "/" ("https://github.com/" ++ owner ++ "/" ++ name)
                     = ("https://github.com/" ++ owner ++ "/" ++ name)%string).
    { unfold strip_char.
      replace (lstrip_by (Ascii.eqb "/")
                 ("https://github.com/" ++ owner ++ "/" ++ name))
        with ("https://github.com/" ++ owner ++ "/" ++ name)%string
        by reflexivity.
      assert (Hkeep : rstrip_by (Ascii.eqb "/") name = name).
      { apply rstrip_by_none. intros c Hc.
        destruct (Ascii.eqb "/" c) eqn:E; [|reflexivity].
        apply Ascii.eqb_eq in E. now subst c. }
      assert (Hassoc : ("https://github.com/" ++ owner ++ "/" ++ name
                        = ("https://github.com/" ++ owner ++ "/") ++ name)%string)
        by now rewrite !string_append_assoc.
      rewrite Hassoc at 1.
      rewrite rstrip_by_append; rewrite Hkeep; [now rewrite <- Hassoc | exact Hne]. }
    rewrite Hstrip.
    assert (Hsplit : split "/" ("https://github.com/" ++ owner ++ "/" ++ name)
                     = ["https:"; ""; "github.com"; owner; name]).
    { change ("https://github.com/" ++ owner ++ "/" ++ name)%string
        with ("https:" ++ String "/" ("" ++ String "/" ("github.com"
                ++ String "/" (owner ++ String "/" name))))%string.
      rewrite split_append by (cbn; intuition discriminate).
      rewrite split_append by (cbn; tauto).
      rewrite split_append by (cbn; intuition discriminate).
      rewrite split_append by assumption.
      now rewrite split_no_sep by assumption. }
    rewrite Hsplit.
    assert (Hin : contains "github.com"
                    (lower ("https://github.com/" ++ owner ++ "/" ++ name))
                  = true).
    { cbn [append lower map_string].
      do 8 apply contains_later. apply contains_here. reflexivity. }
    rewrite Hin. reflexivity. }
  intros Howner Hrepo Hne. split; [now apply Hgen|].
  rewrite <- (without_git_suffix repo) at 2.
  apply Hgen; [assumption | |].
  - rewrite list_ascii_of_string_append. intros Hin.
    apply in_app_or in Hin as [Hin | Hin]; [tauto|].
    cbn in Hin. intuition discriminate.
  - destruct repo; discriminate.
Qed.

Lemma github_url_is_parsed_witness :
  Main.target "https://github.com/cafferychen777/mLLMCelltype.git"
  = Some ("cafferychen777", "mLLMCelltype").
Proof.
  apply (github_url_is_parsed "cafferychen777" "mLLMCelltype").
  - cbn. intuition discriminate.
  - cbn. intuition discriminate.
  - discriminate.
Defined.

(** * A first request that fails *)

(** X24: when the first request for stargazers ends in a 4xx or 5xx reply
    that is not a rate-limit hit (a repository that does not exist, say),
    [get_stargazers] returns the empty list and
    fetch_and_save_stargazer_data returns at once, without a record, a map
    entry or a further request. *)
Theorem failed_first_request_ends_the_run
    (repo_owner repo_name : string) (limit : option Z) (st : Step)
    (script' : list Step) (current_per_page : Z) :
  failed_reply st = true ->
  stargazers_per_page limit 0 = Some current_per_page ->
  get_stargazers repo_owner repo_name limit (st :: script')
  = mkOut (Returned []) script'
      [EvGet (UrlStargazers repo_owner repo_name 1 current_per_page)] /\
  fetch_and_save_stargazer_data repo_owner repo_name limit (st :: script')
  = mkOut (Returned None) script'
      [EvGet (UrlStargazers repo_owner repo_name 1 current_per_page)].
Proof.
  unfold failed_reply. intros Hfailed Hpp.
  destruct (reply st) as [|r] eqn:Hreply; [discriminate|].
  apply andb_prop in Hfailed as [Hraises Hlimit].
  apply negb_true_iff in Hlimit.
  assert (Hget : get_stargazers repo_owner repo_name limit (st :: script')
                 = mkOut (Returned []) script'
                     [EvGet (UrlStargazers repo_owner repo_name 1
                               current_per_page)]).
  { unfold get_stargazers.
    now apply get_stargazers_loop_failure with (r := r). }
  split; [exact Hget|].
  unfold fetch_and_save_stargazer_data, bind. now rewrite Hget.
Qed.

Lemma failed_first_request_ends_the_run_witness :
  fetch_and_save_stargazer_data "o" "r" (Some 20) [not_found; page_carol]
  = mkOut (Returned None) [page_carol] [EvGet (UrlStargazers "o" "r" 1 20)].
Proof.
  apply (failed_first_request_ends_the_run "o" "r" (Some 20) not_found
           [page_carol] 20); reflexivity.
Defined.
